(** * Outline editor: list model and modal input state machine

    A shallow embedding of [TextEditor/ListManager.py] and of the key
    handlers of [TextEditor/Editor.py], with the properties of the outline
    numbering, of the flat-file persistence and of the modal key dispatch.

    Python values are modelled as follows.
    - [int] is [Z]; [str] is [list ascii] (written [str] below), so the
      characters are the code points below 256;
    - a Python list is a Rocq list, indexed the Python way: a negative index
      counts from the end, an index outside [-len, len) raises [IndexError];
    - an object attribute that may be missing ([ListItem.number], which
      [__init__] does not set) is an [option];
    - methods are state transformers that end in a value or in a raised
      exception, and in both cases in a state: mutations done before an
      exception is raised stay done;
    - the operating system is part of the state: the text files by path,
      and the answers of [os.urandom]; a text file keeps the characters
      written to it, and is read with universal newlines;
    - the terminal is left out: a handler takes the key that was read, and
      the screen is not modelled. *)

From Stdlib Require Import ZArith List Ascii String Decimal DecimalString Lia Bool.
From Stdlib Require DecimalZ DecimalPos.
From stdpp Require Import base option list numbers strings.

Local Open Scope Z_scope.
Local Open Scope list_scope.

(** ** Python strings *)

Abbreviation str := (list ascii).

Definition lit (s : string) : str := list_ascii_of_string s.

Module Py.

(** [len(x)] *)
Definition len {A} (l : list A) : Z := Z.of_nat (length l).

(** [str(n)] for an [int]. *)
Definition str_of_int (n : Z) : str :=
  list_ascii_of_string (NilZero.string_of_int (Z.to_int n)).

(** [sep.join(parts)] *)
Fixpoint join (sep : str) (parts : list str) : str :=
  match parts with
  | [] => []
  | [p] => p
  | p :: ps => p ++ sep ++ join sep ps
  end.

(** [s * n] for a string and an [int] ([n <= 0] gives the empty string). *)
Definition repeat_str (s : str) (n : Z) : str :=
  concat (replicate (Z.to_nat n) s).

(** [c.isspace()] on the code points below 256: tab, line feed, vertical
    tab, form feed, carriage return, the separators 28..31, space, NEL and
    the no-break space. *)
Definition isspace (c : ascii) : bool :=
  let n := Z.of_nat (nat_of_ascii c) in
  ((9 <=? n) && (n <=? 13)) || ((28 <=? n) && (n <=? 32))
  || (n =? 133) || (n =? 160).

(** [s.lstrip()], [s.rstrip()], [s.strip()] *)
Fixpoint lstrip (s : str) : str :=
  match s with
  | [] => []
  | c :: s' => if isspace c then lstrip s' else s
  end.

Definition rstrip (s : str) : str := rev (lstrip (rev s)).

Definition strip (s : str) : str := rstrip (lstrip s).

(** [s.split()]: the maximal runs of non-whitespace characters. [tok] is
    the run being read. *)
Fixpoint split_go (tok : str) (s : str) : list str :=
  match s with
  | [] => match tok with [] => [] | _ => [tok] end
  | c :: s' =>
      if isspace c
      then match tok with [] => split_go [] s' | _ => tok :: split_go [] s' end
      else split_go (tok ++ [c]) s'
  end.

Definition split (s : str) : list str := split_go [] s.

(** The position a slice bound [i] denotes in a sequence of length [n]:
    a negative bound counts from the end, and bounds are clamped. *)
Definition slice_bound (n i : Z) : nat :=
  Z.to_nat (if i <? 0 then Z.max 0 (i + n) else Z.min i n).

(** [l[:i]] and [l[i:]] *)
Definition slice_to {A} (l : list A) (i : Z) : list A :=
  take (slice_bound (len l) i) l.

Definition slice_from {A} (l : list A) (i : Z) : list A :=
  drop (slice_bound (len l) i) l.

(** The position an index denotes, when it is in range. *)
Definition index {A} (l : list A) (i : Z) : option nat :=
  let n := len l in
  if (0 <=? i) && (i <? n) then Some (Z.to_nat i)
  else if (- n <=? i) && (i <? 0) then Some (Z.to_nat (i + n))
  else None.

(** [l[i]]; [None] stands for [IndexError]. *)
Definition getitem {A} (l : list A) (i : Z) : option A :=
  k ← index l i; l !! k.

(** [l[i] = v]; [None] stands for [IndexError]. *)
Definition setitem {A} (l : list A) (i : Z) (v : A) : option (list A) :=
  k ← index l i; Some (<[k:=v]> l).

(** [l.insert(i, v)]: never fails, the position is clamped like a slice
    bound. *)
Definition insert {A} (l : list A) (i : Z) (v : A) : list A :=
  let k := slice_bound (len l) i in take k l ++ v :: drop k l.

(** [range(a, b)] *)
Definition range (a b : Z) : list Z := seqZ a (b - a).

(** A [for] loop whose body may raise: the body is run on the elements
    from left to right until one fails. *)
Fixpoint for_each {A B} (body : A -> B -> option A) (acc : A) (l : list B)
  : option A :=
  match l with
  | [] => Some acc
  | x :: l' => acc' ← body acc x; for_each body acc' l'
  end.

(** Reading a text file with universal newlines: a carriage return,
    alone or followed by a line feed, is read as a line feed. *)
Fixpoint universal_newlines (s : str) : str :=
  match s with
  | [] => []
  | c :: s' =>
      if decide (c = "013"%char)
      then match s' with
           | c' :: s'' =>
               if decide (c' = "010"%char)
               then "010"%char :: universal_newlines s''
               else "010"%char :: universal_newlines s'
           | [] => ["010"%char]
           end
      else c :: universal_newlines s'
  end.

(** The lines of a text, each with its line feed; [cur] is the line being
    read. A last line without line feed is a line too. *)
Fixpoint lines_go (cur : str) (s : str) : list str :=
  match s with
  | [] => match cur with [] => [] | _ => [cur] end
  | c :: s' =>
      if decide (c = "010"%char)
      then (cur ++ [c]) :: lines_go [] s'
      else lines_go (cur ++ [c]) s'
  end.

(** [for line in f] for a file opened in text mode for reading. *)
Definition readlines (text : str) : list str :=
  lines_go [] (universal_newlines text).

End Py.

(** ** Exceptions and stateful methods *)

Inductive exn := IndexError | AttributeError.

Inductive outcome (S A : Type) : Type :=
| Ok (a : A) (s : S)
| Raise (e : exn) (s : S).
Arguments Ok {S A} a s.
Arguments Raise {S A} e s.

(** The state a call ends in, whether it returns or raises. *)
Definition state_of {S A} (o : outcome S A) : S :=
  match o with Ok _ s => s | Raise _ s => s end.

Definition returns {S A} (o : outcome S A) : option A :=
  match o with Ok a _ => Some a | Raise _ _ => None end.

Definition M (S A : Type) : Type := S -> outcome S A.

Definition ret {S A} (a : A) : M S A := fun s => Ok a s.

Definition bind {S A B} (m : M S A) (k : A -> M S B) : M S B :=
  fun s => match m s with
           | Ok a s' => k a s'
           | Raise e s' => Raise e s'
           end.

Definition raise {S A} (e : exn) : M S A := fun s => Raise e s.

(** An indexing expression: its [None] is raised as [IndexError]. *)
Definition indexed {S A} (o : option A) : M S A :=
  match o with Some a => ret a | None => raise IndexError end.

Declare Scope py_scope.
Delimit Scope py_scope with py.
Notation "x <- m ;; k" := (bind m (fun x => k))
  (at level 20, m at level 99, k at level 200, only parsing) : py_scope.
Notation "m ;; k" := (bind m (fun _ => k))
  (at level 100, k at level 200, only parsing, right associativity) : py_scope.

(** ** ListItem *)

Record ListItem := mkListItem {
  content : str;
  level : Z;
  id : N;                          (* the four random bytes behind [id] *)
  children : list N;               (* always empty, never read *)
  parent : option N;               (* always None, never read *)
  collapsed : bool;
  metadata : list (str * str);     (* the dict, empty at creation *)
  number : option str              (* absent until the first renumbering *)
}.

Definition set_content (it : ListItem) (c : str) : ListItem :=
  mkListItem c (level it) (id it) (children it) (parent it)
             (collapsed it) (metadata it) (number it).

Definition set_level (it : ListItem) (l : Z) : ListItem :=
  mkListItem (content it) l (id it) (children it) (parent it)
             (collapsed it) (metadata it) (number it).

Definition set_collapsed (it : ListItem) (b : bool) : ListItem :=
  mkListItem (content it) (level it) (id it) (children it) (parent it)
             b (metadata it) (number it).

Definition set_number (it : ListItem) (n : str) : ListItem :=
  mkListItem (content it) (level it) (id it) (children it) (parent it)
             (collapsed it) (metadata it) (Some n).

(** [ListItem.__init__]: [rnd] is the value [os.urandom(4)] returned. *)
Definition new_ListItem (c : str) (l : Z) (rnd : N) : ListItem :=
  mkListItem c l rnd [] None false [] None.

(** ** The operating system: files and the random source *)

Record OS := mkOS {
  files : str -> option str;       (* path to text, None when absent *)
  urandom : nat -> N;              (* the k-th answer of os.urandom(4) *)
  drawn : nat                      (* how many answers were consumed *)
}.

Definition write_file (os : OS) (path text : str) : OS :=
  mkOS (fun p => if decide (p = path) then Some text else files os p)
       (urandom os) (drawn os).

Definition draw (os : OS) : N * OS :=
  (urandom os (drawn os), mkOS (files os) (urandom os) (S (drawn os))).

(** ** ListManager *)

Record ListManager := mkListManager {
  items : list ListItem;
  current_position : Z;
  root : ListItem
}.

Definition set_items (lm : ListManager) (its : list ListItem) : ListManager :=
  mkListManager its (current_position lm) (root lm).

Definition set_current_position (lm : ListManager) (p : Z) : ListManager :=
  mkListManager (items lm) p (root lm).

(** A method of ListManager runs on the manager and the operating system. *)
Definition LM (A : Type) : Type := M (ListManager * OS) A.

Module ListManager.

Local Open Scope py_scope.

(** Reading and mutating [self]. *)
Definition self_ : LM ListManager := fun '(self, os) => Ok self (self, os).

Definition update (f : ListManager -> ListManager) : LM unit :=
  fun '(self, os) => Ok tt (f self, os).

(** [ListManager.__init__] *)
Definition init : OS -> ListManager * OS :=
  fun os => let (rnd, os') := draw os in
            (mkListManager [] 0 (new_ListItem (lit "ROOT") (-1) rnd), os').

(** The body of the loop of [renumber_items] for one item of level
    [lvl]: the new counters and the number of the item, or [None] when an
    index is out of range. *)
Definition renumber_step (counters : list Z) (lvl : Z)
  : option (list Z * str) :=
  c1 ← Py.for_each (fun c i => Py.setitem c i 0) counters
                   (Py.range (lvl + 1) 11);
  v ← Py.getitem c1 lvl;
  c2 ← Py.setitem c1 lvl (v + 1);
  number_parts ← mapM (fun i => Py.str_of_int <$> Py.getitem c2 i)
                      (Py.range 0 (lvl + 1));
  Some (c2, Py.join (lit ".") number_parts).

(** The loop of [renumber_items] over the items not yet visited: the items
    as the loop leaves them, and the exception that stopped it, if any. *)
Fixpoint renumber_loop (counters : list Z) (its : list ListItem)
  : list ListItem * option exn :=
  match its with
  | [] => ([], None)
  | item :: rest =>
      match renumber_step counters (level item) with
      | None => (item :: rest, Some IndexError)
      | Some (counters', n) =>
          let (rest', e) := renumber_loop counters' rest in
          (set_number item n :: rest', e)
      end
  end.

Definition renumber_items : LM unit :=
  fun '(self, os) =>
    let (its, e) := renumber_loop (replicate 11 0) (items self) in
    match e with
    | None => Ok tt (set_items self its, os)
    | Some e => Raise e (set_items self its, os)
    end.

Definition _get_recommended_level : LM Z :=
  fun '(self, os) =>
    if bool_decide (items self = []) || (current_position self =? 0)
    then Ok 0 (self, os)
    else match Py.getitem (items self) (current_position self - 1) with
         | Some it => Ok (level it) (self, os)
         | None => Raise IndexError (self, os)
         end.

Definition fresh_item (c : str) (l : Z) : LM ListItem :=
  fun '(self, os) => let (rnd, os') := draw os in
                     Ok (new_ListItem c l rnd) (self, os').

(** The insertion of [add_item] and the advance of [current_position];
    the value is the position the new object now has in [items]. *)
Definition insert_new (new_item : ListItem) : LM nat :=
  fun '(self, os) =>
    let k := if current_position self <? Py.len (items self)
             then Py.slice_bound (Py.len (items self)) (current_position self)
             else length (items self) in
    let its := if current_position self <? Py.len (items self)
               then Py.insert (items self) (current_position self) new_item
               else items self ++ [new_item] in
    Ok k (mkListManager its (current_position self + 1) (root self), os).

(** The object at position [k] of [items], as it is now. *)
Definition item_at (k : nat) (dflt : ListItem) : LM ListItem :=
  fun '(self, os) => Ok (default dflt (items self !! k)) (self, os).

(** [add_item(content, level)]; [None] is the default [level=None]. The
    item returned is the object stored in [items], so the caller sees it
    with the number the final renumbering gave it. *)
Definition add_item (c : str) (lvl : option Z) : LM ListItem :=
  l <- match lvl with
       | None => _get_recommended_level
       | Some l => ret l
       end ;;
  new_item <- fresh_item c l ;;
  k <- insert_new new_item ;;
  renumber_items ;;
  item_at k new_item.

Definition delete_item (index : Z) : LM unit :=
  self <- self_ ;;
  if (0 <=? index) && (index <? Py.len (items self)) then
    update (fun self => set_items self (delete (Z.to_nat index) (items self))) ;;
    renumber_items ;;
    (* Adjust current position if needed *)
    update (fun self =>
      set_current_position self
        (Z.min (current_position self) (Py.len (items self) - 1)))
  else ret tt.

Definition indent_item (index : Z) : LM unit :=
  self <- self_ ;;
  if (0 <=? index) && (index <? Py.len (items self)) then
    (* Cannot indent beyond level 10 *)
    update (fun self =>
      set_items self
        (alter (fun it => set_level it (Z.min (level it + 1) 10))
               (Z.to_nat index) (items self))) ;;
    renumber_items
  else ret tt.

Definition outdent_item (index : Z) : LM unit :=
  self <- self_ ;;
  if (0 <=? index) && (index <? Py.len (items self)) then
    (* Cannot outdent below level 0 *)
    update (fun self =>
      set_items self
        (alter (fun it => set_level it (Z.max (level it - 1) 0))
               (Z.to_nat index) (items self))) ;;
    renumber_items
  else ret tt.

(** The text [save_to_file] writes for the items not yet visited, and the
    exception that stopped the loop, if any: an item that was never
    numbered has no [number] attribute. *)
Fixpoint save_text (its : list ListItem) : str * option exn :=
  match its with
  | [] => ([], None)
  | item :: rest =>
      let indent := Py.repeat_str (lit "    ") (level item) in
      match number item with
      | None => ([], Some AttributeError)
      | Some n =>
          let (text, e) := save_text rest in
          (indent ++ n ++ lit " " ++ content item ++ ["010"%char] ++ text, e)
      end
  end.

(** [save_to_file]: the file is created or truncated on opening, and
    holds what was written when the block is left, also by an exception. *)
Definition save_to_file (filename : str) : LM unit :=
  fun '(self, os) =>
    let (text, e) := save_text (items self) in
    match e with
    | None => Ok tt (self, write_file os filename text)
    | Some e => Raise e (self, write_file os filename text)
    end.

(** The body of the loop of [load_from_file] for one line. *)
Definition load_line (line : str) : LM unit :=
  let content := Py.strip line in
  match content with
  | [] => ret tt
  | _ =>
      (* Calculate indentation level *)
      let level := (Py.len line - Py.len (Py.lstrip line)) / 4 in
      (* Remove numbering *)
      let content := Py.join (lit " ") (Py.slice_from (Py.split content) 1) in
      add_item content (Some level) ;; ret tt
  end.

Fixpoint load_lines (lines : list str) : LM unit :=
  match lines with
  | [] => ret tt
  | line :: rest => load_line line ;; load_lines rest
  end.

Definition load_from_file (filename : str) : LM unit :=
  update (fun self => mkListManager [] 0 (root self)) ;;
  fun '(self, os) =>
    match files os filename with
    | Some text => load_lines (Py.readlines text) (self, os)
    | None => (* FileNotFoundError: pass *) Ok tt (self, os)
    end.

Definition toggle_collapse (index : Z) : LM unit :=
  self <- self_ ;;
  if (0 <=? index) && (index <? Py.len (items self)) then
    update (fun self =>
      set_items self
        (alter (fun it => set_collapsed it (negb (collapsed it)))
               (Z.to_nat index) (items self)))
  else ret tt.

End ListManager.

(** ** Editor *)

(** The key codes of the curses library (the values of ncurses' curses.h). *)
Module curses.
Definition KEY_DOWN : Z := 258.
Definition KEY_UP : Z := 259.
Definition KEY_LEFT : Z := 260.
Definition KEY_RIGHT : Z := 261.
Definition KEY_BACKSPACE : Z := 263.
Definition KEY_DC : Z := 330.
Definition KEY_BTAB : Z := 353.
End curses.

(** [ord(c)] *)
Definition ord (c : ascii) : Z := Z.of_nat (nat_of_ascii c).

(** [chr(n)] for a code below 256. *)
Definition chr (n : Z) : ascii := ascii_of_nat (Z.to_nat n).

Inductive Mode := NORMAL | INSERT | VISUAL | COMMAND.

(** The attributes of an Editor; the curses window [stdscr] is left out. *)
Record Editor := mkEditor {
  list_manager : ListManager;
  mode : Mode;
  current_line : Z;
  top_line : Z;
  filename : str;
  cursor_x : Z;
  enter_count : Z
}.

Definition set_list_manager (ed : Editor) (lm : ListManager) : Editor :=
  mkEditor lm (mode ed) (current_line ed) (top_line ed) (filename ed)
           (cursor_x ed) (enter_count ed).

Definition set_mode (m : Mode) (ed : Editor) : Editor :=
  mkEditor (list_manager ed) m (current_line ed) (top_line ed) (filename ed)
           (cursor_x ed) (enter_count ed).

Definition set_current_line (l : Z) (ed : Editor) : Editor :=
  mkEditor (list_manager ed) (mode ed) l (top_line ed) (filename ed)
           (cursor_x ed) (enter_count ed).

Definition set_cursor_x (x : Z) (ed : Editor) : Editor :=
  mkEditor (list_manager ed) (mode ed) (current_line ed) (top_line ed)
           (filename ed) x (enter_count ed).

Definition set_enter_count (n : Z) (ed : Editor) : Editor :=
  mkEditor (list_manager ed) (mode ed) (current_line ed) (top_line ed)
           (filename ed) (cursor_x ed) n.

(** A method of Editor runs on the editor and the operating system. *)
Definition ED (A : Type) : Type := M (Editor * OS) A.

Module Editor.

Local Open Scope py_scope.

Definition self_ : ED Editor := fun '(self, os) => Ok self (self, os).

Definition update (f : Editor -> Editor) : ED unit :=
  fun '(self, os) => Ok tt (f self, os).

(** A call of a method of [self.list_manager]. *)
Definition call {A} (m : LM A) : ED A :=
  fun '(self, os) =>
    match m (list_manager self, os) with
    | Ok a (lm, os') => Ok a (set_list_manager self lm, os')
    | Raise e (lm, os') => Raise e (set_list_manager self lm, os')
    end.

(** An assignment to an attribute of [self.list_manager] or of one of its
    items. *)
Definition update_lm (f : ListManager -> ListManager) : ED unit :=
  call (ListManager.update f).

(** [self.list_manager.items[k].content = c], for the object at the
    position [k] of the list. *)
Definition set_item_content (k : nat) (c : str) : ED unit :=
  update_lm (fun lm =>
    set_items lm (alter (fun it => set_content it c) k (items lm))).

(** [self.list_manager.items] *)
Definition items_ : ED (list ListItem) :=
  self <- self_ ;; ret (items (list_manager self)).

(** [Editor.__init__], without the curses set-up. *)
Definition init : OS -> outcome (Editor * OS) unit :=
  fun os =>
    let (lm, os') := ListManager.init os in
    (its <- items_ ;;
     match its with
     | [] =>
         call (ListManager.add_item [] None) ;;
         update (set_mode INSERT) ;;
         update (set_cursor_x 0)
     | _ => ret tt
     end)
    (mkEditor lm NORMAL 0 0 (lit "list.txt") 0 0, os').

(** A branch that falls through to the final [return True]. *)
Definition then_True (m : ED unit) : ED bool := m ;; ret true.

(** [handle_normal_mode(ch)]. [getch] is the key the nested
    [self.stdscr.getch()] returns; it is read only after a first [d]. *)
Definition handle_normal_mode (ch : Z) (getch : Z) : ED bool :=
  if ch =? ord "i" then
    update (set_mode INSERT) ;;
    its <- items_ ;;
    match its with
    | [] => call (ListManager.add_item [] None) ;; ret tt
    | _ => ret tt
    end ;;
    self <- self_ ;;
    it <- indexed (Py.getitem (items (list_manager self)) (current_line self)) ;;
    update (set_cursor_x (Py.len (content it))) ;;
    ret true
  else
    items <- items_ ;;
    match items with
    | [] => ret true
    | _ =>
      self <- self_ ;;
      if ch =? ord "o" then
        (* Insert new item below current *)
        then_True (
          update_lm (fun lm => set_current_position lm (current_line self + 1)) ;;
          call (ListManager.add_item [] None) ;;
          update (set_current_line (current_line self + 1)) ;;
          update (set_mode INSERT) ;;
          update (set_cursor_x 0))
      else if ch =? ord "O" then
        (* Insert new item above current *)
        then_True (
          update_lm (fun lm => set_current_position lm (current_line self)) ;;
          call (ListManager.add_item [] None) ;;
          update (set_mode INSERT) ;;
          update (set_cursor_x 0))
      else if (ch =? ord "j") || (ch =? curses.KEY_DOWN) then
        (* Move down *)
        then_True (
          update (set_current_line
                    (Z.min (Py.len items - 1) (current_line self + 1))))
      else if (ch =? ord "k") || (ch =? curses.KEY_UP) then
        (* Move up *)
        then_True (update (set_current_line (Z.max 0 (current_line self - 1))))
      else if (ch =? ord "d") && (getch =? ord "d") then
        (* Delete current line *)
        then_True (
          if 1 <? Py.len items then  (* Prevent deleting the last item *)
            call (ListManager.delete_item (current_line self)) ;;
            (* [items] is the list object itself: its length is read anew *)
            items <- items_ ;;
            update (set_current_line
                      (Z.min (current_line self) (Py.len items - 1)))
          else ret tt)
      else if ch =? ord ">" then
        then_True (call (ListManager.indent_item (current_line self)))
      else if ch =? ord "<" then
        then_True (call (ListManager.outdent_item (current_line self)))
      else if ch =? ord "s" then
        then_True (call (ListManager.save_to_file (filename self)))
      else if ch =? ord "q" then
        ret false
      else ret true
    end.

(** [handle_insert_mode(ch)]. [current_item] is the object at the
    position [k] of [items]; an assignment to its [content] is an update
    of the list at [k]. [self.enter_count] is set by [__init__], so the
    [hasattr] test holds. *)
Definition handle_insert_mode (ch : Z) : ED bool :=
  items <- items_ ;;
  match items with
  | [] =>
      call (ListManager.add_item [] None) ;;
      update (set_current_line 0) ;;
      ret true
  | _ =>
    self <- self_ ;;
    k <- indexed (Py.index items (current_line self)) ;;
    current_item <- indexed (items !! k) ;;
    if ch =? 27 then  (* ESC key *)
      update (set_mode NORMAL) ;;
      update (set_enter_count 0) ;;
      ret true
    else if ch =? 10 then  (* Enter key *)
      then_True (
        update (set_enter_count (enter_count self + 1)) ;;
        if enter_count self + 1 =? 2 then
          (* Double Enter - create new item *)
          update_lm (fun lm => set_current_position lm (current_line self + 1)) ;;
          call (ListManager.add_item [] (Some (level current_item))) ;;
          update (set_current_line (current_line self + 1)) ;;
          update (set_enter_count 0)
        else
          (* Single Enter - insert line break *)
          set_item_content k
            (Py.slice_to (content current_item) (cursor_x self)
             ++ ["010"%char]
             ++ Py.slice_from (content current_item) (cursor_x self)) ;;
          update (set_cursor_x (cursor_x self + 1)))
    else if ch =? 9 then  (* Tab key *)
      then_True (
        update (set_enter_count 0) ;;
        call (ListManager.indent_item (current_line self)))
    else if ch =? curses.KEY_BTAB then  (* Shift+Tab *)
      then_True (
        update (set_enter_count 0) ;;
        call (ListManager.outdent_item (current_line self)))
    else if (ch =? curses.KEY_BACKSPACE) || (ch =? 127) || (ch =? 8) then
      then_True (
        update (set_enter_count 0) ;;
        if (0 <? level current_item) && (cursor_x self =? 0) then
          (* If at start of line and indented, outdent *)
          call (ListManager.outdent_item (current_line self))
        else if (cursor_x self =? 0) && (0 <? current_line self) then
          (* If at start of line and not first line, merge with previous *)
          kp <- indexed (Py.index items (current_line self - 1)) ;;
          prev_item <- indexed (items !! kp) ;;
          set_item_content kp (content prev_item ++ content current_item) ;;
          call (ListManager.delete_item (current_line self)) ;;
          update (set_current_line (current_line self - 1)) ;;
          update (set_cursor_x (Py.len (content prev_item)))
        else if 0 <? cursor_x self then
          (* Normal backspace within line *)
          set_item_content k
            (Py.slice_to (content current_item) (cursor_x self - 1)
             ++ Py.slice_from (content current_item) (cursor_x self)) ;;
          update (set_cursor_x (cursor_x self - 1))
        else ret tt)
    else if ch =? curses.KEY_DC then
      then_True (
        update (set_enter_count 0) ;;
        if cursor_x self <? Py.len (content current_item) then
          set_item_content k
            (Py.slice_to (content current_item) (cursor_x self)
             ++ Py.slice_from (content current_item) (cursor_x self + 1))
        else ret tt)
    else if ch =? curses.KEY_LEFT then
      then_True (
        update (set_enter_count 0) ;;
        update (set_cursor_x (Z.max 0 (cursor_x self - 1))))
    else if ch =? curses.KEY_RIGHT then
      then_True (
        update (set_enter_count 0) ;;
        update (set_cursor_x
                  (Z.min (Py.len (content current_item)) (cursor_x self + 1))))
    else if (ch =? curses.KEY_UP) && (0 <? current_line self) then
      then_True (
        update (set_enter_count 0) ;;
        update (set_current_line (current_line self - 1)) ;;
        current_item <- indexed (Py.getitem items (current_line self - 1)) ;;
        update (set_cursor_x
                  (Z.min (cursor_x self) (Py.len (content current_item)))))
    else if (ch =? curses.KEY_DOWN)
            && (current_line self <? Py.len items - 1) then
      then_True (
        update (set_enter_count 0) ;;
        update (set_current_line (current_line self + 1)) ;;
        current_item <- indexed (Py.getitem items (current_line self + 1)) ;;
        update (set_cursor_x
                  (Z.min (cursor_x self) (Py.len (content current_item)))))
    else if (32 <=? ch) && (ch <=? 126) then  (* Printable characters *)
      then_True (
        update (set_enter_count 0) ;;
        set_item_content k
          (Py.slice_to (content current_item) (cursor_x self)
           ++ [chr ch]
           ++ Py.slice_from (content current_item) (cursor_x self)) ;;
        update (set_cursor_x (cursor_x self + 1)))
    else ret true
  end.

(** One turn of the loop of [run], after the screen is drawn and the key
    [ch] is read: the handler of the mode, then the renumbering; [None]
    when the loop is left. *)
Definition run_step (ch : Z) (getch : Z) : ED (option unit) :=
  self <- self_ ;;
  continue <- match mode self with
              | NORMAL =>
                  go <- handle_normal_mode ch getch ;;
                  if go then
                    (if ch =? ord "s"
                     then call (ListManager.save_to_file (filename self))
                     else ret tt) ;;
                    ret true
                  else ret false
              | INSERT => handle_insert_mode ch
              | _ => ret true
              end ;;
  if continue : bool then
    (* Renumber after each action *)
    call ListManager.renumber_items ;; ret (Some tt)
  else ret None.

End Editor.

(** ** Outline numbering

    [components] and [count_since] follow the words of the specification:
    the dot-separated components of a number, and the count of items at a
    level since the last item at a lower level. [tally], [bump],
    [number_from] and [numbered] are the closed form of the loop of
    [renumber_items], proved equal to it below. *)

Module Outline.

(** The dot-separated components of a number: [s.split(".")]; [cur] is
    the component being read. *)
Fixpoint components_go (cur : str) (s : str) : list str :=
  match s with
  | [] => [cur]
  | c :: s' =>
      if decide (c = "."%char)
      then cur :: components_go [] s'
      else components_go (cur ++ [c]) s'
  end.

Definition components (s : str) : list str := components_go [] s.

(** Reading the levels backwards from an item of level [l]: the number of
    items of level [l] met before an item of a level below [l]. *)
Fixpoint count_back (l : Z) (back : list Z) : Z :=
  match back with
  | [] => 0
  | x :: back' =>
      if x <? l then 0
      else if x =? l then count_back l back' + 1
      else count_back l back'
  end.

(** The count of items at the level of item [i] since the last item
    before it at a lower level, item [i] included. *)
Definition count_since (levels : list Z) (i : nat) : Z :=
  match levels !! i with
  | Some li => count_back li (rev (take (S i) levels))
  | None => 0
  end.

(** The eleven counts after the items whose levels, last first, are
    [back]. *)
Definition tally (back : list Z) : list Z :=
  (fun l => count_back l back) <$> [0; 1; 2; 3; 4; 5; 6; 7; 8; 9; 10].

(** The counters after one more item of level [lvl]. *)
Definition bump (counters : list Z) (lvl : Z) : list Z :=
  take (Z.to_nat lvl) counters
  ++ [default 0 (counters !! Z.to_nat lvl) + 1]
  ++ replicate (10 - Z.to_nat lvl) 0.

(** The number of an item of level [lvl] once the counters are
    [counters]. *)
Definition number_from (counters : list Z) (lvl : Z) : str :=
  Py.join (lit ".") (Py.str_of_int <$> take (S (Z.to_nat lvl)) counters).

(** The items numbered from their levels alone; [back] holds the levels
    of the items before them, last first. *)
Fixpoint numbered (back : list Z) (its : list ListItem) : list ListItem :=
  match its with
  | [] => []
  | it :: rest =>
      set_number it (number_from (tally (level it :: back)) (level it))
      :: numbered (level it :: back) rest
  end.

End Outline.

(** ** Well-formed states *)

(** The level [add_item] gives an item when none is passed. *)
Definition recommended_level (self : ListManager) : Z :=
  if current_position self =? 0 then 0
  else match items self !! Z.to_nat (current_position self - 1) with
       | Some it => level it
       | None => 0
       end.

(** Every level is in [0, 10]. *)
Definition levels_ok (its : list ListItem) : Prop :=
  Forall (fun it => 0 <= level it <= 10) its.

(** The invariants of a ListManager. *)
Definition manager_ok (self : ListManager) : Prop :=
  levels_ok (items self)
  /\ 0 <= current_position self <= Py.len (items self).

(** The numbers are up to date: renumbering changes nothing. *)
Definition numbers_ok (its : list ListItem) : Prop :=
  ListManager.renumber_loop (replicate 11 0) its = (its, None).

(** Two items that differ at most in their number. *)
Definition same_but_number (a b : ListItem) : Prop :=
  content a = content b /\ level a = level b /\ id a = id b
  /\ children a = children b /\ parent a = parent b
  /\ collapsed a = collapsed b /\ metadata a = metadata b.

(** The characters of [str(n)]: digits and the sign. *)
Definition numeral (c : ascii) : Prop :=
  In c (lit "0123456789-").

(** ** Persistence, as the file format has it *)

(** A string of whitespace, and a string without any. *)
Definition blank (s : str) : Prop := Forall (fun c => Py.isspace c = true) s.

Definition solid (s : str) : Prop := Forall (fun c => Py.isspace c = false) s.

(** A content that reading a line gives back unchanged: words separated by
    single spaces, and no other whitespace (so no line break either). *)
Definition normalised (c : str) : Prop :=
  Py.join (lit " ") (Py.split c) = c.

(** The line [save_to_file] writes for level [l], number [n], content
    [c]. *)
Definition line_of (l : Z) (n c : str) : str :=
  Py.repeat_str (lit "    ") l ++ n ++ lit " " ++ c ++ ["010"%char].

Definition line (it : ListItem) : str :=
  line_of (level it) (default [] (number it)) (content it).

(** What a round trip through a file shall keep of an item. *)
Definition level_content (it : ListItem) : Z * str := (level it, content it).

(** An item that can be written and read back. *)
Definition writable (it : ListItem) : Prop :=
  0 <= level it <= 10 /\ normalised (content it)
  /\ exists n, number it = Some n /\ n <> [] /\ solid n.

(** ** Sample states *)

Module Sample.

(** An operating system without files, whose random source counts. *)
Definition os : OS := mkOS (fun _ => None) (fun k => N.of_nat k) 0.

(** An item as [add_item] leaves it, with its number. *)
Definition item (c : string) (l : Z) (n : string) : ListItem :=
  mkListItem (lit c) l 0%N [] None false [] (Some (lit n)).

Definition manager (its : list ListItem) (pos : Z) : ListManager :=
  mkListManager its pos (new_ListItem (lit "ROOT") (-1) 0%N).

(** An editor in INSERT mode on [its], focus on line [line], cursor at
    [x], after [n] Enter keys. *)
Definition editor (its : list ListItem) (line x n : Z) : Editor :=
  mkEditor (manager its (line + 1)) INSERT line 0 (lit "list.txt") x n.

(** Five items of levels 0, 1, 1, 0, 1, not numbered yet. *)
Definition outline : list ListItem :=
  (fun l => new_ListItem (lit "x") l 0%N) <$> [0; 1; 1; 0; 1].

(** A file with one line, indented by 44 spaces. *)
Definition deep_file : str :=
  Py.repeat_str (lit " ") 44 ++ lit "1 x" ++ ["010"%char].

(** A document whose one item has two spaces between its words. *)
Definition spaced : ListManager := manager [item "a  b" 0 "1"] 1.

(** The editor of the Enter example: one item "ab", cursor at offset 1. *)
Definition ab : Editor := editor [item "ab" 0 "1"] 0 1 0.

(** The editor of the merge example: "foo" and "bar" at level 0, focus on
    "bar", cursor at offset 0. *)
Definition foo_bar_items : list ListItem :=
  [item "foo" 0 "1"; item "bar" 0 "2"].

Definition foo_bar : Editor := editor foo_bar_items 1 0 0.

End Sample.

(** The three codes of the Backspace key. *)
Definition backspace (ch : Z) : Prop :=
  ch = curses.KEY_BACKSPACE \/ ch = 127 \/ ch = 8.

(** The keys whose branch of [handle_insert_mode] runs whatever the
    state. *)
Definition resetting (ch : Z) : Prop :=
  ch = 9 \/ ch = curses.KEY_BTAB \/ backspace ch \/ ch = curses.KEY_DC
  \/ ch = curses.KEY_LEFT \/ ch = curses.KEY_RIGHT \/ 32 <= ch <= 126.

(** Key codes written with [ord] are evaluated. *)
Ltac eval_ord :=
  repeat match goal with
         | |- context [ord ?c] =>
             let v := eval vm_compute in (ord c) in change (ord c) with v
         end.

(** Tests on closed integers are evaluated. *)
Ltac eval_tests :=
  repeat match goal with
         | |- context [?a =? ?b] =>
             let v := eval vm_compute in (a =? b) in
             match v with
             | true => change (a =? b) with true
             | false => change (a =? b) with false
             end
         end.

(** One step of a handler: the plumbing of the calls is opened, the calls
    into ListManager and the arithmetic are kept. *)
Ltac run_py :=
  unfold Editor.then_True, bind, Editor.update, Editor.update_lm,
    Editor.set_item_content, Editor.call, ListManager.update, Editor.items_,
    Editor.self_, ret, raise, indexed;
  cbn -[Py.index Py.getitem Py.len lookup ListManager.outdent_item
        ListManager.indent_item ListManager.delete_item ListManager.add_item
        Py.slice_to Py.slice_from Z.ltb Z.eqb Z.leb Z.add Z.sub
        Z.min Z.max alter Outline.numbered].

(** ** Calls in sequence, and further notions *)

(** [add_item(c)] for each content of [cs], in order. *)
Fixpoint add_all (cs : list str) : LM unit :=
  match cs with
  | [] => ret tt
  | c :: cs' => bind (ListManager.add_item c None) (fun _ => add_all cs')
  end.

(** [m] called [n] times. *)
Fixpoint times (n : nat) (m : LM unit) : LM unit :=
  match n with
  | O => ret tt
  | S n' => bind m (fun _ => times n' m)
  end.

(** How many of [levels] equal [m]. *)
Definition count_level (m : Z) (levels : list Z) : Z :=
  Z.of_nat (length (filter (fun x => x = m) levels)).

(** The lines [load_from_file] reads: none when the file is missing. *)
Definition file_lines (os : OS) (filename : str) : list str :=
  match files os filename with
  | Some text => Py.readlines text
  | None => []
  end.

(** The leading whitespace of a line, as [load_from_file] measures it. *)
Definition indentation (line : str) : Z :=
  Py.len line - Py.len (Py.lstrip line).

(** What [load_from_file] makes of a line: nothing of a blank line, else
    the level and the content of an item. *)
Definition parse_line (line : str) : option (Z * str) :=
  match Py.strip line with
  | [] => None
  | _ => Some (indentation line / 4,
               Py.join (lit " ") (Py.slice_from (Py.split (Py.strip line)) 1))
  end.

(** A line that is blank, or indented by fewer than 44 characters. *)
Definition loadable (line : str) : Prop :=
  Py.strip line = [] \/ indentation line < 44.

(** The invariant of the editor loop: levels in range, numbers up to
    date, the focus on an item (line 0 when there is none), and a cursor
    offset and a first line on screen that are not negative. *)
Definition editor_ok (ed : Editor) : Prop :=
  levels_ok (items (list_manager ed))
  /\ numbers_ok (items (list_manager ed))
  /\ 0 <= current_line ed < Z.max 1 (Py.len (items (list_manager ed)))
  /\ 0 <= cursor_x ed
  /\ 0 <= top_line ed.

Definition set_top_line (t : Z) (ed : Editor) : Editor :=
  mkEditor (list_manager ed) (mode ed) (current_line ed) t (filename ed)
           (cursor_x ed) (enter_count ed).

(** The start and the loop of [Editor.run], on the keys the terminal
    delivers. The drawing that [display] does is not part of the model:
    the theorems on [turns] and [session] say nothing of it. *)
Module Run.

Local Open Scope py_scope.

(** The first statements of [display], which scroll: [top_line] is moved
    until the current line is in the window of [height - 2] rows.
    [height] is the first component of [getmaxyx()]. *)
Definition scroll (height : Z) (self : Editor) : Editor :=
  let available_height := height - 2 in
  (* Ensure current line is visible *)
  if current_line self <? top_line self then
    set_top_line (current_line self) self
  else if top_line self + available_height <=? current_line self then
    set_top_line (current_line self - available_height + 1) self
  else self.

(** The start of [run]: the file is loaded when it exists, else an empty
    item is added. *)
Definition start : ED unit :=
  self <- Editor.self_ ;;
  fun '(ed, os) =>
    match files os (filename self) with
    | Some _ =>
        Editor.call (ListManager.load_from_file (filename self)) (ed, os)
    | None =>
        (Editor.call (ListManager.add_item [] None) ;;
         Editor.update (set_mode INSERT)) (ed, os)
    end.

(** Whether [handle_normal_mode] reads a second key: its test of [d] is
    reached in NORMAL mode with items, and only by [d] itself. *)
Definition reads_second_key (self : Editor) (ch : Z) : bool :=
  match mode self, items (list_manager self) with
  | NORMAL, _ :: _ => ch =? ord "d"
  | _, _ => false
  end.

(** The turns of the [while True] loop on the keys [keys] that [getch()]
    returns one after the other; a turn is [Editor.run_step], so the call
    of [display] that opens it is left out. The value is [None] when the
    loop is left by [break], and [Some tt] when the keys are used up and
    [getch()] waits for the next one. *)
Fixpoint turns (keys : list Z) : ED (option unit) :=
  match keys with
  | [] => ret (Some tt)
  | ch :: rest =>
      self <- Editor.self_ ;;
      if reads_second_key self ch then
        match rest with
        | [] => ret (Some tt)
        | second :: rest =>
            r <- Editor.run_step ch second ;;
            match r with
            | Some _ => turns rest
            | None => ret None
            end
        end
      else
        r <- Editor.run_step ch 0 ;;
        match r with
        | Some _ => turns rest
        | None => ret None
        end
  end.

(** [Editor(stdscr)], the start of [run] and the turns of its loop. *)
Definition session (keys : list Z) (os : OS)
  : outcome (Editor * OS) (option unit) :=
  match Editor.init os with
  | Ok _ s => (start ;; turns keys) s
  | Raise e s => Raise e s
  end.

End Run.


(** * Properties *)

(** ** Python strings and lists *)

Section PyFacts.

Lemma len_nonneg {A} (l : list A) : 0 <= Py.len l.
Proof. unfold Py.len. lia. Qed.

Lemma index_in_range {A} (l : list A) (i : Z) :
  0 <= i < Py.len l -> Py.index l i = Some (Z.to_nat i).
Proof.
  intros H. unfold Py.index.
  destruct (Z.leb_spec 0 i), (Z.ltb_spec i (Py.len l)); simpl; try lia; easy.
Qed.

Lemma getitem_in_range {A} (l : list A) (i : Z) :
  0 <= i < Py.len l -> Py.getitem l i = l !! Z.to_nat i.
Proof. intros H. unfold Py.getitem. now rewrite index_in_range. Qed.

Lemma len_length {A} (l : list A) : Py.len l = Z.of_nat (length l).
Proof. reflexivity. Qed.

Lemma len_insert {A} (l : list A) (k : nat) (x : A) :
  Py.len (<[k:=x]> l) = Py.len l.
Proof. unfold Py.len. now rewrite length_insert. Qed.

Lemma alter_as_insert {A} (f : A -> A) (l : list A) (k : nat) (x : A) :
  l !! k = Some x -> alter f k l = <[k := f x]> l.
Proof.
  intros H. apply list_eq. intros i.
  destruct (decide (i = k)) as [->|N].
  - rewrite list_lookup_alter_eq, H, list_lookup_insert_eq; [reflexivity|].
    now apply lookup_lt_Some in H.
  - rewrite list_lookup_alter_ne, list_lookup_insert_ne by congruence.
    reflexivity.
Qed.

Lemma focus_in_range {A} (l : list A) (line : Z) (x : A) :
  0 <= line -> l !! Z.to_nat line = Some x -> 0 <= line < Py.len l.
Proof.
  intros H Hx. apply lookup_lt_Some in Hx. rewrite len_length. lia.
Qed.

Lemma slice_to_app {A} (pre post : list A) :
  Py.slice_to (pre ++ post) (Py.len pre) = pre.
Proof.
  unfold Py.slice_to, Py.slice_bound.
  destruct (Z.ltb_spec (Py.len pre) 0) as [H|H];
    [pose proof (len_nonneg pre); lia|].
  rewrite !len_length, length_app, Z.min_l, Nat2Z.id by lia.
  now rewrite take_app_length.
Qed.

Lemma slice_from_app {A} (pre post : list A) :
  Py.slice_from (pre ++ post) (Py.len pre) = post.
Proof.
  unfold Py.slice_from, Py.slice_bound.
  destruct (Z.ltb_spec (Py.len pre) 0) as [H|H];
    [pose proof (len_nonneg pre); lia|].
  rewrite !len_length, length_app, Z.min_l, Nat2Z.id by lia.
  now rewrite drop_app_length.
Qed.

End PyFacts.

(** ** Renumbering *)

Section Renumber.

Import ListManager Outline.

Lemma level_cases (l : Z) :
  0 <= l <= 10 ->
  l = 0 \/ l = 1 \/ l = 2 \/ l = 3 \/ l = 4 \/ l = 5 \/ l = 6 \/ l = 7
  \/ l = 8 \/ l = 9 \/ l = 10.
Proof. lia. Qed.

(** One turn of the loop, for a level in range and eleven counters. *)
Lemma renumber_step_bump (counters : list Z) (lvl : Z) :
  length counters = 11%nat -> 0 <= lvl <= 10 ->
  renumber_step counters lvl
  = Some (bump counters lvl, number_from (bump counters lvl) lvl).
Proof.
  intros Hlen Hl.
  do 12 (destruct counters as [|? counters]; try discriminate Hlen).
  destruct (level_cases _ Hl) as [->|[->|[->|[->|[->|[->|[->|[->|[->|[->| ->]]]]]]]]]];
    reflexivity.
Qed.

Lemma tally_length (back : list Z) : length (tally back) = 11%nat.
Proof. reflexivity. Qed.

Lemma tally_nil : tally [] = replicate 11 0.
Proof. reflexivity. Qed.

(** The counters count: one more item of level [lvl] turns the counts of
    [back] into the counts of [lvl :: back]. *)
Lemma bump_tally (back : list Z) (lvl : Z) :
  0 <= lvl <= 10 -> bump (tally back) lvl = tally (lvl :: back).
Proof.
  intros Hl.
  destruct (level_cases _ Hl) as [->|[->|[->|[->|[->|[->|[->|[->|[->|[->| ->]]]]]]]]]];
    reflexivity.
Qed.

Lemma tally_lookup (back : list Z) (l : Z) :
  0 <= l <= 10 -> tally back !! Z.to_nat l = Some (count_back l back).
Proof.
  intros Hl.
  destruct (level_cases _ Hl) as [->|[->|[->|[->|[->|[->|[->|[->|[->|[->| ->]]]]]]]]]];
    reflexivity.
Qed.

(** The loop numbers the items from their levels alone. *)
Lemma renumber_loop_numbered (its : list ListItem) :
  forall back, levels_ok its ->
               renumber_loop (tally back) its = (numbered back its, None).
Proof.
  induction its as [|it rest IH]; intros back Hok; [reflexivity|].
  apply Forall_cons in Hok as [Hit Hrest]. simpl.
  rewrite renumber_step_bump by (auto using tally_length).
  rewrite bump_tally by assumption.
  now rewrite IH.
Qed.

Lemma numbered_length (its : list ListItem) :
  forall back, length (numbered back its) = length its.
Proof. induction its; intros; simpl; auto. Qed.

Lemma numbered_level (its : list ListItem) :
  forall back, level <$> numbered back its = level <$> its.
Proof. induction its as [|it rest IH]; intros; simpl; [|rewrite IH]; auto. Qed.

Lemma numbered_levels_ok (its : list ListItem) (back : list Z) :
  levels_ok its -> levels_ok (numbered back its).
Proof.
  revert back. induction its as [|it rest IH]; intros back H; simpl.
  - constructor.
  - apply Forall_cons in H as [? ?]. constructor; simpl; auto. now apply IH.
Qed.

(** Numbering is by levels only: numbering numbered items again changes
    nothing. *)
Lemma numbered_idem (its : list ListItem) :
  forall back, numbered back (numbered back its) = numbered back its.
Proof. induction its as [|it rest IH]; intros; simpl; [|rewrite IH]; auto. Qed.

Lemma numbered_same_but_number (its : list ListItem) :
  forall back, Forall2 same_but_number its (numbered back its).
Proof.
  induction its as [|it rest IH]; intros; simpl; constructor; auto.
  repeat split.
Qed.

(** Item [i] is numbered by the levels up to it. *)
Lemma numbered_lookup (its : list ListItem) :
  forall back i it,
    its !! i = Some it ->
    numbered back its !! i
    = Some (set_number it
              (number_from
                 (tally (rev (take (S i) (level <$> its)) ++ back))
                 (level it))).
Proof.
  induction its as [|x rest IH]; intros back i it Hi; [discriminate|].
  destruct i as [|i]; simpl in *.
  - now inversion Hi.
  - rewrite (IH _ _ _ Hi). now rewrite <- app_assoc.
Qed.

(** [renumber_items] on levels in range: it returns, and leaves the
    items numbered. *)
Lemma renumber_items_ok (self : ListManager) (os : OS) :
  levels_ok (items self) ->
  renumber_items (self, os)
  = Ok tt (set_items self (numbered [] (items self)), os).
Proof.
  intros H. unfold renumber_items.
  now rewrite <- tally_nil, renumber_loop_numbered.
Qed.

End Renumber.

(** ** The operations of ListManager *)

Section Operations.

Import ListManager Outline.

(** Renumbering touches numbers only, also when it raises. *)
Lemma renumber_loop_same (its : list ListItem) :
  forall c, Forall2 same_but_number its (fst (renumber_loop c its)).
Proof.
  induction its as [|it rest IH]; intros c; simpl; [constructor|].
  destruct (renumber_step c (level it)) as [[c' n]|].
  - specialize (IH c'). destruct (renumber_loop c' rest) as [rest' e].
    simpl in *. constructor; [repeat split|exact IH].
  - simpl. apply Forall2_same_length_lookup_2; [reflexivity|].
    intros i x y Hx Hy. rewrite Hx in Hy. injection Hy as <-. repeat split.
Qed.

(** [delete_item] on an index in range: the item goes, the rest is
    renumbered, and [current_position] is adjusted unless the renumbering
    raised. *)
Lemma delete_item_eq (index : Z) (self : ListManager) (os : OS) :
  0 <= index < Py.len (items self) ->
  delete_item index (self, os)
  = let (its', e) := renumber_loop (replicate 11 0)
                                   (delete (Z.to_nat index) (items self)) in
    match e with
    | None =>
        Ok tt (mkListManager its'
                 (Z.min (current_position self) (Py.len its' - 1))
                 (root self), os)
    | Some e =>
        Raise e (mkListManager its' (current_position self) (root self), os)
    end.
Proof.
  intros H. unfold delete_item, bind, self_.
  destruct (Z.leb_spec 0 index), (Z.ltb_spec index (Py.len (items self)));
    try lia.
  cbn [andb update renumber_items items set_items].
  destruct (renumber_loop _ _) as [its' [e|]]; reflexivity.
Qed.

(** [delete_item] on an index out of range does nothing. *)
Lemma delete_item_skip (index : Z) (self : ListManager) (os : OS) :
  ~ 0 <= index < Py.len (items self) ->
  delete_item index (self, os) = Ok tt (self, os).
Proof.
  intros H. unfold delete_item, bind, self_.
  destruct (Z.leb_spec 0 index), (Z.ltb_spec index (Py.len (items self)));
    try lia; reflexivity.
Qed.

Lemma delete_item_ok (index : Z) (self : ListManager) (os : OS) :
  0 <= index < Py.len (items self) ->
  levels_ok (items self) ->
  delete_item index (self, os)
  = Ok tt (mkListManager
             (numbered [] (delete (Z.to_nat index) (items self)))
             (Z.min (current_position self) (Py.len (items self) - 2))
             (root self), os).
Proof.
  intros H Hok. rewrite delete_item_eq by assumption.
  rewrite <- tally_nil, renumber_loop_numbered by (now apply Forall_delete).
  rewrite !len_length, numbered_length, length_delete.
  - do 3 f_equal. rewrite len_length in H. lia.
  - apply lookup_lt_is_Some. rewrite len_length in H. lia.
Qed.

Lemma outdent_item_ok (index : Z) (self : ListManager) (os : OS) :
  0 <= index < Py.len (items self) ->
  levels_ok (items self) ->
  outdent_item index (self, os)
  = Ok tt (set_items self
             (numbered []
                (alter (fun it => set_level it (Z.max (level it - 1) 0))
                       (Z.to_nat index) (items self))), os).
Proof.
  intros H Hok. unfold outdent_item, bind, self_.
  destruct (Z.leb_spec 0 index), (Z.ltb_spec index (Py.len (items self)));
    try lia.
  cbn [andb update]. rewrite renumber_items_ok; [reflexivity|].
  cbn [items set_items]. apply Forall_alter; [exact Hok|].
  intros it _ Hit. simpl. lia.
Qed.

Lemma indent_item_ok (index : Z) (self : ListManager) (os : OS) :
  0 <= index < Py.len (items self) ->
  levels_ok (items self) ->
  indent_item index (self, os)
  = Ok tt (set_items self
             (numbered []
                (alter (fun it => set_level it (Z.min (level it + 1) 10))
                       (Z.to_nat index) (items self))), os).
Proof.
  intros H Hok. unfold indent_item, bind, self_.
  destruct (Z.leb_spec 0 index), (Z.ltb_spec index (Py.len (items self)));
    try lia.
  cbn [andb update]. rewrite renumber_items_ok; [reflexivity|].
  cbn [items set_items]. apply Forall_alter; [exact Hok|].
  intros it _ Hit. simpl. lia.
Qed.

End Operations.

(** ** The invariants of ListManager *)

Section Invariants.

Import ListManager Outline.

Lemma recommended_level_ok (self : ListManager) (os : OS) :
  0 <= current_position self <= Py.len (items self) ->
  _get_recommended_level (self, os) = Ok (recommended_level self) (self, os).
Proof.
  intros Hpos. unfold _get_recommended_level, recommended_level.
  destruct (Z.eqb_spec (current_position self) 0) as [E|N].
  - now rewrite orb_true_r.
  - rewrite orb_false_r.
    destruct (items self) as [|a rest] eqn:Eits.
    + rewrite len_length in Hpos. simpl in Hpos. lia.
    + rewrite bool_decide_eq_false_2 by discriminate.
      rewrite getitem_in_range by lia.
      destruct (lookup_lt_is_Some_2 (a :: rest) (Z.to_nat (current_position self - 1)))
        as [it Hit]; [rewrite len_length in Hpos; lia|].
      now rewrite Hit.
Qed.

Lemma recommended_level_range (self : ListManager) :
  levels_ok (items self) -> 0 <= recommended_level self <= 10.
Proof.
  intros Hok. unfold recommended_level.
  destruct (_ =? 0); [lia|].
  destruct (items self !! _) as [it|] eqn:E; [|lia].
  unfold levels_ok in Hok. rewrite Forall_lookup in Hok. eauto.
Qed.

Lemma insert_new_at (new_item : ListItem) (self : ListManager) (os : OS) :
  0 <= current_position self <= Py.len (items self) ->
  insert_new new_item (self, os)
  = Ok (Z.to_nat (current_position self))
       (mkListManager
          (take (Z.to_nat (current_position self)) (items self)
           ++ new_item :: drop (Z.to_nat (current_position self)) (items self))
          (current_position self + 1) (root self), os).
Proof.
  intros Hpos. unfold insert_new, Py.insert, Py.slice_bound.
  destruct (Z.ltb_spec (current_position self) (Py.len (items self))) as [H|H].
  - destruct (Z.ltb_spec (current_position self) 0); [lia|].
    now rewrite Z.min_l by lia.
  - assert (E : Z.to_nat (current_position self) = length (items self))
      by (rewrite len_length in *; lia).
    rewrite E, take_ge, drop_ge by lia. reflexivity.
Qed.

Lemma add_item_default_ok (c : str) (self : ListManager) (os : OS) :
  manager_ok self ->
  let k := Z.to_nat (current_position self) in
  let new_item := new_ListItem c (recommended_level self) (fst (draw os)) in
  exists it : ListItem,
    add_item c None (self, os)
    = Ok it (mkListManager
               (numbered [] (take k (items self) ++ new_item :: drop k (items self)))
               (current_position self + 1) (root self), snd (draw os))
    /\ content it = c /\ level it = recommended_level self.
Proof.
  intros [Hok Hpos] k new_item.
  assert (Hok' : levels_ok (take k (items self) ++ new_item :: drop k (items self))).
  { apply Forall_app. split; [now apply Forall_take|].
    constructor; [apply (recommended_level_range _ Hok)|now apply Forall_drop]. }
  assert (Hk : (take k (items self) ++ new_item :: drop k (items self)) !! k = Some new_item).
  { apply list_lookup_middle. rewrite length_take. subst k.
    rewrite len_length in Hpos. lia. }
  unfold add_item, bind. rewrite recommended_level_ok by assumption.
  unfold fresh_item. cbn [draw fst snd].
  rewrite insert_new_at by assumption.
  rewrite renumber_items_ok by exact Hok'.
  unfold item_at. cbn [items set_items].
  rewrite (numbered_lookup _ _ _ _ Hk). cbn [default from_option id].
  eexists. split; [reflexivity|]. split; reflexivity.
Qed.

Lemma add_item_default_keeps (c : str) (self : ListManager) (os : OS) :
  manager_ok self -> manager_ok (fst (state_of (add_item c None (self, os)))).
Proof.
  intros H. destruct (add_item_default_ok c self os H) as (it & -> & _).
  destruct H as [Hok Hpos]. cbn [state_of fst]. split; cbn [items current_position].
  - apply numbered_levels_ok, Forall_app. split; [now apply Forall_take|].
    constructor; [apply (recommended_level_range _ Hok)|now apply Forall_drop].
  - rewrite len_length, numbered_length, length_app, length_take. simpl.
    rewrite length_drop. rewrite len_length in Hpos. lia.
Qed.

Lemma indent_item_keeps (index : Z) (self : ListManager) (os : OS) :
  manager_ok self -> manager_ok (fst (state_of (indent_item index (self, os)))).
Proof.
  intros [Hok Hpos].
  destruct (decide (0 <= index < Py.len (items self))) as [H|H].
  - rewrite indent_item_ok by assumption. cbn [state_of fst].
    split; cbn [items set_items current_position].
    + apply numbered_levels_ok, Forall_alter; [exact Hok|].
      intros it _ Hit. simpl. lia.
    + now rewrite len_length, numbered_length, length_alter, <- len_length.
  - unfold indent_item, bind, self_.
    destruct (Z.leb_spec 0 index), (Z.ltb_spec index (Py.len (items self)));
      try lia; now split.
Qed.

Lemma outdent_item_keeps (index : Z) (self : ListManager) (os : OS) :
  manager_ok self -> manager_ok (fst (state_of (outdent_item index (self, os)))).
Proof.
  intros [Hok Hpos].
  destruct (decide (0 <= index < Py.len (items self))) as [H|H].
  - rewrite outdent_item_ok by assumption. cbn [state_of fst].
    split; cbn [items set_items current_position].
    + apply numbered_levels_ok, Forall_alter; [exact Hok|].
      intros it _ Hit. simpl. lia.
    + now rewrite len_length, numbered_length, length_alter, <- len_length.
  - unfold outdent_item, bind, self_.
    destruct (Z.leb_spec 0 index), (Z.ltb_spec index (Py.len (items self)));
      try lia; now split.
Qed.

(** [delete_item] keeps the invariants as long as an item stays. *)
Lemma delete_item_keeps (index : Z) (self : ListManager) (os : OS) :
  manager_ok self -> 2 <= Py.len (items self) ->
  manager_ok (fst (state_of (delete_item index (self, os)))).
Proof.
  intros [Hok Hpos] Hlen.
  destruct (decide (0 <= index < Py.len (items self))) as [H|H].
  - rewrite delete_item_ok by assumption. cbn [state_of fst].
    split; cbn [items current_position].
    + now apply numbered_levels_ok, Forall_delete.
    + rewrite (len_length (numbered _ _)), numbered_length, length_delete.
      * rewrite len_length in *. lia.
      * apply lookup_lt_is_Some. rewrite len_length in H. lia.
  - rewrite delete_item_skip by assumption. now split.
Qed.

End Invariants.

(** ** Numbers as strings *)

Section Numbers.

Import Outline.

Lemma string_of_uint_numeral (d : Decimal.uint) :
  Forall numeral (list_ascii_of_string (NilEmpty.string_of_uint d)).
Proof.
  induction d; simpl; constructor; auto; unfold numeral; simpl; tauto.
Qed.

Lemma str_of_int_numeral (n : Z) : Forall numeral (Py.str_of_int n).
Proof.
  unfold Py.str_of_int, NilZero.string_of_int.
  destruct (Z.to_int n) as [d|d]; [|simpl; constructor;
                                     [unfold numeral; simpl; tauto|]];
    (destruct d; [repeat constructor; unfold numeral; simpl; tauto
                 | apply (string_of_uint_numeral (_ _)) ..]).
Qed.

Lemma str_of_int_nonempty (n : Z) : Py.str_of_int n <> [].
Proof.
  unfold Py.str_of_int, NilZero.string_of_int.
  destruct (Z.to_int n) as [d|d]; [|discriminate]; destruct d; discriminate.
Qed.

Lemma numeral_not_dot (c : ascii) : numeral c -> c <> "."%char.
Proof. unfold numeral. simpl. intros H ->. intuition discriminate. Qed.

Lemma numeral_not_space (c : ascii) : numeral c -> Py.isspace c = false.
Proof.
  unfold numeral. simpl.
  intros [<-|[<-|[<-|[<-|[<-|[<-|[<-|[<-|[<-|[<-|[<-|[]]]]]]]]]]]]; reflexivity.
Qed.

(** Reading the components back from a joined number. *)
Lemma components_go_app (w s cur : str) :
  Forall (fun c => c <> "."%char) w ->
  components_go cur (w ++ s) = components_go (cur ++ w) s.
Proof.
  revert cur. induction w as [|c w IH]; intros cur H; simpl.
  - now rewrite app_nil_r.
  - apply Forall_cons in H as [Hc Hw].
    destruct (decide (c = "."%char)); [contradiction|].
    rewrite IH by assumption. now rewrite <- app_assoc.
Qed.

Lemma components_join (parts : list str) :
  parts <> [] ->
  Forall (Forall (fun c => c <> "."%char)) parts ->
  components (Py.join (lit ".") parts) = parts.
Proof.
  unfold components.
  induction parts as [|p ps IH]; intros Hne H; [contradiction|].
  apply Forall_cons in H as [Hp Hps].
  destruct ps as [|q ps].
  - simpl. rewrite <- (app_nil_r p) at 1.
    rewrite components_go_app by assumption. reflexivity.
  - change (Py.join (lit ".") (p :: q :: ps))
      with (p ++ "."%char :: Py.join (lit ".") (q :: ps)).
    rewrite components_go_app by assumption.
    cbn [components_go app]. destruct (decide _) as [_|N]; [|now elim N].
    rewrite IH by (assumption || discriminate). reflexivity.
Qed.

Lemma number_from_components (counters : list Z) (lvl : Z) :
  components (number_from counters lvl)
  = Py.str_of_int <$> take (S (Z.to_nat lvl)) counters
  \/ take (S (Z.to_nat lvl)) counters = [].
Proof.
  destruct (take (S (Z.to_nat lvl)) counters) as [|c cs] eqn:E; [now right|left].
  unfold number_from. rewrite E. apply components_join; [discriminate|].
  apply Forall_fmap, Forall_forall. intros z _. simpl.
  eapply Forall_impl; [apply str_of_int_numeral|apply numeral_not_dot].
Qed.

End Numbers.

(** ** Numbering correctness *)

Section Numbering.

Import ListManager Outline.

Lemma count_since_back (levels : list Z) (i : nat) (l : Z) :
  levels !! i = Some l ->
  count_since levels i = count_back l (rev (take (S i) levels)).
Proof. intros H. unfold count_since. now rewrite H. Qed.

Lemma number_from_tally (back : list Z) (l : Z) :
  0 <= l <= 10 ->
  let parts := components (number_from (tally back) l) in
  Py.len parts = l + 1
  /\ parts !! Z.to_nat l = Some (Py.str_of_int (count_back l back)).
Proof.
  intros Hl parts. subst parts.
  destruct (number_from_components (tally back) l) as [-> | E].
  - split.
    + unfold Py.len. rewrite length_fmap, length_take, tally_length. lia.
    + rewrite list_lookup_fmap, lookup_take_lt by lia.
      now rewrite tally_lookup.
  - apply (f_equal length) in E.
    rewrite length_take, tally_length in E. simpl in E. lia.
Qed.

(** C1. For items whose levels are all in [0, 10], [renumber_items]
    returns and gives item [i], of level [li], a number with exactly
    [li + 1] dot-separated components, whose component at position [li]
    is the count of items at level [li] since the last item before it at
    a level below [li], item [i] included; levels [0,1,1,0,1] give the
    numbers "1", "1.1", "1.2", "2", "2.1". *)
Theorem renumber_items_numbering (self : ListManager) (os : OS) :
  levels_ok (items self) ->
  exists its' : list ListItem,
    renumber_items (self, os) = Ok tt (set_items self its', os)
    /\ length its' = length (items self)
    /\ (forall (i : nat) (it : ListItem),
          items self !! i = Some it ->
          exists (it' : ListItem) (n : str),
            its' !! i = Some it'
            /\ number it' = Some n
            /\ Py.len (components n) = level it + 1
            /\ components n !! Z.to_nat (level it)
               = Some (Py.str_of_int
                         (count_since (level <$> items self) i)))
    /\ (level <$> items self = [0; 1; 1; 0; 1] ->
        number <$> its'
        = [Some (lit "1"); Some (lit "1.1"); Some (lit "1.2");
           Some (lit "2"); Some (lit "2.1")]).
Proof.
  intros Hok. exists (numbered [] (items self)).
  split; [now apply renumber_items_ok|].
  split; [apply numbered_length|]. split.
  - intros i it Hi.
    pose proof (numbered_lookup _ [] _ _ Hi) as Hn.
    rewrite app_nil_r in Hn.
    assert (Hl : 0 <= level it <= 10).
    { unfold levels_ok in Hok. rewrite Forall_lookup in Hok. eauto. }
    eexists _, _. split; [exact Hn|]. split; [reflexivity|].
    rewrite (count_since_back _ _ (level it))
      by (now rewrite list_lookup_fmap, Hi).
    now apply number_from_tally.
  - intros E. destruct self as [its pos rt]. simpl in *.
    do 6 (destruct its as [|? its]; try discriminate E).
    injection E as E0 E1 E2 E3 E4. simpl.
    rewrite E0, E1, E2, E3, E4. reflexivity.
Qed.

Lemma renumber_items_numbering_witness :
  exists its' : list ListItem,
    renumber_items (Sample.manager Sample.outline 5, Sample.os)
    = Ok tt (set_items (Sample.manager Sample.outline 5) its', Sample.os)
    /\ number <$> its'
       = [Some (lit "1"); Some (lit "1.1"); Some (lit "1.2");
          Some (lit "2"); Some (lit "2.1")].
Proof.
  destruct (renumber_items_numbering
              (Sample.manager Sample.outline 5) Sample.os)
    as (its' & Hrun & _ & _ & Hex).
  - unfold levels_ok. simpl. repeat constructor; simpl; lia.
  - exists its'. split; [exact Hrun|]. apply Hex. reflexivity.
Defined.

End Numbering.

(** ** The frame of renumbering *)

Section Frame.

Import ListManager Outline.

Lemma same_but_number_content (its its' : list ListItem) :
  Forall2 same_but_number its its' -> content <$> its = content <$> its'.
Proof.
  induction 1 as [|a b l k [Hc _] _ IH]; [reflexivity|].
  rewrite !fmap_cons. congruence.
Qed.

Lemma same_but_number_level (its its' : list ListItem) :
  Forall2 same_but_number its its' -> level <$> its = level <$> its'.
Proof.
  induction 1 as [|a b l k (_ & Hl & _) _ IH]; [reflexivity|].
  rewrite !fmap_cons. congruence.
Qed.

(** C10. For a list whose levels are all in [0, 10], [renumber_items]
    returns and writes only the numbers: content, level, collapsed flag,
    identity and metadata of every item, the length and order of the
    items and [current_position] are unchanged; a second call changes
    nothing. *)
Theorem renumber_items_frame (self : ListManager) (os : OS) :
  levels_ok (items self) ->
  exists self' : ListManager,
    renumber_items (self, os) = Ok tt (self', os)
    /\ current_position self' = current_position self
    /\ root self' = root self
    /\ length (items self') = length (items self)
    /\ Forall2 same_but_number (items self) (items self')
    /\ renumber_items (self', os) = Ok tt (self', os).
Proof.
  intros Hok. exists (set_items self (numbered [] (items self))).
  split; [now apply renumber_items_ok|].
  split; [reflexivity|]. split; [reflexivity|].
  split; [apply numbered_length|].
  split; [apply numbered_same_but_number|].
  rewrite renumber_items_ok by (now apply numbered_levels_ok).
  simpl. now rewrite numbered_idem.
Qed.

Lemma renumber_items_frame_witness :
  exists self' : ListManager,
    renumber_items (Sample.manager Sample.outline 5, Sample.os)
    = Ok tt (self', Sample.os)
    /\ current_position self' = 5
    /\ content <$> items self' = content <$> Sample.outline
    /\ renumber_items (self', Sample.os) = Ok tt (self', Sample.os).
Proof.
  destruct (renumber_items_frame (Sample.manager Sample.outline 5) Sample.os)
    as (self' & Hrun & Hpos & _ & _ & Hsame & Hidem).
  - unfold levels_ok. simpl. repeat constructor; simpl; lia.
  - exists self'. split; [exact Hrun|]. split; [exact Hpos|].
    split; [|exact Hidem].
    symmetry. exact (same_but_number_content _ _ Hsame).
Defined.

End Frame.

(** ** Where the code leaves the specification *)

Section Divergences.

Import ListManager.

(** C3. [load_from_file] takes the level of a line from its indentation
    and [add_item] stores it unclamped: a line indented by 44 spaces
    becomes an item of level 11, on which the renumbering raises
    [IndexError]; the item stays in [items]. An explicit level 11 passed
    to [add_item] does the same. *)
Theorem load_from_file_level_unclamped :
  let os := write_file Sample.os (lit "list.txt") Sample.deep_file in
  let loaded := load_from_file (lit "list.txt") (Sample.manager [] 0, os) in
  let added := add_item (lit "x") (Some 11) (Sample.manager [] 0, Sample.os) in
  returns loaded = None
  /\ level <$> items (fst (state_of loaded)) = [11]
  /\ returns added = None
  /\ level <$> items (fst (state_of added)) = [11].
Proof. repeat split; reflexivity. Qed.

(** C6. [add_item] without a level reads [items[current_position - 1]]
    without a bound check: with one item and [current_position = 2] it
    raises [IndexError], adds nothing and leaves [current_position]
    alone. *)
Theorem add_item_position_beyond_end :
  let self := Sample.manager [Sample.item "foo" 0 "1"] 2 in
  add_item (lit "x") None (self, Sample.os)
  = Raise IndexError (self, Sample.os).
Proof. reflexivity. Qed.

(** C7. [delete_item] on the only item leaves [current_position] at
    [min(current_position, -1) = -1], below 0; two calls of [add_item]
    after it store their items in reverse order. *)
Theorem delete_item_last_position :
  let self := Sample.manager [Sample.item "foo" 0 "1"] 1 in
  let deleted := delete_item 0 (self, Sample.os) in
  let added := (add_item (lit "a") None ;; add_item (lit "b") None)%py
                 (state_of deleted) in
  returns deleted = Some tt
  /\ items (fst (state_of deleted)) = []
  /\ current_position (fst (state_of deleted)) = -1
  /\ content <$> items (fst (state_of added)) = [lit "b"; lit "a"].
Proof. repeat split; reflexivity. Qed.

(** C4. The first Enter on "ab" with the cursor at offset 1 leaves the one
    item "a\nb" with the cursor at offset 2; the second Enter adds an
    empty item of the same level after it, moves the focus to it and
    resets [enter_count], but leaves the cursor at offset 2. *)
Theorem double_enter_cursor :
  let once := Editor.handle_insert_mode 10 (Sample.ab, Sample.os) in
  let twice := Editor.handle_insert_mode 10 (state_of once) in
  let ed1 := fst (state_of once) in
  let ed2 := fst (state_of twice) in
  returns once = Some true
  /\ content <$> items (list_manager ed1) = [lit "a" ++ ["010"%char] ++ lit "b"]
  /\ cursor_x ed1 = 2 /\ enter_count ed1 = 1
  /\ returns twice = Some true
  /\ content <$> items (list_manager ed2)
     = [lit "a" ++ ["010"%char] ++ lit "b"; []]
  /\ level <$> items (list_manager ed2) = [0; 0]
  /\ current_line ed2 = 1 /\ enter_count ed2 = 0
  /\ cursor_x ed2 = 2.
Proof. repeat split; reflexivity. Qed.

(** C8. An Up-arrow on the first item, a Down-arrow on the last item and a
    key without a branch (code 0) leave [enter_count] as it was, here 1;
    a Left-arrow at offset 0, which moves nothing either, resets it. So
    Enter, Up-arrow, Enter on a single item is taken for a double Enter
    and adds an item. *)
Theorem enter_count_survives_idle_keys :
  let ed := Sample.editor [Sample.item "foo" 0 "1"] 0 0 1 in
  let press ch s := state_of (Editor.handle_insert_mode ch s) in
  let after ch := fst (press ch (ed, Sample.os)) in
  let start := (Sample.editor [Sample.item "foo" 0 "1"] 0 0 0, Sample.os) in
  after curses.KEY_UP = ed
  /\ after curses.KEY_DOWN = ed
  /\ after 0 = ed
  /\ enter_count ed = 1
  /\ enter_count (after curses.KEY_LEFT) = 0
  /\ length (items (list_manager
                      (fst (press 10 (press curses.KEY_UP (press 10 start))))))
     = 2%nat.
Proof. repeat split; reflexivity. Qed.

End Divergences.

(** ** NORMAL mode: the deletion guard *)

Section Normal.

Import ListManager Outline.

(** C9. The [dd] action never empties a non-empty [items]: with more than
    one item and the focus on an item, that item is deleted and the length
    goes down by exactly one (the others keep everything but their
    number); with one item the whole state is unchanged. On levels in
    range the handler returns True. *)
Theorem dd_keeps_last_item (ed : Editor) (os : OS) :
  let r := Editor.handle_normal_mode (ord "d") (ord "d") (ed, os) in
  let its := items (list_manager ed) in
  let its' := items (list_manager (fst (state_of r))) in
  (its <> [] -> its' <> [])
  /\ (length its = 1%nat -> r = Ok true (ed, os))
  /\ ((1 < length its)%nat -> 0 <= current_line ed < Py.len its ->
      Forall2 same_but_number (delete (Z.to_nat (current_line ed)) its) its'
      /\ length its' = (length its - 1)%nat)
  /\ (levels_ok its -> returns r = Some true).
Proof.
  intros r its its'. subst r its' its.
  destruct ed as [[its pos rt] md line top fn cx ec].
  cbn [list_manager items current_line].
  destruct its as [|a rest].
  { repeat split; first [easy | simpl; lia]. }
  unfold Editor.handle_normal_mode. eval_ord.
  cbn -[delete_item Py.len].
  destruct (Z.ltb_spec 1 (Py.len (a :: rest))) as [Hlen|Hlen].
  - (* more than one item *)
    unfold Editor.then_True, bind, Editor.call. cbn [list_manager].
    destruct (decide (0 <= line < Py.len (a :: rest))) as [Hline|Hline].
    + rewrite delete_item_eq by assumption. cbn [items].
      pose proof (renumber_loop_same (delete (Z.to_nat line) (a :: rest))
                    (replicate 11 0)) as Hs.
      assert (Hdel : length (delete (Z.to_nat line) (a :: rest)) = length rest).
      { rewrite length_delete; [simpl; lia|].
        apply lookup_lt_is_Some. rewrite len_length in Hline. lia. }
      assert (Hok : levels_ok (a :: rest) ->
                    snd (renumber_loop (replicate 11 0)
                           (delete (Z.to_nat line) (a :: rest))) = None).
      { intros Hok. rewrite <- tally_nil, renumber_loop_numbered; [reflexivity|].
        now apply Forall_delete. }
      destruct (renumber_loop _ _) as [its' [e|]]; cbn in *;
        apply Forall2_length in Hs as Hl;
        (split; [intros _ ->; rewrite len_length in Hlen; simpl in *; lia|]);
        (split; [intros E; rewrite len_length in Hlen; simpl in *; lia|]);
        (split; [intros _ _; split; [exact Hs|lia]|]);
        intros Hlv; try reflexivity.
      now specialize (Hok Hlv).
    + rewrite delete_item_skip by assumption. cbn.
      split; [easy|]. split; [rewrite len_length in Hlen; simpl in *; lia|].
      split; [intros _ Hline'; contradiction|reflexivity].
  - (* the last item *)
    cbn. split; [easy|]. split; [reflexivity|].
    split; [rewrite len_length in Hlen; simpl in *; lia|reflexivity].
Qed.

Lemma dd_keeps_last_item_witness :
  let ed := set_mode NORMAL Sample.foo_bar in
  let r := Editor.handle_normal_mode (ord "d") (ord "d") (ed, Sample.os) in
  (1 < length (items (list_manager ed)))%nat
  /\ 0 <= current_line ed < Py.len (items (list_manager ed))
  /\ length (items (list_manager (fst (state_of r)))) = 1%nat.
Proof.
  intros ed r.
  assert (H1 : (1 < length (items (list_manager ed)))%nat) by (simpl; lia).
  assert (H2 : 0 <= current_line ed < Py.len (items (list_manager ed)))
    by (unfold Py.len; simpl; lia).
  split; [exact H1|]. split; [exact H2|].
  destruct (dd_keeps_last_item ed Sample.os) as (_ & _ & H & _).
  exact (proj2 (H H1 H2)).
Defined.

End Normal.

(** ** INSERT mode: Backspace *)

(** [handle_insert_mode] up to the dispatch on the key, with the focus on
    an item: [Hlt] bounds the line, [Hcur] names the item. *)
Ltac focus_on Hlt Hcur :=
  unfold Editor.handle_insert_mode; run_py;
  rewrite (index_in_range _ _ Hlt); run_py;
  rewrite Hcur; run_py; eval_tests; run_py.

Section Backspace.

Import ListManager Outline.

Lemma numbered_content (its : list ListItem) (back : list Z) :
  content <$> numbered back its = content <$> its.
Proof. symmetry. apply same_but_number_content, numbered_same_but_number. Qed.

(** Case 1: at offset 0 of an indented item. *)
Lemma backspace_outdent (ch : Z) (lm : ListManager) md line top fn ec
      (os : OS) (cur : ListItem) :
  backspace ch -> levels_ok (items lm) ->
  0 <= line -> items lm !! Z.to_nat line = Some cur ->
  0 < level cur ->
  Editor.handle_insert_mode ch (mkEditor lm md line top fn 0 ec, os)
  = Ok true
       (mkEditor
          (set_items lm
             (numbered []
                (alter (fun it => set_level it (Z.max (level it - 1) 0))
                       (Z.to_nat line) (items lm))))
          md line top fn 0 0, os).
Proof.
  intros Hch Hok Hline Hcur Hlv.
  pose proof (focus_in_range _ _ _ Hline Hcur) as Hlt.
  destruct lm as [its pos rt]. cbn [items] in *.
  destruct its as [|a rest]; [discriminate|].
  destruct Hch as [->|[->| ->]]; focus_on Hlt Hcur;
    (destruct (Z.ltb_spec 0 (level cur)); [|lia]); run_py;
    rewrite outdent_item_ok by assumption; reflexivity.
Qed.

Lemma backspace_merge (ch : Z) (lm : ListManager) md line top fn ec
      (os : OS) (cur prev : ListItem) :
  backspace ch -> levels_ok (items lm) ->
  0 < line -> items lm !! Z.to_nat line = Some cur ->
  items lm !! Z.to_nat (line - 1) = Some prev ->
  ~ 0 < level cur ->
  Editor.handle_insert_mode ch (mkEditor lm md line top fn 0 ec, os)
  = Ok true
       (mkEditor
          (mkListManager
             (numbered []
                (delete (Z.to_nat line)
                   (<[Z.to_nat (line - 1) :=
                        set_content prev (content prev ++ content cur)]>
                      (items lm))))
             (Z.min (current_position lm) (Py.len (items lm) - 2))
             (root lm))
          md (line - 1) top fn (Py.len (content prev)) 0, os).
Proof.
  intros Hch Hok Hline Hcur Hprev Hlv.
  assert (Hlt : 0 <= line < Py.len (items lm)) by (apply (focus_in_range _ _ cur); [lia|assumption]).
  assert (Hlt' : 0 <= line - 1 < Py.len (items lm)) by lia.
  destruct lm as [its pos rt]. cbn [items current_position root] in *.
  destruct its as [|a rest]; [discriminate|].
  destruct Hch as [->|[->| ->]]; focus_on Hlt Hcur;
    (destruct (Z.ltb_spec 0 (level cur)); [lia|]);
    (destruct (Z.ltb_spec 0 line); [|lia]); run_py;
    rewrite (index_in_range _ _ Hlt'); run_py; rewrite Hprev; run_py;
    rewrite (alter_as_insert _ _ _ _ Hprev);
    (rewrite delete_item_ok;
     cbn [items set_items current_position root]; rewrite ?len_insert;
     [reflexivity | assumption
     | apply Forall_insert; [assumption|];
       unfold levels_ok in Hok; rewrite Forall_lookup in Hok;
       apply (Hok _ _ Hprev)]).
Qed.

Lemma backspace_char (ch : Z) (lm : ListManager) md line top fn cx ec
      (os : OS) (cur : ListItem) :
  backspace ch ->
  0 <= line -> items lm !! Z.to_nat line = Some cur ->
  0 < cx ->
  Editor.handle_insert_mode ch (mkEditor lm md line top fn cx ec, os)
  = Ok true
       (mkEditor
          (set_items lm
             (<[Z.to_nat line :=
                  set_content cur (Py.slice_to (content cur) (cx - 1)
                                   ++ Py.slice_from (content cur) cx)]>
                (items lm)))
          md line top fn (cx - 1) 0, os).
Proof.
  intros Hch Hline Hcur Hcx.
  pose proof (focus_in_range _ _ _ Hline Hcur) as Hlt.
  destruct lm as [its pos rt]. cbn [items] in *.
  destruct its as [|a rest]; [discriminate|].
  destruct Hch as [->|[->| ->]]; focus_on Hlt Hcur;
    (destruct (Z.eqb_spec cx 0); [lia|]);
    (destruct (Z.ltb_spec 0 cx); [|lia]);
    rewrite ?andb_false_r; run_py;
    rewrite (alter_as_insert _ _ _ _ Hcur); reflexivity.
Qed.

Lemma numbered_level_insert (its : list ListItem) (k : nat) (x : ListItem) :
  level <$> numbered [] (<[k:=x]> its) = <[k:=level x]> (level <$> its).
Proof. now rewrite numbered_level, list_fmap_insert. Qed.

(** Backspace in INSERT mode with the cursor inside the content, the
    focus on an item [cur] and levels in range. (1) Level above 0 and
    cursor at offset 0: the item is
    outdented, no content changes. (2) Otherwise, cursor at offset 0 and
    not the first item: the content of [cur] is appended to the previous
    item's, [cur] is deleted, the focus moves up and the cursor lands at
    the previous item's former length; "foo" and "bar" at level 0 become
    "foobar" with the cursor at offset 3. (3) Cursor after a character
    [c]: [c] is removed and the cursor moves back one. In each case
    [enter_count] is reset and the handler returns True. *)
Theorem backspace_three_cases
        (ch : Z) (ed : Editor) (os : OS) (cur : ListItem) :
  backspace ch ->
  levels_ok (items (list_manager ed)) ->
  0 <= current_line ed ->
  items (list_manager ed) !! Z.to_nat (current_line ed) = Some cur ->
  let its := items (list_manager ed) in
  let line := current_line ed in
  let r := Editor.handle_insert_mode ch (ed, os) in
  let ed' := fst (state_of r) in
  let its' := items (list_manager ed') in
  (0 < level cur -> cursor_x ed = 0 ->
   returns r = Some true
   /\ level <$> its' = <[Z.to_nat line := level cur - 1]> (level <$> its)
   /\ content <$> its' = content <$> its
   /\ current_line ed' = line /\ cursor_x ed' = 0 /\ enter_count ed' = 0)
  /\ (~ 0 < level cur -> cursor_x ed = 0 -> 0 < line ->
      forall prev : ListItem,
        its !! Z.to_nat (line - 1) = Some prev ->
        returns r = Some true
        /\ content <$> its'
           = delete (Z.to_nat line)
               (<[Z.to_nat (line - 1) := content prev ++ content cur]>
                  (content <$> its))
        /\ level <$> its' = delete (Z.to_nat line) (level <$> its)
        /\ current_line ed' = line - 1
        /\ cursor_x ed' = Py.len (content prev) /\ enter_count ed' = 0)
  /\ (0 < cursor_x ed ->
      forall (pre : str) (c : ascii) (post : str),
        content cur = pre ++ c :: post -> cursor_x ed = Py.len pre + 1 ->
        returns r = Some true
        /\ content <$> its' = <[Z.to_nat line := pre ++ post]> (content <$> its)
        /\ level <$> its' = level <$> its
        /\ current_line ed' = line /\ cursor_x ed' = cursor_x ed - 1
        /\ enter_count ed' = 0)
  /\ (content <$> its = [lit "foo"; lit "bar"] -> level <$> its = [0; 0] ->
      line = 1 -> cursor_x ed = 0 ->
      content <$> its' = [lit "foobar"]
      /\ current_line ed' = 0 /\ cursor_x ed' = 3).
Proof.
  intros Hch Hok Hline Hcur its line r ed' its'.
  subst its' ed' r line its.
  destruct ed as [lm md line top fn cx ec].
  cbn [list_manager current_line cursor_x] in *.
  assert (Hmerge : ~ 0 < level cur -> cx = 0 -> 0 < line ->
            forall prev : ListItem,
              items lm !! Z.to_nat (line - 1) = Some prev ->
              let r := Editor.handle_insert_mode ch
                         (mkEditor lm md line top fn cx ec, os) in
              let ed' := fst (state_of r) in
              returns r = Some true
              /\ content <$> items (list_manager ed')
                 = delete (Z.to_nat line)
                     (<[Z.to_nat (line - 1) := content prev ++ content cur]>
                        (content <$> items lm))
              /\ level <$> items (list_manager ed')
                 = delete (Z.to_nat line) (level <$> items lm)
              /\ current_line ed' = line - 1
              /\ cursor_x ed' = Py.len (content prev) /\ enter_count ed' = 0).
  { intros Hlv -> Hpos prev Hprev.
    rewrite (backspace_merge ch lm md line top fn ec os cur prev) by assumption.
    cbn [state_of returns fst list_manager items current_line cursor_x
         enter_count].
    split; [reflexivity|]. split; [|split; [|repeat split]].
    - now rewrite numbered_content, list_fmap_delete, list_fmap_insert.
    - rewrite numbered_level, list_fmap_delete, list_fmap_insert.
      simpl. rewrite list_insert_id; [reflexivity|].
      now rewrite list_lookup_fmap, Hprev. }
  split; [|split; [exact Hmerge|split]].
  - (* outdent *)
    intros Hlv ->.
    rewrite (backspace_outdent ch lm md line top fn ec os cur) by assumption.
    cbn [state_of returns fst list_manager items set_items current_line
         cursor_x enter_count].
    rewrite (alter_as_insert _ _ _ _ Hcur).
    split; [reflexivity|]. split; [|split; [|repeat split]].
    + rewrite numbered_level_insert. simpl. now rewrite Z.max_l by lia.
    + rewrite numbered_content, list_fmap_insert. simpl.
      rewrite list_insert_id; [reflexivity|].
      now rewrite list_lookup_fmap, Hcur.
  - (* one character *)
    intros Hcx pre c post Hc Hpos.
    rewrite (backspace_char ch lm md line top fn cx ec os cur) by assumption.
    cbn [state_of returns fst list_manager items set_items current_line
         cursor_x enter_count].
    split; [reflexivity|]. split; [|split; [|repeat split]].
    + rewrite list_fmap_insert. simpl. do 2 f_equal.
      * replace (cx - 1) with (Py.len pre) by lia.
        now rewrite Hc, slice_to_app.
      * replace cx with (Py.len (pre ++ [c])).
        -- rewrite Hc. change (pre ++ c :: post) with (pre ++ [c] ++ post).
           rewrite app_assoc. apply slice_from_app.
        -- rewrite len_length, length_app. simpl. rewrite len_length in Hpos.
           lia.
    + rewrite list_fmap_insert. simpl. rewrite list_insert_id; [reflexivity|].
      now rewrite list_lookup_fmap, Hcur.
  - (* "foo" and "bar" *)
    intros Hcs Hls -> Hcx.
    destruct (items lm) as [|p [|q [|? ?]]] eqn:Eits; try discriminate Hcs.
    injection Hcs as Hp Hq. injection Hls as Hlp Hlq.
    simpl in Hcur. injection Hcur as <-.
    destruct (Hmerge ltac:(lia) Hcx ltac:(lia) p) as (_ & Hc' & _ & Hl' & Hx' & _).
    { reflexivity. }
    cbv zeta in Hc', Hl', Hx'. rewrite Hc', Hl', Hx'. simpl.
    rewrite Hp, Hq. repeat split.
Qed.

Lemma backspace_three_cases_witness :
  let r := Editor.handle_insert_mode curses.KEY_BACKSPACE
             (Sample.foo_bar, Sample.os) in
  let ed' := fst (state_of r) in
  content <$> items (list_manager ed') = [lit "foobar"]
  /\ current_line ed' = 0 /\ cursor_x ed' = 3.
Proof.
  refine (proj2 (proj2 (proj2
            (backspace_three_cases curses.KEY_BACKSPACE Sample.foo_bar
               Sample.os (Sample.item "bar" 0 "2") _ _ _ _))) _ _ _ _);
    try reflexivity.
  - now left.
  - unfold levels_ok. simpl. repeat constructor; simpl; lia.
  - simpl. lia.
Defined.

(** C5. After Enter, Enter on "ab" with the cursor at offset 1 the focus
    is on the new empty item with the cursor at offset 2, behind its
    content. Backspace there (any of its three codes) takes the third
    case, as the cursor is greater than 0, and removes no character: the
    contents stay "a\nb" and "", and only the cursor moves, to offset 1.
    A second Backspace does the same, to offset 0. *)
Theorem backspace_beyond_content :
  let press ch s := state_of (Editor.handle_insert_mode ch s) in
  let s2 := press 10 (press 10 (Sample.ab, Sample.os)) in
  let contents s := content <$> items (list_manager (fst s)) in
  contents s2 = [lit "a" ++ ["010"%char] ++ lit "b"; []]
  /\ level <$> items (list_manager (fst s2)) = [0; 0]
  /\ current_line (fst s2) = 1 /\ cursor_x (fst s2) = 2
  /\ Forall (fun ch =>
              returns (Editor.handle_insert_mode ch s2) = Some true
              /\ contents (press ch s2) = contents s2
              /\ current_line (fst (press ch s2)) = 1
              /\ cursor_x (fst (press ch s2)) = 1
              /\ contents (press ch (press ch s2)) = contents s2
              /\ cursor_x (fst (press ch (press ch s2))) = 0)
            [curses.KEY_BACKSPACE; 127; 8].
Proof.
  do 4 (split; [reflexivity|]).
  repeat constructor; reflexivity.
Qed.

End Backspace.

(** ** INSERT mode: the Enter counter *)

(** Case analysis on every test and call left in the goal. *)
Ltac split_cases :=
  repeat first
    [ reflexivity
    | match goal with
      | |- context [if ?b then _ else _] => destruct b
      | |- context [match ?o with Some _ => _ | None => _ end] => destruct o
      | |- context [match ?m (?x, ?y) with _ => _ end] =>
          destruct (m (x, y)) as [? [? ?]|? [? ?]]
      end; run_py ].

Section Reset.

Import ListManager Outline.

(** The keys with a branch of their own reset [enter_count]. *)
Lemma handled_keys_reset (ch : Z) (ed : Editor) (os : OS) :
  resetting ch ->
  0 <= current_line ed < Py.len (items (list_manager ed)) ->
  enter_count (fst (state_of (Editor.handle_insert_mode ch (ed, os)))) = 0.
Proof.
  intros Hch Hlt.
  destruct ed as [[its pos rt] md line top fn cx ec].
  cbn [list_manager items current_line] in Hlt.
  destruct (lookup_lt_is_Some_2 its (Z.to_nat line)) as [cur Hcur];
    [rewrite len_length in Hlt; lia|].
  destruct its as [|a rest]; [discriminate|].
  destruct Hch as [->|[->|[[->|[->| ->]]|[->|[->|[->|Hp]]]]]].
  1-8: focus_on Hlt Hcur; split_cases.
  unfold Editor.handle_insert_mode; run_py.
  rewrite (index_in_range _ _ Hlt); run_py. rewrite Hcur; run_py.
  unfold curses.KEY_BTAB, curses.KEY_BACKSPACE, curses.KEY_DC, curses.KEY_LEFT,
    curses.KEY_RIGHT, curses.KEY_UP, curses.KEY_DOWN.
  repeat match goal with
         | |- context [ch =? ?k] => destruct (Z.eqb_spec ch k); [lia|]
         end.
  run_py.
  destruct (Z.leb_spec 32 ch), (Z.leb_spec ch 126); try lia.
  reflexivity.
Qed.

End Reset.

(** ** Persistence *)

Section Split.

Lemma split_go_blank (ws s : str) :
  blank ws -> Py.split_go [] (ws ++ s) = Py.split_go [] s.
Proof.
  induction 1 as [|c ws Hc _ IH]; [reflexivity|]. simpl. now rewrite Hc.
Qed.

Lemma split_go_solid (w s tok : str) :
  solid w -> Py.split_go tok (w ++ s) = Py.split_go (tok ++ w) s.
Proof.
  intros Hw. revert tok.
  induction Hw as [|c w Hc _ IH]; intros tok; simpl.
  - now rewrite app_nil_r.
  - rewrite Hc, IH. now rewrite <- app_assoc.
Qed.

Lemma split_go_space (c : ascii) (s tok : str) :
  Py.isspace c = true -> tok <> [] ->
  Py.split_go tok (c :: s) = tok :: Py.split_go [] s.
Proof. intros Hc Htok. simpl. rewrite Hc. now destruct tok. Qed.

Lemma split_go_trailing (ws : str) :
  blank ws ->
  forall s tok, Py.split_go tok (s ++ ws) = Py.split_go tok s.
Proof.
  intros Hws. induction s as [|c s IH]; intros tok; simpl.
  - revert tok. induction Hws as [|c ws Hc _ IH]; intros tok; [reflexivity|].
    simpl. rewrite Hc. destruct tok; [apply IH|]. now rewrite IH.
  - destruct (Py.isspace c); [destruct tok|]; rewrite IH; reflexivity.
Qed.

Lemma lstrip_split (s : str) :
  exists ws, blank ws /\ s = ws ++ Py.lstrip s.
Proof.
  induction s as [|c s (ws & Hws & E)];
    [exists []; split; [constructor|reflexivity]|]. simpl.
  destruct (Py.isspace c) eqn:Hc.
  - exists (c :: ws). split; [now constructor|]. simpl. congruence.
  - exists []. split; [constructor|reflexivity].
Qed.

Lemma rstrip_split (s : str) :
  exists ws, blank ws /\ s = Py.rstrip s ++ ws.
Proof.
  destruct (lstrip_split (rev s)) as (ws & Hws & E).
  exists (rev ws). split.
  - unfold blank in *. now apply Forall_rev.
  - unfold Py.rstrip. rewrite <- rev_app_distr, <- E. now rewrite rev_involutive.
Qed.

Lemma split_strip (s : str) : Py.split (Py.strip s) = Py.split s.
Proof.
  unfold Py.split, Py.strip.
  destruct (lstrip_split s) as (ws & Hws & E).
  destruct (rstrip_split (Py.lstrip s)) as (ws' & Hws' & E').
  rewrite E at 2. rewrite split_go_blank by assumption.
  rewrite E' at 2. now rewrite split_go_trailing.
Qed.

(** The tokens of a split hold no whitespace. *)
Lemma split_go_tokens (s : str) :
  forall tok, solid tok -> Forall solid (Py.split_go tok s).
Proof.
  induction s as [|c s IH]; intros tok Htok; simpl.
  - destruct tok; repeat constructor; now inversion Htok.
  - destruct (Py.isspace c) eqn:Hc.
    + destruct tok; [apply IH; constructor|]. constructor; [assumption|].
      apply IH. constructor.
    + apply IH. unfold solid in *. apply Forall_app. split; [assumption|].
      now repeat constructor.
Qed.

Lemma join_chars (P : ascii -> Prop) (sep : str) (parts : list str) :
  Forall P sep -> Forall (Forall P) parts -> Forall P (Py.join sep parts).
Proof.
  intros Hsep. induction 1 as [|p ps Hp Hps IH]; [constructor|].
  destruct ps as [|q ps]; [assumption|].
  change (Py.join sep (p :: q :: ps)) with (p ++ sep ++ Py.join sep (q :: ps)).
  rewrite !Forall_app. auto.
Qed.

End Split.

Section Lines.

Lemma len_app {A} (a b : list A) : Py.len (a ++ b) = Py.len a + Py.len b.
Proof. unfold Py.len. rewrite length_app. lia. Qed.

Lemma slice_from_tail {A} (x : A) (l : list A) : Py.slice_from (x :: l) 1 = l.
Proof.
  unfold Py.slice_from, Py.slice_bound. rewrite len_length. simpl length.
  change (1 <? 0) with false. cbv iota.
  now replace (Z.to_nat (1 `min` Z.of_nat (S (length l)))) with 1%nat by lia.
Qed.

Lemma normalised_spaces (c : str) :
  normalised c -> Forall (fun x => Py.isspace x = true -> x = " "%char) c.
Proof.
  intros <-. apply join_chars.
  - now repeat constructor.
  - eapply Forall_impl; [apply (split_go_tokens _ []); constructor|].
    intros tok Htok. eapply Forall_impl; [exact Htok|].
    simpl. congruence.
Qed.

Lemma repeat_str_len (s : str) (l : Z) :
  0 <= l -> Py.len (Py.repeat_str s l) = l * Py.len s.
Proof.
  intros Hl. unfold Py.repeat_str, Py.len.
  rewrite <- (Z2Nat.id l) at 2 by assumption.
  induction (Z.to_nat l) as [|k IH]; [reflexivity|].
  simpl replicate. simpl concat. rewrite length_app. lia.
Qed.

Lemma repeat_str_blank (l : Z) : blank (Py.repeat_str (lit "    ") l).
Proof.
  unfold Py.repeat_str. induction (Z.to_nat l) as [|k IH]; [constructor|].
  simpl. now repeat constructor.
Qed.

Lemma lstrip_blank (ws s : str) : blank ws -> Py.lstrip (ws ++ s) = Py.lstrip s.
Proof. induction 1 as [|c ws Hc _ IH]; [reflexivity|]. simpl. now rewrite Hc. Qed.

Lemma lstrip_solid (s : str) (c : ascii) :
  Py.isspace c = false -> Py.lstrip (c :: s) = c :: s.
Proof. intros Hc. simpl. now rewrite Hc. Qed.

Lemma line_of_parse (l : Z) (n c : str) :
  0 <= l -> n <> [] -> solid n -> normalised c ->
  let line := line_of l n c in
  Py.strip line <> []
  /\ (Py.len line - Py.len (Py.lstrip line)) / 4 = l
  /\ Py.join (lit " ") (Py.slice_from (Py.split (Py.strip line)) 1) = c.
Proof.
  intros Hl Hn Hsolid Hc line.
  assert (Hsplit : Py.split (Py.strip line) = n :: Py.split c).
  { rewrite split_strip. unfold Py.split, line, line_of.
    rewrite split_go_blank by apply repeat_str_blank.
    rewrite split_go_solid by assumption. simpl app.
    rewrite split_go_space by (reflexivity || assumption).
    now rewrite split_go_trailing by (now repeat constructor). }
  split; [|split].
  - intros E. rewrite E in Hsplit. discriminate Hsplit.
  - unfold line, line_of. rewrite lstrip_blank by apply repeat_str_blank.
    destruct n as [|x n]; [contradiction|].
    change ((x :: n) ++ lit " " ++ c ++ ["010"%char])
      with (x :: n ++ lit " " ++ c ++ ["010"%char]).
    rewrite lstrip_solid by (now inversion Hsolid).
    rewrite len_app, repeat_str_len by assumption.
    change (Py.len (lit "    ")) with 4.
    replace (_ - _) with (l * 4) by lia. now rewrite Z.div_mul.
  - rewrite Hsplit, slice_from_tail. exact Hc.
Qed.

Lemma universal_newlines_id (s : str) :
  Forall (fun c => c <> "013"%char) s -> Py.universal_newlines s = s.
Proof.
  induction 1 as [|c s Hc _ IH]; [reflexivity|].
  cbn [Py.universal_newlines]. destruct (decide (c = "013"%char)); [contradiction|].
  now rewrite IH.
Qed.

Lemma lines_go_line (body rest : str) :
  Forall (fun c => c <> "010"%char) body ->
  forall cur, Py.lines_go cur (body ++ "010"%char :: rest)
              = (cur ++ body ++ ["010"%char]) :: Py.lines_go [] rest.
Proof.
  induction 1 as [|c body Hc _ IH]; intros cur; simpl.
  - reflexivity.
  - destruct (decide (c = "010"%char)); [contradiction|].
    rewrite IH. now rewrite <- app_assoc.
Qed.

End Lines.

Section Persist.

Import ListManager Outline.

Lemma join_nonempty (sep p : str) (ps : list str) :
  p <> [] -> Py.join sep (p :: ps) <> [].
Proof. destruct p; [contradiction|]. intros _. now destruct ps. Qed.

Lemma number_from_solid (back : list Z) (l : Z) :
  0 <= l <= 10 ->
  number_from (tally back) l <> [] /\ solid (number_from (tally back) l).
Proof.
  intros Hl. unfold number_from.
  destruct (take (S (Z.to_nat l)) (tally back)) as [|z zs] eqn:E.
  { apply (f_equal length) in E. rewrite length_take, tally_length in E.
    simpl in E. lia. }
  split.
  - rewrite fmap_cons. apply join_nonempty, str_of_int_nonempty.
  - apply join_chars; [now repeat constructor|].
    apply Forall_fmap, Forall_forall. intros x _. simpl.
    eapply Forall_impl; [apply str_of_int_numeral|apply numeral_not_space].
Qed.

Lemma numbered_writable (its : list ListItem) :
  forall back,
    levels_ok its -> Forall (fun it => normalised (content it)) its ->
    Forall writable (numbered back its).
Proof.
  induction its as [|it rest IH]; intros back Hok Hn; [constructor|].
  apply Forall_cons in Hok as [Hl Hok]. apply Forall_cons in Hn as [Hc Hn].
  simpl. constructor; [|now apply IH].
  split; [exact Hl|]. split; [exact Hc|].
  eexists. split; [reflexivity|]. now apply number_from_solid.
Qed.

Lemma numbers_ok_numbered (its : list ListItem) :
  levels_ok its -> numbers_ok its -> numbered [] its = its.
Proof.
  unfold numbers_ok. intros Hok H.
  rewrite <- tally_nil, renumber_loop_numbered in H by assumption. congruence.
Qed.

Lemma numbered_numbers_ok (its : list ListItem) :
  levels_ok its -> numbers_ok (numbered [] its).
Proof.
  intros Hok. unfold numbers_ok.
  rewrite <- tally_nil, renumber_loop_numbered by (now apply numbered_levels_ok).
  now rewrite numbered_idem.
Qed.

Lemma numbered_level_content (its : list ListItem) (back : list Z) :
  level_content <$> numbered back its = level_content <$> its.
Proof.
  revert back. induction its as [|it rest IH]; intros back; [reflexivity|].
  simpl numbered. rewrite !fmap_cons, IH. reflexivity.
Qed.

Lemma numbered_by_levels (a : list ListItem) :
  forall b back,
    level <$> a = level <$> b ->
    number <$> numbered back a = number <$> numbered back b.
Proof.
  induction a as [|x a IH]; intros [|y b] back E; try discriminate E;
    [reflexivity|].
  rewrite !fmap_cons in E. injection E as Exy E.
  simpl numbered. rewrite !fmap_cons, Exy. f_equal. now apply IH.
Qed.

Lemma save_text_lines (its : list ListItem) :
  Forall writable its -> save_text its = (concat (line <$> its), None).
Proof.
  induction 1 as [|it rest (_ & _ & n & Hn & _) _ IH]; [reflexivity|].
  cbn [save_text]. rewrite Hn, IH, fmap_cons. cbn [concat].
  change (line it)
    with (line_of (level it) (default [] (number it)) (content it)).
  unfold line_of. rewrite Hn. cbn [default].
  now rewrite <- !app_assoc.
Qed.

Lemma space_chars (c : ascii) :
  Py.isspace c = false -> c <> "010"%char /\ c <> "013"%char.
Proof. intros H. split; intros ->; discriminate H. Qed.

Lemma line_body (it : ListItem) :
  writable it ->
  exists body, line it = body ++ ["010"%char]
               /\ Forall (fun c => c <> "010"%char /\ c <> "013"%char) body.
Proof.
  intros (Hl & Hc & n & Hn & _ & Hsolid).
  exists (Py.repeat_str (lit "    ") (level it) ++ n ++ lit " " ++ content it).
  unfold line, line_of. rewrite Hn. cbn [default].
  split; [now rewrite <- !app_assoc|].
  rewrite !Forall_app. repeat split.
  - unfold Py.repeat_str. induction (Z.to_nat (level it)) as [|k IH];
      [constructor|]. simpl. repeat (constructor; [easy|]). exact IH.
  - eapply Forall_impl; [exact Hsolid|]. apply space_chars.
  - repeat constructor; easy.
  - eapply Forall_impl; [exact (normalised_spaces _ Hc)|].
    intros c H. simpl in H. split; intros ->; now specialize (H eq_refl).
Qed.

Lemma readlines_lines (its : list ListItem) :
  Forall writable its -> Py.readlines (concat (line <$> its)) = line <$> its.
Proof.
  intros Hw. unfold Py.readlines.
  rewrite universal_newlines_id.
  - induction Hw as [|it rest Hit _ IH]; [reflexivity|].
    rewrite fmap_cons. cbn [concat].
    destruct (line_body it Hit) as (body & -> & Hbody).
    rewrite <- app_assoc. cbn [app].
    rewrite lines_go_line by (eapply Forall_impl; [exact Hbody|]; now intros ? []).
    now rewrite IH.
  - induction Hw as [|it rest Hit _ IH]; [constructor|].
    rewrite fmap_cons. cbn [concat]. apply Forall_app. split; [|exact IH].
    destruct (line_body it Hit) as (body & -> & Hbody).
    apply Forall_app. split; [|now repeat constructor].
    eapply Forall_impl; [exact Hbody|]. now intros ? [].
Qed.

Lemma add_item_append (c : str) (l : Z) (self : ListManager) (os : OS) :
  levels_ok (items self) -> 0 <= l <= 10 ->
  current_position self = Py.len (items self) ->
  exists it : ListItem,
    add_item c (Some l) (self, os)
    = Ok it (mkListManager
               (numbered [] (items self ++ [new_ListItem c l (fst (draw os))]))
               (current_position self + 1) (root self), snd (draw os)).
Proof.
  intros Hok Hl Hpos. unfold add_item, bind, ret, fresh_item, insert_new.
  cbn [draw fst snd]. rewrite Hpos, Z.ltb_irrefl.
  rewrite renumber_items_ok.
  - eexists. reflexivity.
  - cbn [items]. apply Forall_app. split; [exact Hok|]. now repeat constructor.
Qed.

Lemma load_line_line (it : ListItem) (s : ListManager * OS) :
  writable it ->
  load_line (line it) s
  = bind (add_item (content it) (Some (level it))) (fun _ => ret tt) s.
Proof.
  intros (Hl & Hc & n & Hn & Hne & Hsolid).
  destruct (line_of_parse (level it) n (content it)) as (Hs & Hlv & Hj);
    try assumption; [lia|].
  assert (Eline : line it = line_of (level it) n (content it))
    by (unfold line; now rewrite Hn).
  unfold load_line. rewrite Eline. cbv zeta in Hs, Hlv, Hj.
  destruct (Py.strip _) eqn:E; [contradiction|]. rewrite <- E in *.
  now rewrite Hlv, Hj.
Qed.

Lemma load_lines_lines (its : list ListItem) :
  Forall writable its ->
  forall (self : ListManager) (os : OS),
    levels_ok (items self) ->
    current_position self = Py.len (items self) ->
    exists (self' : ListManager) (os' : OS),
      load_lines (line <$> its) (self, os) = Ok tt (self', os')
      /\ levels_ok (items self')
      /\ current_position self' = Py.len (items self')
      /\ level_content <$> items self'
         = (level_content <$> items self) ++ (level_content <$> its)
      /\ (numbers_ok (items self) -> numbers_ok (items self')).
Proof.
  induction 1 as [|it rest Hit _ IH]; intros self os Hok Hpos.
  - exists self, os. rewrite app_nil_r. auto.
  - destruct Hit as (Hl & Hrest). rewrite fmap_cons. cbn [load_lines].
    unfold bind at 1. rewrite load_line_line by (split; assumption).
    destruct (add_item_append (content it) (level it) self os Hok Hl Hpos)
      as (x & Hadd).
    unfold bind at 1. rewrite Hadd. unfold ret.
    set (self1 := mkListManager _ _ _).
    assert (Hok1 : levels_ok (items self1)).
    { apply numbered_levels_ok, Forall_app. split; [exact Hok|].
      now repeat constructor. }
    destruct (IH self1 (snd (draw os)) Hok1)
      as (self' & os' & Hrun & Hok' & Hpos' & Hlc & Hnum).
    { subst self1. cbn [current_position items].
      rewrite len_length, numbered_length, length_app, Hpos, len_length.
      simpl. lia. }
    exists self', os'. split; [exact Hrun|]. split; [exact Hok'|].
    split; [exact Hpos'|]. split.
    + rewrite Hlc. subst self1. cbn [items].
      rewrite numbered_level_content, fmap_app, <- app_assoc. reflexivity.
    + intros _. apply Hnum. subst self1. cbn [items].
      apply numbered_numbers_ok, Forall_app. split; [exact Hok|].
      now repeat constructor.
Qed.


(** The round trip on contents that the reading leaves as they are. For
    a document with levels in [0, 10] and numbers up to date, in which
    every content is whitespace-normalised (words separated by single
    spaces, no other whitespace, so no line break), [save_to_file] and
    then [load_from_file] on the same path return and reproduce the
    sequence of (level, content) pairs, with the numbers [renumber_items]
    computes for these levels. *)
Theorem save_load_round_trip (self : ListManager) (os : OS) (filename : str) :
  levels_ok (items self) ->
  numbers_ok (items self) ->
  Forall (fun it => normalised (content it)) (items self) ->
  exists (os1 : OS) (self' : ListManager) (os' : OS),
    save_to_file filename (self, os) = Ok tt (self, os1)
    /\ load_from_file filename (self, os1) = Ok tt (self', os')
    /\ level_content <$> items self' = level_content <$> items self
    /\ number <$> items self' = number <$> items self
    /\ numbers_ok (items self').
Proof.
  intros Hok Hnum Hnorm.
  assert (Hw : Forall writable (items self)).
  { rewrite <- (numbers_ok_numbered _ Hok Hnum). now apply numbered_writable. }
  exists (write_file os filename (concat (line <$> items self))).
  destruct (load_lines_lines _ Hw (mkListManager [] 0 (root self))
              (write_file os filename (concat (line <$> items self))))
    as (self' & os' & Hrun & Hok' & _ & Hlc & Hnum'); [constructor|reflexivity|].
  exists self', os'. split; [|split; [|split; [exact Hlc|split]]].
  - unfold save_to_file. now rewrite save_text_lines.
  - unfold load_from_file, bind, update. cbn [files write_file].
    rewrite decide_True by reflexivity. now rewrite readlines_lines.
  - specialize (Hnum' eq_refl).
    rewrite <- (numbers_ok_numbered _ Hok Hnum).
    rewrite <- (numbers_ok_numbered _ Hok' Hnum').
    apply numbered_by_levels.
    apply (f_equal (fmap fst)) in Hlc. simpl in Hlc.
    rewrite <- !list_fmap_compose in Hlc. exact Hlc.
  - now apply Hnum'.
Qed.

Lemma save_load_round_trip_witness :
  exists (os1 : OS) (self' : ListManager) (os' : OS),
    save_to_file (lit "list.txt") (Sample.manager Sample.foo_bar_items 2, Sample.os)
    = Ok tt (Sample.manager Sample.foo_bar_items 2, os1)
    /\ load_from_file (lit "list.txt") (Sample.manager Sample.foo_bar_items 2, os1)
       = Ok tt (self', os')
    /\ level_content <$> items self' = [(0, lit "foo"); (0, lit "bar")].
Proof.
  destruct (save_load_round_trip (Sample.manager Sample.foo_bar_items 2)
              Sample.os (lit "list.txt"))
    as (os1 & self' & os' & Hsave & Hload & Hlc & _).
  - unfold levels_ok. simpl. repeat constructor; simpl; lia.
  - reflexivity.
  - simpl. repeat constructor.
  - exists os1, self', os'. auto.
Defined.

(** C2. The content "a  b", with two spaces and no line break, is
    written to the file as it is, in the line "1 a  b", and read back as
    "a b": the line that removes the number from what was read joins the
    words again with single spaces. Saving and loading do not reproduce
    the (level, content) pairs of this document. *)
Lemma save_load_collapses_spaces :
  let saved := save_to_file (lit "list.txt") (Sample.spaced, Sample.os) in
  let loaded := load_from_file (lit "list.txt") (state_of saved) in
  Forall (fun it => ~ In "010"%char (content it)) (items Sample.spaced)
  /\ levels_ok (items Sample.spaced) /\ numbers_ok (items Sample.spaced)
  /\ returns saved = Some tt /\ returns loaded = Some tt
  /\ level_content <$> items (fst (state_of loaded)) = [(0, lit "a b")]
  /\ level_content <$> items (fst (state_of loaded))
     <> level_content <$> items Sample.spaced
  /\ files (snd (state_of saved)) (lit "list.txt")
     = Some (lit "1 a  b" ++ ["010"%char]).
Proof.
  intros saved loaded.
  split; [|split; [|split; [|split; [|split; [|split; [|split]]]]]].
  - repeat constructor. simpl. intuition discriminate.
  - unfold levels_ok. simpl. repeat constructor; simpl; lia.
  - reflexivity.
  - reflexivity.
  - reflexivity.
  - reflexivity.
  - discriminate.
  - reflexivity.
Qed.

End Persist.

(** * Further properties of the code *)

Section MoreOperations.

Import ListManager Outline.

Lemma len_numbered (its : list ListItem) (back : list Z) :
  Py.len (numbered back its) = Py.len its.
Proof. unfold Py.len. now rewrite numbered_length. Qed.

Lemma insert_take_drop_bound {A} (l : list A) (i : Z) (x : A) :
  Py.insert l i x
  = take (Py.slice_bound (Py.len l) i) l ++ x :: drop (Py.slice_bound (Py.len l) i) l.
Proof. reflexivity. Qed.

Lemma insert_fmap {A B} (f : A -> B) (l : list A) (i : Z) (x : A) :
  f <$> Py.insert l i x = Py.insert (f <$> l) i (f x).
Proof.
  unfold Py.insert. rewrite fmap_app, fmap_cons, fmap_take, fmap_drop.
  unfold Py.len. now rewrite length_fmap.
Qed.

Lemma len_insert_py {A} (l : list A) (i : Z) (x : A) :
  Py.len (Py.insert l i x) = Py.len l + 1.
Proof.
  unfold Py.insert, Py.len. rewrite length_app. simpl.
  rewrite length_take, length_drop. unfold Py.slice_bound, Py.len.
  destruct (Z.ltb_spec i 0); lia.
Qed.

Lemma insert_or_append {A} (l : list A) (i : Z) (x : A) :
  (if i <? Py.len l then Py.insert l i x else l ++ [x]) = Py.insert l i x.
Proof.
  destruct (Z.ltb_spec i (Py.len l)) as [H|H]; [reflexivity|].
  unfold Py.insert, Py.slice_bound. pose proof (len_nonneg l).
  destruct (Z.ltb_spec i 0); [lia|].
  rewrite Z.min_r by lia. unfold Py.len. rewrite Nat2Z.id.
  now rewrite take_ge, drop_ge by lia.
Qed.

Lemma insert_position {A} (l : list A) (i : Z) :
  (if i <? Py.len l then Py.slice_bound (Py.len l) i else length l)
  = Py.slice_bound (Py.len l) i.
Proof.
  destruct (Z.ltb_spec i (Py.len l)) as [H|H]; [reflexivity|].
  unfold Py.slice_bound. pose proof (len_nonneg l).
  destruct (Z.ltb_spec i 0); [lia|].
  rewrite Z.min_r by lia. unfold Py.len. now rewrite Nat2Z.id.
Qed.

Lemma insert_lookup {A} (l : list A) (i : Z) (x : A) :
  Py.insert l i x !! Py.slice_bound (Py.len l) i = Some x.
Proof.
  unfold Py.insert. apply list_lookup_middle. rewrite length_take.
  unfold Py.slice_bound, Py.len. destruct (Z.ltb_spec i 0); lia.
Qed.

Lemma insert_levels_ok (its : list ListItem) (i : Z) (x : ListItem) :
  levels_ok its -> 0 <= level x <= 10 -> levels_ok (Py.insert its i x).
Proof.
  intros Hok Hx. unfold Py.insert. apply Forall_app.
  split; [now apply Forall_take|]. constructor; [exact Hx|now apply Forall_drop].
Qed.

(** [add_item] with a level in range, whatever the position. *)
Lemma add_item_explicit_ok (c : str) (l : Z) (self : ListManager) (os : OS) :
  levels_ok (items self) -> 0 <= l <= 10 ->
  exists it : ListItem,
    add_item c (Some l) (self, os)
    = Ok it (mkListManager
               (numbered [] (Py.insert (items self) (current_position self)
                               (new_ListItem c l (fst (draw os)))))
               (current_position self + 1) (root self), snd (draw os))
    /\ content it = c /\ level it = l
    /\ numbered [] (Py.insert (items self) (current_position self)
                      (new_ListItem c l (fst (draw os))))
       !! Py.slice_bound (Py.len (items self)) (current_position self)
       = Some it.
Proof.
  intros Hok Hl.
  unfold add_item, bind, ret, fresh_item, insert_new. cbn [draw fst snd].
  rewrite insert_or_append, insert_position.
  rewrite renumber_items_ok by (now apply insert_levels_ok).
  unfold item_at. cbn [items set_items].
  rewrite (numbered_lookup _ _ _ _ (insert_lookup _ _ _)).
  cbn [default from_option id].
  eexists. repeat split; reflexivity.
Qed.



(** X2. [add_item] without a level, on a manager with levels in range and
    [0 <= current_position <= len(items)]: the new item takes the level of
    the item before the position (0 at position 0), is stored at the
    position with the other items in their order, is the item returned,
    and [current_position] advances by one; the invariants are kept and
    the numbers are up to date. *)
Theorem add_item_default_level_and_place
        (c : str) (self : ListManager) (os : OS) :
  manager_ok self ->
  let k := Z.to_nat (current_position self) in
  exists (it : ListItem) (self' : ListManager) (os' : OS),
    add_item c None (self, os) = Ok it (self', os')
    /\ content it = c /\ level it = recommended_level self
    /\ content <$> items self'
       = take k (content <$> items self) ++ c :: drop k (content <$> items self)
    /\ level <$> items self'
       = take k (level <$> items self) ++ recommended_level self
                                         :: drop k (level <$> items self)
    /\ items self' !! k = Some it
    /\ current_position self' = current_position self + 1
    /\ manager_ok self' /\ numbers_ok (items self').
Proof.
  intros [Hok Hpos] k.
  set (new_item := new_ListItem c (recommended_level self) (fst (draw os))).
  assert (Hok' : levels_ok (take k (items self) ++ new_item :: drop k (items self))).
  { apply Forall_app. split; [now apply Forall_take|].
    constructor; [apply (recommended_level_range _ Hok)|now apply Forall_drop]. }
  assert (Hk : (take k (items self) ++ new_item :: drop k (items self)) !! k
               = Some new_item).
  { apply list_lookup_middle. rewrite length_take. subst k.
    rewrite len_length in Hpos. lia. }
  unfold add_item, bind. rewrite recommended_level_ok by assumption.
  unfold fresh_item. cbn [draw fst snd].
  rewrite insert_new_at by assumption.
  rewrite renumber_items_ok by exact Hok'.
  unfold item_at. cbn [items set_items]. fold k.
  fold new_item in Hk |- *.
  rewrite (numbered_lookup _ _ _ _ Hk). cbn [default from_option id].
  eexists _, _, _. split; [reflexivity|].
  cbn [items current_position set_items].
  split; [reflexivity|]. split; [reflexivity|].
  split; [now rewrite numbered_content, fmap_app, fmap_cons, fmap_take, fmap_drop|].
  split; [now rewrite numbered_level, fmap_app, fmap_cons, fmap_take, fmap_drop|].
  split; [apply (numbered_lookup _ _ _ _ Hk)|]. split; [reflexivity|].
  split; [split|].
  - now apply numbered_levels_ok.
  - cbn [items current_position set_items].
    rewrite len_numbered, len_length, length_app, length_take. simpl.
    rewrite length_drop. rewrite len_length in Hpos. lia.
  - now apply numbered_numbers_ok.
Qed.

Lemma add_item_default_level_and_place_witness :
  exists (it : ListItem) (self' : ListManager) (os' : OS),
    add_item (lit "x") None
      (Sample.manager [Sample.item "a" 0 "1"; Sample.item "b" 1 "1.1";
                       Sample.item "c" 0 "2"] 2, Sample.os)
    = Ok it (self', os')
    /\ level it = 1
    /\ content <$> items self' = [lit "a"; lit "b"; lit "x"; lit "c"].
Proof.
  destruct (add_item_default_level_and_place (lit "x")
              (Sample.manager [Sample.item "a" 0 "1"; Sample.item "b" 1 "1.1";
                               Sample.item "c" 0 "2"] 2) Sample.os)
    as (it & self' & os' & Hrun & _ & Hl & Hc & _).
  - split; [unfold levels_ok; simpl; repeat constructor; simpl; lia|].
    unfold Py.len. simpl. lia.
  - exists it, self', os'. split; [exact Hrun|]. split; [exact Hl|exact Hc].
Defined.

Lemma count_back_zeros (n : nat) : count_back 0 (replicate n 0) = Z.of_nat n.
Proof. induction n as [|n IH]; [reflexivity|]. simpl. rewrite IH. lia. Qed.

Lemma numbered_zeros (its : list ListItem) :
  Forall (fun it => level it = 0) its ->
  forall n : nat,
    number <$> numbered (replicate n 0) its
    = (fun i : nat => Some (Py.str_of_int (Z.of_nat (n + S i))))
        <$> seq 0 (length its).
Proof.
  induction 1 as [|it rest Hit _ IH]; intros n; [reflexivity|].
  cbn [numbered length seq]. rewrite !fmap_cons, Hit.
  change (0 :: replicate n 0) with (replicate (S n) 0).
  rewrite IH. f_equal.
  - cbn [number set_number]. unfold number_from. cbn [take tally fmap list_fmap Py.join].
    rewrite count_back_zeros. do 2 f_equal. lia.
  - rewrite <- (fmap_S_seq 0), <- list_fmap_compose. apply list_fmap_ext.
    intros _ i _. simpl. do 3 f_equal. lia.
Qed.

Lemma add_all_from (cs : list str) :
  forall (self : ListManager) (os : OS),
    Forall (fun it => level it = 0) (items self) ->
    current_position self = Py.len (items self) ->
    numbered [] (items self) = items self ->
    exists (self' : ListManager) (os' : OS),
      add_all cs (self, os) = Ok tt (self', os')
      /\ content <$> items self' = (content <$> items self) ++ cs
      /\ Forall (fun it => level it = 0) (items self')
      /\ current_position self' = Py.len (items self')
      /\ numbered [] (items self') = items self'.
Proof.
  induction cs as [|c cs IH]; intros self os Hz Hpos Hnum.
  - exists self, os. rewrite app_nil_r. auto.
  - assert (Hok : levels_ok (items self)).
    { eapply Forall_impl; [exact Hz|]. intros it ->. lia. }
    assert (Hrec : recommended_level self = 0).
    { unfold recommended_level. destruct (_ =? 0); [reflexivity|].
      destruct (items self !! _) as [it|] eqn:E; [|reflexivity].
      rewrite Forall_lookup in Hz. eauto. }
    destruct (add_item_default_ok c self os) as (it & Hadd & _).
    { split; [exact Hok|]. pose proof (len_nonneg (items self)). lia. }
    cbn [add_all]. unfold bind at 1. rewrite Hadd.
    rewrite Hrec, Hpos. unfold Py.len at 1 2. rewrite Nat2Z.id.
    rewrite take_ge, drop_ge by lia.
    set (self1 := mkListManager _ _ _).
    destruct (IH self1 (snd (draw os))) as (self' & os' & Hrun & Hc & Hz' & Hp' & Hn').
    + subst self1. cbn [items]. rewrite Forall_forall.
      intros x Hx. apply list_elem_of_lookup in Hx as [i Hi].
      pose proof (f_equal (fun l => l !! i) (numbered_level (items self ++ [new_ListItem c 0 (fst (draw os))]) [])) as E.
      cbn beta in E. rewrite !list_lookup_fmap, Hi in E. simpl in E.
      destruct ((items self ++ _) !! i) as [y|] eqn:Ey; [|discriminate E].
      simpl in E. injection E as ->.
      apply lookup_app_Some in Ey as [Ey|[_ Ey]].
      * rewrite Forall_lookup in Hz. eauto.
      * destruct (i - length (items self))%nat; [|discriminate Ey].
        now injection Ey as <-.
    + subst self1. cbn [items current_position].
      rewrite len_numbered, !len_length, length_app. simpl. lia.
    + subst self1. cbn [items]. apply numbered_idem.
    + exists self', os'. split; [exact Hrun|]. split; [|auto].
      rewrite Hc. subst self1. cbn [items].
      rewrite numbered_content, fmap_app, <- app_assoc. reflexivity.
Qed.

(** X1. On a fresh manager, [add_item(c)] for each content of a list
    stores the items in call order, all at level 0 and numbered "1", "2",
    ..., and leaves [current_position] at their count. *)
Theorem add_item_sequence (cs : list str) (os : OS) :
  exists (self' : ListManager) (os' : OS),
    add_all cs (init os) = Ok tt (self', os')
    /\ content <$> items self' = cs
    /\ level <$> items self' = replicate (length cs) 0
    /\ number <$> items self'
       = (fun i : nat => Some (Py.str_of_int (Z.of_nat (S i))))
           <$> seq 0 (length cs)
    /\ current_position self' = Py.len cs.
Proof.
  destruct (add_all_from cs (fst (init os)) (snd (init os)))
    as (self' & os' & Hrun & Hc & Hz & Hp & Hn); try reflexivity; [constructor|].
  rewrite <- surjective_pairing in Hrun.
  change (content <$> items self' = cs) in Hc.
  exists self', os'. split; [exact Hrun|]. split; [exact Hc|].
  assert (Hlen : length (items self') = length cs).
  { rewrite <- Hc. now rewrite length_fmap. }
  split; [|split].
  - apply list_eq_same_length with (length cs);
      [rewrite ?length_fmap, ?length_replicate; congruence ..|].
    intros i x y Hi Hx Hy. rewrite list_lookup_fmap in Hx.
    destruct (items self' !! i) as [it|] eqn:E; [|discriminate Hx].
    rewrite Forall_lookup in Hz. specialize (Hz _ _ E).
    apply lookup_replicate in Hy as [-> _]. simpl in Hx. congruence.
  - rewrite <- Hn at 1. rewrite <- Hlen. exact (numbered_zeros _ Hz 0%nat).
  - rewrite Hp, !len_length, Hlen. reflexivity.
Qed.

(** X4. [delete_item] on levels in range never raises. An index in
    [0, len(items)) removes exactly that item, keeps the others in order,
    renumbers, and clamps [current_position] to the new last index; any
    other index, a negative one included, changes nothing. *)
Theorem delete_item_removes_one (index : Z) (self : ListManager) (os : OS) :
  levels_ok (items self) ->
  exists self' : ListManager,
    delete_item index (self, os) = Ok tt (self', os)
    /\ (0 <= index < Py.len (items self) ->
        content <$> items self'
        = delete (Z.to_nat index) (content <$> items self)
        /\ level <$> items self' = delete (Z.to_nat index) (level <$> items self)
        /\ Py.len (items self') = Py.len (items self) - 1
        /\ current_position self'
           = Z.min (current_position self) (Py.len (items self) - 2)
        /\ numbers_ok (items self'))
    /\ (~ 0 <= index < Py.len (items self) -> self' = self).
Proof.
  intros Hok.
  destruct (decide (0 <= index < Py.len (items self))) as [H|H].
  - rewrite delete_item_ok by assumption. eexists. split; [reflexivity|].
    split; [intros _|intros N; contradiction]. cbn [items current_position].
    split; [now rewrite numbered_content, list_fmap_delete|].
    split; [now rewrite numbered_level, list_fmap_delete|].
    split; [|split; [reflexivity|]].
    + rewrite len_numbered, !len_length, length_delete.
      * rewrite len_length in H. lia.
      * apply lookup_lt_is_Some. rewrite len_length in H. lia.
    + now apply numbered_numbers_ok, Forall_delete.
  - rewrite delete_item_skip by assumption. exists self.
    split; [reflexivity|]. split; [intros N; contradiction|reflexivity].
Qed.

Lemma delete_item_removes_one_witness :
  exists self' : ListManager,
    delete_item 0 (Sample.manager Sample.foo_bar_items 2, Sample.os)
    = Ok tt (self', Sample.os)
    /\ content <$> items self' = [lit "bar"]
    /\ current_position self' = 0.
Proof.
  destruct (delete_item_removes_one 0 (Sample.manager Sample.foo_bar_items 2)
              Sample.os) as (self' & Hrun & Hin & _).
  - unfold levels_ok. simpl. repeat constructor; simpl; lia.
  - destruct Hin as (Hc & _ & _ & Hp & _); [unfold Py.len; simpl; lia|].
    exists self'. split; [exact Hrun|]. split; [exact Hc|exact Hp].
Defined.

Lemma delete_inserted {A} (l : list A) (k : nat) (x : A) :
  (k <= length l)%nat -> delete k (take k l ++ x :: drop k l) = l.
Proof.
  intros Hk. assert (E : length (take k l) = k) by (rewrite length_take; lia).
  rewrite <- E at 1. rewrite delete_middle. apply take_drop.
Qed.

(** Numbering looks at the levels only: items that differ in their number
    are numbered alike. *)
Lemma numbered_of_same (a b : list ListItem) :
  Forall2 same_but_number a b -> forall back, numbered back a = numbered back b.
Proof.
  induction 1 as [|x y a b Hxy _ IH]; intros back; [reflexivity|].
  cbn [numbered]. destruct Hxy as (Hc & Hl & Hi & Hch & Hp & Hco & Hm).
  rewrite Hl, IH. f_equal. destruct x, y. simpl in *. now subst.
Qed.

Lemma numbered_same_sym (its : list ListItem) :
  forall back, Forall2 same_but_number (numbered back its) its.
Proof.
  induction its as [|it rest IH]; intros; simpl; constructor; auto.
  repeat split.
Qed.

(** X5. [add_item] followed by [delete_item] at the position of the new
    item gives back the items as they were, numbers included; only
    [current_position] differs: it ends at
    [min(current_position + 1, len(items) - 1)]. *)
Theorem add_then_delete (c : str) (self : ListManager) (os : OS) :
  manager_ok self -> numbers_ok (items self) ->
  exists os' : OS,
    bind (add_item c None) (fun _ => delete_item (current_position self))
         (self, os)
    = Ok tt (set_current_position self
               (Z.min (current_position self + 1) (Py.len (items self) - 1)),
             os').
Proof.
  intros [Hok Hpos] Hnum.
  destruct (add_item_default_ok c self os (conj Hok Hpos)) as (it & Hadd & _).
  unfold bind. rewrite Hadd.
  set (k := Z.to_nat (current_position self)).
  set (new_item := new_ListItem c _ _).
  assert (Hk : (k <= length (items self))%nat)
    by (subst k; rewrite len_length in Hpos; lia).
  assert (Hok' : levels_ok (take k (items self) ++ new_item :: drop k (items self))).
  { apply Forall_app. split; [now apply Forall_take|].
    constructor; [apply (recommended_level_range _ Hok)|now apply Forall_drop]. }
  assert (Hlen : Py.len (numbered [] (take k (items self) ++ new_item
                                        :: drop k (items self)))
                 = Py.len (items self) + 1).
  { rewrite len_numbered, !len_length, length_app, length_take. simpl.
    rewrite length_drop. lia. }
  rewrite delete_item_ok;
    [|cbn [items]; rewrite Hlen; lia|cbn [items]; now apply numbered_levels_ok].
  cbn [items current_position root]. rewrite Hlen. eexists. f_equal. f_equal.
  destruct self as [its pos rt]. cbn [items current_position root] in *.
  unfold set_current_position. cbn [items current_position root].
  f_equal; [|f_equal; lia].
  fold k.
  rewrite (numbered_of_same _ (delete k (take k its ++ new_item :: drop k its)))
    by (apply Forall2_delete, numbered_same_sym).
  rewrite delete_inserted by assumption.
  now apply numbers_ok_numbered.
Qed.

Lemma add_then_delete_witness :
  exists os' : OS,
    bind (add_item (lit "x") None) (fun _ => delete_item 2)
         (Sample.manager Sample.foo_bar_items 2, Sample.os)
    = Ok tt (Sample.manager Sample.foo_bar_items 1, os').
Proof.
  destruct (add_then_delete (lit "x") (Sample.manager Sample.foo_bar_items 2)
              Sample.os) as (os' & H).
  - split; [unfold levels_ok; simpl; repeat constructor; simpl; lia|].
    unfold Py.len. simpl. lia.
  - reflexivity.
  - exists os'. exact H.
Defined.

Lemma numbered_insert_level (its : list ListItem) (k : nat) (it : ListItem) (l : Z) :
  its !! k = Some it ->
  level <$> numbered [] (<[k := set_level it l]> its) = <[k := l]> (level <$> its)
  /\ content <$> numbered [] (<[k := set_level it l]> its) = content <$> its
  /\ exists it', numbered [] (<[k := set_level it l]> its) !! k = Some it'
                 /\ level it' = l.
Proof.
  intros Hk. rewrite numbered_level, numbered_content, !list_fmap_insert.
  simpl. split; [reflexivity|]. split.
  - apply list_insert_id. now rewrite list_lookup_fmap, Hk.
  - assert (Hin : <[k:=set_level it l]> its !! k = Some (set_level it l)).
    { apply list_lookup_insert_eq. now apply lookup_lt_Some in Hk. }
    rewrite (numbered_lookup _ _ _ _ Hin). eexists. split; reflexivity.
Qed.

Lemma insert_levels_ok' (its : list ListItem) (k : nat) (it : ListItem) (l : Z) :
  levels_ok its -> 0 <= l <= 10 -> levels_ok (<[k := set_level it l]> its).
Proof. intros Hok Hl. now apply Forall_insert. Qed.

Lemma indent_times (n : nat) (index : Z) (os : OS) :
  forall (self : ListManager) (it : ListItem),
    levels_ok (items self) -> 0 <= index ->
    items self !! Z.to_nat index = Some it ->
    exists self' : ListManager,
      times n (indent_item index) (self, os) = Ok tt (self', os)
      /\ level <$> items self'
         = <[Z.to_nat index := Z.min (level it + Z.of_nat n) 10]>
             (level <$> items self)
      /\ content <$> items self' = content <$> items self
      /\ current_position self' = current_position self.
Proof.
  induction n as [|n IH]; intros self it Hok Hi Hit;
    assert (Hlv : 0 <= level it <= 10)
      by (unfold levels_ok in Hok; rewrite Forall_lookup in Hok; eauto).
  - exists self. split; [reflexivity|]. split; [|auto].
    symmetry. apply list_insert_id. rewrite list_lookup_fmap, Hit. simpl.
    f_equal. lia.
  - pose proof (focus_in_range _ _ _ Hi Hit) as Hlt.
    cbn [times]. unfold bind at 1. rewrite indent_item_ok by assumption.
    rewrite (alter_as_insert _ _ _ _ Hit).
    destruct (numbered_insert_level (items self) _ it (Z.min (level it + 1) 10) Hit)
      as (Hl & Hc & it' & Hit' & Hl').
    destruct (IH (set_items self (numbered []
                   (<[Z.to_nat index := set_level it (Z.min (level it + 1) 10)]>
                      (items self)))) it')
      as (self' & Hrun & Hl2 & Hc2 & Hp2); [|assumption|exact Hit'|].
    { cbn [items set_items]. apply numbered_levels_ok, insert_levels_ok'; [exact Hok|lia]. }
    exists self'. split; [exact Hrun|]. cbn [items set_items] in *.
    split; [|split; [congruence|exact Hp2]].
    rewrite Hl2, Hl, Hl', list_insert_insert_eq. f_equal. lia.
Qed.

Lemma outdent_times (n : nat) (index : Z) (os : OS) :
  forall (self : ListManager) (it : ListItem),
    levels_ok (items self) -> 0 <= index ->
    items self !! Z.to_nat index = Some it ->
    exists self' : ListManager,
      times n (outdent_item index) (self, os) = Ok tt (self', os)
      /\ level <$> items self'
         = <[Z.to_nat index := Z.max (level it - Z.of_nat n) 0]>
             (level <$> items self)
      /\ content <$> items self' = content <$> items self
      /\ current_position self' = current_position self.
Proof.
  induction n as [|n IH]; intros self it Hok Hi Hit;
    assert (Hlv : 0 <= level it <= 10)
      by (unfold levels_ok in Hok; rewrite Forall_lookup in Hok; eauto).
  - exists self. split; [reflexivity|]. split; [|auto].
    symmetry. apply list_insert_id. rewrite list_lookup_fmap, Hit. simpl.
    f_equal. lia.
  - pose proof (focus_in_range _ _ _ Hi Hit) as Hlt.
    cbn [times]. unfold bind at 1. rewrite outdent_item_ok by assumption.
    rewrite (alter_as_insert _ _ _ _ Hit).
    destruct (numbered_insert_level (items self) _ it (Z.max (level it - 1) 0) Hit)
      as (Hl & Hc & it' & Hit' & Hl').
    destruct (IH (set_items self (numbered []
                   (<[Z.to_nat index := set_level it (Z.max (level it - 1) 0)]>
                      (items self)))) it')
      as (self' & Hrun & Hl2 & Hc2 & Hp2); [|assumption|exact Hit'|].
    { cbn [items set_items]. apply numbered_levels_ok, insert_levels_ok'; [exact Hok|lia]. }
    exists self'. split; [exact Hrun|]. cbn [items set_items] in *.
    split; [|split; [congruence|exact Hp2]].
    rewrite Hl2, Hl, Hl', list_insert_insert_eq. f_equal. lia.
Qed.

(** X6. [indent_item] called [n] times on one item raises its level to
    [min(level + n, 10)], never above 10; the other levels, the contents
    and [current_position] are unchanged. *)
Theorem indent_item_clamps (n : nat) (index : Z) (self : ListManager) (os : OS)
        (it : ListItem) :
  levels_ok (items self) -> 0 <= index ->
  items self !! Z.to_nat index = Some it ->
  exists self' : ListManager,
    times n (indent_item index) (self, os) = Ok tt (self', os)
    /\ level <$> items self'
       = <[Z.to_nat index := Z.min (level it + Z.of_nat n) 10]>
           (level <$> items self)
    /\ content <$> items self' = content <$> items self
    /\ current_position self' = current_position self
    /\ levels_ok (items self').
Proof.
  intros Hok Hi Hit.
  destruct (indent_times n index os self it Hok Hi Hit) as (self' & Hrun & Hl & Hc & Hp).
  exists self'. repeat (split; [assumption|]).
  unfold levels_ok. rewrite Forall_lookup. intros i x Hx.
  assert (Hlx : (level <$> items self') !! i = Some (level x))
    by (now rewrite list_lookup_fmap, Hx).
  rewrite Hl in Hlx. unfold levels_ok in Hok. rewrite Forall_lookup in Hok.
  destruct (decide (i = Z.to_nat index)) as [->|N].
  - rewrite list_lookup_insert_eq in Hlx
      by (rewrite length_fmap; now apply lookup_lt_Some in Hit).
    injection Hlx as <-. specialize (Hok _ _ Hit). lia.
  - rewrite list_lookup_insert_ne, list_lookup_fmap in Hlx by congruence.
    destruct (items self !! i) as [y|] eqn:Ey; [|discriminate Hlx].
    injection Hlx as <-. eauto.
Qed.

Lemma indent_item_clamps_witness :
  exists self' : ListManager,
    times 25 (indent_item 1) (Sample.manager Sample.foo_bar_items 2, Sample.os)
    = Ok tt (self', Sample.os)
    /\ level <$> items self' = [0; 10].
Proof.
  destruct (indent_item_clamps 25 1 (Sample.manager Sample.foo_bar_items 2)
              Sample.os (Sample.item "bar" 0 "2"))
    as (self' & Hrun & Hl & _).
  - unfold levels_ok. simpl. repeat constructor; simpl; lia.
  - lia.
  - reflexivity.
  - exists self'. split; [exact Hrun|exact Hl].
Defined.

(** X7. [outdent_item] called [n] times on one item lowers its level to
    [max(level - n, 0)], never below 0; the other levels, the contents and
    [current_position] are unchanged. *)
Theorem outdent_item_clamps (n : nat) (index : Z) (self : ListManager) (os : OS)
        (it : ListItem) :
  levels_ok (items self) -> 0 <= index ->
  items self !! Z.to_nat index = Some it ->
  exists self' : ListManager,
    times n (outdent_item index) (self, os) = Ok tt (self', os)
    /\ level <$> items self'
       = <[Z.to_nat index := Z.max (level it - Z.of_nat n) 0]>
           (level <$> items self)
    /\ content <$> items self' = content <$> items self
    /\ current_position self' = current_position self.
Proof. intros Hok Hi Hit. exact (outdent_times n index os self it Hok Hi Hit). Qed.

Lemma outdent_item_clamps_witness :
  exists self' : ListManager,
    times 3 (outdent_item 1)
      (Sample.manager [Sample.item "a" 0 "1"; Sample.item "b" 1 "1.1"] 2, Sample.os)
    = Ok tt (self', Sample.os)
    /\ level <$> items self' = [0; 0].
Proof.
  destruct (outdent_item_clamps 3 1
              (Sample.manager [Sample.item "a" 0 "1"; Sample.item "b" 1 "1.1"] 2)
              Sample.os (Sample.item "b" 1 "1.1"))
    as (self' & Hrun & Hl & _).
  - unfold levels_ok. simpl. repeat constructor; simpl; lia.
  - lia.
  - reflexivity.
  - exists self'. split; [exact Hrun|exact Hl].
Defined.

Lemma set_level_back (it : ListItem) (l : Z) :
  set_level (set_level it l) (level it) = it.
Proof. now destruct it. Qed.

Lemma relevel_same (its : list ListItem) (k : nat) (it : ListItem) (l : Z) :
  its !! k = Some it ->
  numbered []
    (<[k := set_level (set_number (set_level it l) [] ) (level it)]> its)
  = numbered [] its.
Proof.
  intros Hk. apply numbered_of_same.
  apply Forall2_same_length_lookup_2; [now rewrite length_insert|].
  intros i x y Hx Hy. destruct (decide (i = k)) as [->|N].
  - rewrite list_lookup_insert_eq in Hx by (now apply lookup_lt_Some in Hk).
    rewrite Hk in Hy. injection Hx as <-. injection Hy as <-. repeat split.
  - rewrite list_lookup_insert_ne in Hx by congruence.
    rewrite Hx in Hy. injection Hy as <-. repeat split.
Qed.

Lemma in_out_same (its : list ListItem) (k : nat) (it : ListItem) (l : Z) :
  its !! k = Some it ->
  forall f : ListItem -> ListItem,
    (forall n, same_but_number (f (set_number (set_level it l) n)) it) ->
    numbered [] (alter f k (numbered [] (<[k := set_level it l]> its)))
    = numbered [] its.
Proof.
  intros Hk f Hf. apply numbered_of_same.
  assert (Hin : <[k:=set_level it l]> its !! k = Some (set_level it l)).
  { apply list_lookup_insert_eq. now apply lookup_lt_Some in Hk. }
  apply Forall2_same_length_lookup_2.
  { now rewrite length_alter, numbered_length, length_insert. }
  intros i x y Hx Hy. destruct (decide (i = k)) as [->|N].
  - rewrite list_lookup_alter_eq, (numbered_lookup _ _ _ _ Hin) in Hx.
    simpl in Hx. injection Hx as <-. rewrite Hk in Hy. injection Hy as <-.
    apply Hf.
  - rewrite list_lookup_alter_ne in Hx by congruence.
    pose proof (numbered_same_sym (<[k:=set_level it l]> its) []) as Hs.
    rewrite Forall2_lookup in Hs. specialize (Hs i). rewrite Hx in Hs.
    rewrite list_lookup_insert_ne, Hy in Hs by congruence.
    now inversion Hs.
Qed.

(** X8. With numbers up to date, [indent_item] then [outdent_item] on an
    item below level 10 gives back the same manager, and so does
    [outdent_item] then [indent_item] on an item above level 0. *)
Theorem indent_outdent_round_trip (index : Z) (self : ListManager) (os : OS)
        (it : ListItem) :
  levels_ok (items self) -> numbers_ok (items self) -> 0 <= index ->
  items self !! Z.to_nat index = Some it ->
  (level it < 10 ->
   bind (indent_item index) (fun _ => outdent_item index) (self, os)
   = Ok tt (self, os))
  /\ (0 < level it ->
      bind (outdent_item index) (fun _ => indent_item index) (self, os)
      = Ok tt (self, os)).
Proof.
  intros Hok Hnum Hi Hit.
  pose proof (focus_in_range _ _ _ Hi Hit) as Hlt.
  assert (Hlv : 0 <= level it <= 10)
    by (unfold levels_ok in Hok; rewrite Forall_lookup in Hok; eauto).
  split; intros Hl; unfold bind.
  - rewrite indent_item_ok by assumption.
    rewrite (alter_as_insert _ _ _ _ Hit).
    rewrite outdent_item_ok;
      [|cbn [items set_items]; now rewrite len_numbered, len_insert
       |cbn [items set_items]; apply numbered_levels_ok, insert_levels_ok';
        [assumption|lia]].
    cbn [items set_items].
    rewrite (in_out_same (items self) (Z.to_nat index) it _ Hit).
    + rewrite (numbers_ok_numbered _ Hok Hnum). now destruct self.
    + intros n. repeat split. simpl. lia.
  - rewrite outdent_item_ok by assumption.
    rewrite (alter_as_insert _ _ _ _ Hit).
    rewrite indent_item_ok;
      [|cbn [items set_items]; now rewrite len_numbered, len_insert
       |cbn [items set_items]; apply numbered_levels_ok, insert_levels_ok';
        [assumption|lia]].
    cbn [items set_items].
    rewrite (in_out_same (items self) (Z.to_nat index) it _ Hit).
    + rewrite (numbers_ok_numbered _ Hok Hnum). now destruct self.
    + intros n. repeat split. simpl. lia.
Qed.

Lemma indent_outdent_round_trip_witness :
  let self := Sample.manager [Sample.item "a" 0 "1"; Sample.item "b" 1 "1.1"] 2 in
  bind (indent_item 1) (fun _ => outdent_item 1) (self, Sample.os)
  = Ok tt (self, Sample.os)
  /\ bind (outdent_item 1) (fun _ => indent_item 1) (self, Sample.os)
     = Ok tt (self, Sample.os).
Proof.
  intros self.
  destruct (indent_outdent_round_trip 1 self Sample.os (Sample.item "b" 1 "1.1"))
    as [H1 H2].
  - unfold levels_ok. simpl. repeat constructor; simpl; lia.
  - reflexivity.
  - lia.
  - reflexivity.
  - split; [apply H1|apply H2]; simpl; lia.
Defined.

Lemma not_not (b : bool) : negb (negb b) = b.
Proof. now destruct b. Qed.

Lemma toggle_collapse_in (index : Z) (self : ListManager) (os : OS) :
  0 <= index < Py.len (items self) ->
  toggle_collapse index (self, os)
  = Ok tt (set_items self
             (alter (fun it => set_collapsed it (negb (collapsed it)))
                    (Z.to_nat index) (items self)), os).
Proof.
  intros H. unfold toggle_collapse, bind, self_.
  destruct (Z.leb_spec 0 index), (Z.ltb_spec index (Py.len (items self)));
    try lia; reflexivity.
Qed.

Lemma toggle_collapse_out (index : Z) (self : ListManager) (os : OS) :
  ~ 0 <= index < Py.len (items self) ->
  toggle_collapse index (self, os) = Ok tt (self, os).
Proof.
  intros H. unfold toggle_collapse, bind, self_.
  destruct (Z.leb_spec 0 index), (Z.ltb_spec index (Py.len (items self)));
    try lia; reflexivity.
Qed.

(** X9. [toggle_collapse] twice on one index gives back the same
    manager. One call flips the [collapsed] flag of the item at an index
    in range and nothing else (contents, levels, numbers, identities and
    [current_position] stay, and no renumbering runs); an index out of
    range changes nothing. *)
Theorem toggle_collapse_involution (index : Z) (self : ListManager) (os : OS) :
  bind (toggle_collapse index) (fun _ => toggle_collapse index) (self, os)
  = Ok tt (self, os)
  /\ exists self' : ListManager,
       toggle_collapse index (self, os) = Ok tt (self', os)
       /\ Forall2 (fun a b => content a = content b /\ level a = level b
                              /\ number a = number b /\ id a = id b)
                  (items self) (items self')
       /\ current_position self' = current_position self
       /\ (forall it, 0 <= index -> items self !! Z.to_nat index = Some it ->
             collapsed <$> items self'
             = <[Z.to_nat index := negb (collapsed it)]> (collapsed <$> items self))
       /\ (~ 0 <= index < Py.len (items self) -> self' = self).
Proof.
  destruct (decide (0 <= index < Py.len (items self))) as [H|H].
  - split.
    + unfold bind. rewrite toggle_collapse_in by assumption.
      rewrite toggle_collapse_in
        by (cbn [items set_items]; unfold Py.len in *; now rewrite length_alter).
      f_equal. f_equal. destruct self as [its pos rt]. unfold set_items.
      cbn [items current_position root]. f_equal.
      rewrite list_alter_alter_eq. apply list_alter_id.
      intros x. destruct x. unfold set_collapsed. simpl. now rewrite not_not.
    + rewrite toggle_collapse_in by assumption.
      eexists. split; [reflexivity|]. cbn [items set_items current_position].
      split; [|split; [reflexivity|split]].
      * apply Forall2_same_length_lookup_2; [now rewrite length_alter|].
        intros i x y Hx Hy. destruct (decide (i = Z.to_nat index)) as [->|N].
        -- rewrite list_lookup_alter_eq, Hx in Hy. simpl in Hy.
           injection Hy as <-. repeat split.
        -- rewrite list_lookup_alter_ne, Hx in Hy by congruence.
           injection Hy as <-. repeat split.
      * intros it _ Hit. rewrite (alter_as_insert _ _ _ _ Hit).
        now rewrite list_fmap_insert.
      * intros N. contradiction.
  - split.
    + unfold bind. now rewrite !toggle_collapse_out by assumption.
    + rewrite toggle_collapse_out by assumption. exists self.
      split; [reflexivity|]. split; [|split; [reflexivity|split; [|reflexivity]]].
      * apply Forall2_same_length_lookup_2; [reflexivity|].
        intros i x y Hx Hy. rewrite Hx in Hy. now injection Hy as <-.
      * intros it Hi Hit. apply lookup_lt_Some in Hit.
        unfold Py.len in H. lia.
Qed.

Lemma toggle_collapse_involution_witness :
  let self := Sample.manager Sample.foo_bar_items 2 in
  exists self' : ListManager,
    toggle_collapse 1 (self, Sample.os) = Ok tt (self', Sample.os)
    /\ collapsed <$> items self' = [false; true]
    /\ toggle_collapse 1 (self', Sample.os) = Ok tt (self, Sample.os).
Proof.
  intros self.
  destruct (toggle_collapse_involution 1 self Sample.os)
    as (Htwice & self' & Hrun & _ & _ & Hflip & _).
  exists self'. split; [exact Hrun|]. split.
  - apply (Hflip (Sample.item "bar" 0 "2")); [lia|reflexivity].
  - unfold bind in Htwice. rewrite Hrun in Htwice. exact Htwice.
Defined.

End MoreOperations.

Section RenumberErrors.

Import ListManager Outline.

Lemma wrapped_level_cases (l : Z) :
  -11 <= l < 0 ->
  l = -1 \/ l = -2 \/ l = -3 \/ l = -4 \/ l = -5 \/ l = -6 \/ l = -7
  \/ l = -8 \/ l = -9 \/ l = -10 \/ l = -11.
Proof. lia. Qed.

(** A level in [-11, -1] indexes the counters from the end: the step
    succeeds, and the number is empty. *)
Lemma renumber_step_wrapped (counters : list Z) (lvl : Z) :
  length counters = 11%nat -> -11 <= lvl < 0 ->
  renumber_step counters lvl
  = Some (<[Z.to_nat (lvl + 11) := 1]> (replicate 11 0), []).
Proof.
  intros Hlen Hl.
  do 12 (destruct counters as [|? counters]; try discriminate Hlen).
  destruct (wrapped_level_cases _ Hl)
    as [->|[->|[->|[->|[->|[->|[->|[->|[->|[->| ->]]]]]]]]]]; reflexivity.
Qed.

Lemma setitem_length {A} (l l' : list A) (i : Z) (v : A) :
  Py.setitem l i v = Some l' -> length l' = length l.
Proof.
  unfold Py.setitem. destruct (Py.index l i); [|discriminate].
  simpl. intros [= <-]. apply length_insert.
Qed.

Lemma for_each_setitem_length {A} (v : A) (idx : list Z) :
  forall l l' : list A,
    Py.for_each (fun c i => Py.setitem c i v) l idx = Some l' ->
    length l' = length l.
Proof.
  induction idx as [|i idx IH]; intros l l' H; simpl in H.
  - now injection H as <-.
  - destruct (Py.setitem l i v) as [l1|] eqn:E; [|discriminate H].
    simpl in H. rewrite (IH _ _ H). eapply setitem_length, E.
Qed.

Lemma getitem_out {A} (l : list A) (i : Z) :
  i < - Py.len l \/ Py.len l <= i -> Py.getitem l i = None.
Proof.
  intros H. unfold Py.getitem, Py.index. pose proof (len_nonneg l).
  destruct (Z.leb_spec 0 i), (Z.ltb_spec i (Py.len l)),
    (Z.leb_spec (- Py.len l) i), (Z.ltb_spec i 0); simpl; try lia; reflexivity.
Qed.

(** A level outside [-11, 10] has no counter. *)
Lemma renumber_step_out (counters : list Z) (lvl : Z) :
  length counters = 11%nat -> lvl < -11 \/ 10 < lvl ->
  renumber_step counters lvl = None.
Proof.
  intros Hlen H. unfold renumber_step.
  destruct (Py.for_each _ counters _) as [c1|] eqn:E; [|reflexivity].
  apply for_each_setitem_length in E. simpl.
  rewrite getitem_out; [reflexivity|]. unfold Py.len. rewrite E, Hlen. lia.
Qed.

Lemma renumber_step_length (counters : list Z) (lvl : Z) (c' : list Z) (n : str) :
  length counters = 11%nat ->
  renumber_step counters lvl = Some (c', n) -> length c' = 11%nat.
Proof.
  intros Hlen H.
  destruct (decide (lvl < -11 \/ 10 < lvl)) as [Hout|Hin].
  - now rewrite renumber_step_out in H.
  - destruct (decide (lvl < 0)).
    + rewrite renumber_step_wrapped in H by (assumption || lia).
      injection H as <- _. now rewrite length_insert.
    + rewrite renumber_step_bump in H by (assumption || lia).
      injection H as <- _. unfold bump.
      rewrite !length_app, length_take, length_replicate, Hlen. simpl. lia.
Qed.

Lemma renumber_loop_raises (its : list ListItem) :
  forall counters,
    length counters = 11%nat ->
    (snd (renumber_loop counters its) = None
     <-> Forall (fun it => -11 <= level it <= 10) its)
    /\ (snd (renumber_loop counters its) = None
        \/ snd (renumber_loop counters its) = Some IndexError).
Proof.
  induction its as [|it rest IH]; intros counters Hlen; simpl.
  - split; [split; [constructor|reflexivity]|now left].
  - destruct (renumber_step counters (level it)) as [[c' n]|] eqn:E.
    + pose proof (renumber_step_length _ _ _ _ Hlen E) as Hlen'.
      destruct (IH c' Hlen') as [Hiff Hor].
      destruct (renumber_loop c' rest) as [rest' e]. simpl in *.
      split; [|exact Hor]. rewrite Forall_cons, <- Hiff.
      split; [intros ->; split; [|reflexivity]|tauto].
      destruct (decide (level it < -11 \/ 10 < level it)) as [Hout|Hin]; [|lia].
      now rewrite renumber_step_out in E.
    + simpl. split; [|now right]. split; [discriminate|].
      intros H. apply Forall_cons in H as [H _].
      destruct (decide (level it < 0)).
      * now rewrite renumber_step_wrapped in E by (assumption || lia).
      * now rewrite renumber_step_bump in E by (assumption || lia).
Qed.

(** X10. [renumber_items] returns exactly when every level is in
    [-11, 10] (a negative level indexes the counters from the end);
    otherwise it raises [IndexError], and then too only numbers have
    changed: the items keep their order and every other field, and
    [current_position] is unchanged. *)
Theorem renumber_items_raises_iff (self : ListManager) (os : OS) :
  (returns (renumber_items (self, os)) = Some tt
   <-> Forall (fun it => -11 <= level it <= 10) (items self))
  /\ (returns (renumber_items (self, os)) = None
      -> exists self', renumber_items (self, os) = Raise IndexError (self', os)
                       /\ Forall2 same_but_number (items self) (items self')
                       /\ current_position self' = current_position self).
Proof.
  unfold renumber_items.
  pose proof (renumber_loop_raises (items self) (replicate 11 0) eq_refl) as [Hiff Hor].
  pose proof (renumber_loop_same (items self) (replicate 11 0)) as Hs.
  destruct (renumber_loop _ _) as [its' [e|]]; simpl in *.
  - split.
    + rewrite <- Hiff. split; discriminate.
    + intros _. destruct Hor as [Hor|Hor]; [discriminate|]. injection Hor as ->.
      eexists. split; [reflexivity|]. split; [exact Hs|reflexivity].
  - split; [|discriminate]. rewrite <- Hiff. tauto.
Qed.

Lemma renumber_items_raises_iff_witness :
  let self := Sample.manager
                [Sample.item "a" 0 "1"; Sample.item "b" 11 ""; Sample.item "c" 0 ""]
                0 in
  exists self' : ListManager,
    renumber_items (self, Sample.os) = Raise IndexError (self', Sample.os)
    /\ Forall2 same_but_number (items self) (items self').
Proof.
  intros self.
  destruct (proj2 (renumber_items_raises_iff self Sample.os) eq_refl)
    as (self' & Hrun & Hsame & _).
  exists self'. split; [exact Hrun|exact Hsame].
Defined.

End RenumberErrors.



Section Unique.

Import ListManager Outline.

Lemma str_of_int_inj (n n' : Z) : Py.str_of_int n = Py.str_of_int n' -> n = n'.
Proof.
  unfold Py.str_of_int. intros H.
  apply (f_equal string_of_list_ascii) in H.
  rewrite !string_of_list_ascii_of_string in H.
  apply DecimalZ.to_int_inj.
  assert (Hnn : forall z, Z.to_int z <> Pos Nil /\ Z.to_int z <> Neg Nil).
  { intros [|p|p]; simpl; split; try discriminate; intros [= E];
      now apply DecimalPos.Unsigned.to_uint_nonnil in E. }
  apply (f_equal NilZero.int_of_string) in H.
  rewrite !NilZero.isi in H by apply Hnn. now injection H.
Qed.

Lemma count_back_app (m : Z) (pre back : list Z) :
  Forall (fun x => m <= x) pre ->
  count_back m (pre ++ back) = count_level m pre + count_back m back.
Proof.
  unfold count_level.
  induction 1 as [|x pre Hx _ IH]; [simpl; lia|].
  cbn [app count_back]. rewrite filter_cons.
  destruct (Z.ltb_spec x m); [lia|].
  destruct (Z.eqb_spec x m) as [->|N].
  - rewrite decide_True by reflexivity. rewrite IH. simpl length. lia.
  - rewrite decide_False by assumption. exact IH.
Qed.

Lemma least_level (pre : list Z) :
  pre <> [] -> exists m, m ∈ pre /\ Forall (fun x => m <= x) pre.
Proof.
  induction pre as [|x pre IH]; [contradiction|]. intros _.
  destruct pre as [|y pre].
  - exists x. split; [left|]. repeat constructor. lia.
  - destruct IH as (m & Hm & Hall); [discriminate|].
    destruct (Z.le_gt_cases x m).
    + exists x. split; [left|]. constructor; [lia|].
      eapply Forall_impl; [exact Hall|]. simpl. lia.
    + exists m. split; [now right|]. constructor; [lia|exact Hall].
Qed.

Lemma count_level_pos (m : Z) (pre : list Z) : m ∈ pre -> 0 < count_level m pre.
Proof.
  intros H. unfold count_level.
  assert (Hin : m ∈ filter (fun x => x = m) pre) by (now apply list_elem_of_filter).
  destruct (filter _ pre); [inversion Hin|]. simpl. lia.
Qed.

(** Two items of one level, the second after the first: their numbers
    differ. [pre] holds the levels after the first item up to the second,
    last first. *)
Lemma number_from_grows (pre back : list Z) (l : Z) :
  0 <= l <= 10 -> pre <> [] -> l ∈ pre -> Forall (fun x => 0 <= x) pre ->
  number_from (tally (pre ++ back)) l <> number_from (tally back) l.
Proof.
  intros Hl Hne Hin Hpos E.
  destruct (least_level pre Hne) as (m & Hm & Hall).
  assert (Hml : 0 <= m <= l).
  { rewrite Forall_forall in Hall, Hpos. split; [now apply Hpos|now apply Hall]. }
  apply (f_equal components) in E.
  destruct (number_from_components (tally (pre ++ back)) l) as [E1|E1];
    [|apply (f_equal length) in E1; rewrite length_take, tally_length in E1;
      simpl in E1; lia].
  destruct (number_from_components (tally back) l) as [E2|E2];
    [|apply (f_equal length) in E2; rewrite length_take, tally_length in E2;
      simpl in E2; lia].
  rewrite E1, E2 in E.
  apply (f_equal (fun p => p !! Z.to_nat m)) in E. cbn beta in E.
  rewrite !list_lookup_fmap, !lookup_take_lt, !tally_lookup in E by lia.
  simpl in E. injection E as E. apply str_of_int_inj in E.
  rewrite count_back_app in E by assumption.
  pose proof (count_level_pos m pre Hm). lia.
Qed.

Lemma number_from_levels (b1 b2 : list Z) (l1 l2 : Z) :
  0 <= l1 <= 10 -> 0 <= l2 <= 10 -> l1 <> l2 ->
  number_from (tally b1) l1 <> number_from (tally b2) l2.
Proof.
  intros H1 H2 N E. apply (f_equal (fun s => Py.len (components s))) in E.
  cbn beta in E.
  rewrite (proj1 (number_from_tally b1 l1 H1)) in E.
  rewrite (proj1 (number_from_tally b2 l2 H2)) in E. lia.
Qed.

(** X11. After [renumber_items] on levels in [0, 10], no two items of
    the list have the same number. *)
Theorem renumber_items_numbers_distinct (self : ListManager) (os : OS) :
  levels_ok (items self) ->
  exists self' : ListManager,
    renumber_items (self, os) = Ok tt (self', os)
    /\ forall (i j : nat) (a b : ListItem),
         items self' !! i = Some a -> items self' !! j = Some b ->
         number a = number b -> i = j.
Proof.
  intros Hok. rewrite renumber_items_ok by assumption.
  eexists. split; [reflexivity|]. cbn [items set_items].
  assert (Hlt : forall (i j : nat) (a b : ListItem),
             (i < j)%nat ->
             numbered [] (items self) !! i = Some a ->
             numbered [] (items self) !! j = Some b ->
             number a <> number b).
  { intros i j a b Hij Ha Hb.
    destruct (lookup_lt_is_Some_2 (items self) i) as [x Hx].
    { apply lookup_lt_Some in Ha. now rewrite numbered_length in Ha. }
    destruct (lookup_lt_is_Some_2 (items self) j) as [y Hy].
    { apply lookup_lt_Some in Hb. now rewrite numbered_length in Hb. }
    rewrite (numbered_lookup _ _ _ _ Hx) in Ha. injection Ha as <-.
    rewrite (numbered_lookup _ _ _ _ Hy) in Hb. injection Hb as <-.
    rewrite !app_nil_r. simpl.
    unfold levels_ok in Hok. rewrite Forall_lookup in Hok.
    pose proof (Hok _ _ Hx) as Hlx. pose proof (Hok _ _ Hy) as Hly.
    intros [= E]. revert E.
    destruct (decide (level x = level y)) as [El|Nl];
      [|now apply number_from_levels].
    rewrite El. apply not_eq_sym.
    set (levels := level <$> items self).
    assert (Esplit : rev (take (S j) levels)
                     = rev (drop (S i) (take (S j) levels))
                       ++ rev (take (S i) levels)).
    { rewrite <- rev_app_distr. f_equal.
      rewrite <- (take_drop (S i) (take (S j) levels)) at 1.
      f_equal. rewrite take_take. f_equal. lia. }
    rewrite Esplit.
    assert (Hyl : drop (S i) (take (S j) levels) !! (j - S i)%nat = Some (level y)).
    { rewrite lookup_drop, lookup_take_lt by lia. subst levels.
      rewrite list_lookup_fmap. replace (S i + (j - S i))%nat with j by lia.
      now rewrite Hy. }
    apply number_from_grows; [exact Hly| | |].
    - intros E. apply (f_equal length) in E. rewrite length_rev in E.
      apply lookup_lt_Some in Hyl. simpl in E. lia.
    - rewrite list_elem_of_In, <- in_rev, <- list_elem_of_In.
      eapply list_elem_of_lookup_2, Hyl.
    - apply Forall_rev, Forall_drop, Forall_take. subst levels.
      apply Forall_fmap. apply Forall_lookup. intros k z Hz. simpl.
      specialize (Hok _ _ Hz). lia. }
  intros i j a b Ha Hb E.
  destruct (Nat.lt_trichotomy i j) as [H|[H|H]]; [|exact H|].
  - now destruct (Hlt i j a b H Ha Hb).
  - symmetry in E. now destruct (Hlt j i b a H Hb Ha).
Qed.

Lemma renumber_items_numbers_distinct_witness :
  exists self' : ListManager,
    renumber_items (Sample.manager Sample.outline 5, Sample.os)
    = Ok tt (self', Sample.os)
    /\ forall (i j : nat) (a b : ListItem),
         items self' !! i = Some a -> items self' !! j = Some b ->
         number a = number b -> i = j.
Proof.
  apply (renumber_items_numbers_distinct (Sample.manager Sample.outline 5)
           Sample.os).
  unfold levels_ok. simpl. repeat constructor; simpl; lia.
Defined.

End Unique.

Section Structure.

Import ListManager Outline.

Lemma count_level_rev (m : Z) (l : list Z) :
  count_level m (rev l) = count_level m l.
Proof.
  unfold count_level. induction l as [|x l IH]; [reflexivity|].
  simpl rev. rewrite filter_app, length_app, filter_cons.
  destruct (decide (x = m)); rewrite filter_cons; simpl;
    [rewrite decide_True by assumption|rewrite decide_False by assumption];
    simpl; lia.
Qed.

Lemma count_back_all (m : Z) (back : list Z) :
  Forall (fun x => m <= x) back -> count_back m back = count_level m back.
Proof.
  intros H. rewrite <- (app_nil_r back) at 1.
  rewrite count_back_app by assumption. simpl. lia.
Qed.

Lemma count_level_none (m : Z) (l : list Z) :
  Forall (fun x => m < x) l -> count_level m l = 0.
Proof.
  unfold count_level. induction 1 as [|x l Hx _ IH]; [reflexivity|].
  rewrite filter_cons, decide_False by lia. exact IH.
Qed.

Lemma number_from_top (back : list Z) :
  number_from (tally back) 0 = Py.str_of_int (count_back 0 back).
Proof. reflexivity. Qed.

(** X12. After [renumber_items] on levels in [0,10], an item at level 0
    is numbered by its rank among the level-0 items: its number is the
    decimal count of the level-0 items up to and including itself. *)
Theorem top_level_numbers (self : ListManager) (os : OS) :
  levels_ok (items self) ->
  exists self' : ListManager,
    renumber_items (self, os) = Ok tt (self', os)
    /\ forall (i : nat) (it' : ListItem),
         items self' !! i = Some it' -> level it' = 0 ->
         number it'
         = Some (Py.str_of_int
                   (count_level 0 (take (S i) (level <$> items self)))).
Proof.
  intros Hok. rewrite renumber_items_ok by assumption.
  eexists. split; [reflexivity|]. cbn [items set_items].
  intros i it' Hi Hl.
  destruct (lookup_lt_is_Some_2 (items self) i) as [it Hit].
  { apply lookup_lt_Some in Hi. now rewrite numbered_length in Hi. }
  rewrite (numbered_lookup _ _ _ _ Hit) in Hi. injection Hi as <-.
  simpl in Hl |- *. rewrite Hl, app_nil_r, number_from_top.
  rewrite count_back_all, count_level_rev; [reflexivity|].
  apply Forall_rev, Forall_take, Forall_fmap.
  eapply Forall_impl; [exact Hok|]. simpl. lia.
Qed.

Lemma top_level_numbers_witness :
  exists self' : ListManager,
    renumber_items (Sample.manager Sample.outline 5, Sample.os)
    = Ok tt (self', Sample.os)
    /\ forall it' : ListItem,
         items self' !! 3%nat = Some it' -> level it' = 0 ->
         number it' = Some (lit "2").
Proof.
  destruct (top_level_numbers (Sample.manager Sample.outline 5) Sample.os)
    as (self' & Hrun & H).
  - unfold levels_ok. simpl. repeat constructor; simpl; lia.
  - exists self'. split; [exact Hrun|]. intros it' Hi Hl.
    exact (H 3%nat it' Hi Hl).
Defined.

Lemma join_snoc (sep p : str) (ps : list str) (q : str) :
  Py.join sep ((p :: ps) ++ [q]) = Py.join sep (p :: ps) ++ sep ++ q.
Proof.
  revert p. induction ps as [|r ps IH]; intros p; [reflexivity|].
  change (Py.join sep ((p :: r :: ps) ++ [q]))
    with (p ++ sep ++ Py.join sep ((r :: ps) ++ [q])).
  rewrite IH.
  change (Py.join sep (p :: r :: ps)) with (p ++ sep ++ Py.join sep (r :: ps)).
  now rewrite <- !app_assoc.
Qed.

(** The counts at the levels below [l] do not see items of level [l] or
    deeper. *)
Lemma tally_take_deeper (pre back : list Z) (l : Z) :
  0 <= l <= 10 -> Forall (fun x => l <= x) pre ->
  take (Z.to_nat l) (tally (pre ++ back)) = take (Z.to_nat l) (tally back).
Proof.
  intros Hl Hpre. apply list_eq. intros k.
  destruct (decide (k < Z.to_nat l)%nat) as [Hk|Hk].
  - rewrite !lookup_take_lt by assumption.
    replace k with (Z.to_nat (Z.of_nat k)) by lia.
    rewrite !tally_lookup by lia. f_equal.
    rewrite count_back_app.
    + rewrite count_level_none; [lia|].
      eapply Forall_impl; [exact Hpre|]. simpl. lia.
    + eapply Forall_impl; [exact Hpre|]. simpl. lia.
  - rewrite !lookup_take_ge by lia. reflexivity.
Qed.

Lemma number_from_extends (pre back : list Z) (l : Z) :
  0 <= l < 10 -> Forall (fun x => l + 1 <= x) pre ->
  number_from (tally (pre ++ back)) (l + 1)
  = number_from (tally back) l ++ lit "."
    ++ Py.str_of_int (count_back (l + 1) (pre ++ back)).
Proof.
  intros Hl Hpre. unfold number_from.
  replace (S (Z.to_nat (l + 1))) with (S (S (Z.to_nat l))) by lia.
  rewrite (take_S_r _ (S (Z.to_nat l)) (count_back (l + 1) (pre ++ back))).
  - replace (S (Z.to_nat l)) with (Z.to_nat (l + 1)) by lia.
    rewrite tally_take_deeper by (assumption || lia).
    rewrite fmap_app.
    destruct (take (Z.to_nat (l + 1)) (tally back)) as [|z zs] eqn:E.
    { apply (f_equal length) in E. rewrite length_take, tally_length in E.
      simpl in E. lia. }
    rewrite fmap_cons. apply join_snoc.
  - replace (S (Z.to_nat l)) with (Z.to_nat (l + 1)) by lia.
    apply tally_lookup. lia.
Qed.

(** X13. After [renumber_items] on levels in [0,10], the number of a
    child extends its parent's: when an item is one level below an
    earlier item and every item between them is at the child's level or
    deeper, the child's number is the parent's number, a dot, and the
    child's rank among its siblings since the parent. *)
Theorem number_extends_parent (self : ListManager) (os : OS)
        (p j : nat) (parent child : ListItem) :
  levels_ok (items self) ->
  (p < j)%nat ->
  items self !! p = Some parent -> items self !! j = Some child ->
  level child = level parent + 1 ->
  (forall (k : nat) (it : ListItem),
     (p < k < j)%nat -> items self !! k = Some it -> level child <= level it) ->
  exists (self' : ListManager) (np nc : str),
    renumber_items (self, os) = Ok tt (self', os)
    /\ number <$> items self' !! p = Some (Some np)
    /\ number <$> items self' !! j = Some (Some nc)
    /\ nc = np ++ lit "."
            ++ Py.str_of_int (count_since (level <$> items self) j).
Proof.
  intros Hok Hpj Hp Hj Hl Hbetween.
  rewrite renumber_items_ok by assumption.
  eexists _, _, _. split; [reflexivity|]. cbn [items set_items].
  rewrite (numbered_lookup _ _ _ _ Hp), (numbered_lookup _ _ _ _ Hj).
  simpl. split; [reflexivity|]. split; [reflexivity|].
  rewrite !app_nil_r.
  unfold levels_ok in Hok. rewrite Forall_lookup in Hok.
  pose proof (Hok _ _ Hp) as Hlp. pose proof (Hok _ _ Hj) as Hlj.
  set (levels := level <$> items self).
  assert (Esplit : rev (take (S j) levels)
                   = rev (drop (S p) (take (S j) levels))
                     ++ rev (take (S p) levels)).
  { rewrite <- rev_app_distr. f_equal.
    rewrite <- (take_drop (S p) (take (S j) levels)) at 1.
    f_equal. rewrite take_take. f_equal. lia. }
  rewrite (count_since_back levels j (level child))
    by (subst levels; now rewrite list_lookup_fmap, Hj).
  rewrite Esplit, Hl. apply number_from_extends; [lia|].
  apply Forall_rev, Forall_lookup. intros k x Hx.
  rewrite lookup_drop in Hx.
  assert (Hk : (S p + k < S j)%nat).
  { apply lookup_lt_Some in Hx. rewrite length_take in Hx. lia. }
  rewrite lookup_take_lt in Hx by lia. subst levels.
  rewrite list_lookup_fmap in Hx.
  destruct (items self !! (S p + k)%nat) as [it|] eqn:E; [|discriminate Hx].
  injection Hx as <-. rewrite <- Hl.
  destruct (decide (S p + k = j)%nat) as [Ek|N].
  - rewrite Ek, Hj in E. injection E as <-. lia.
  - apply (Hbetween (S p + k)%nat); [lia|exact E].
Qed.

Lemma number_extends_parent_witness :
  exists (self' : ListManager) (np nc : str),
    renumber_items (Sample.manager Sample.outline 5, Sample.os)
    = Ok tt (self', Sample.os)
    /\ number <$> items self' !! 0%nat = Some (Some np)
    /\ number <$> items self' !! 2%nat = Some (Some nc)
    /\ nc = np ++ lit "." ++ lit "2".
Proof.
  apply (number_extends_parent (Sample.manager Sample.outline 5) Sample.os
           0 2 (new_ListItem (lit "x") 0 0%N) (new_ListItem (lit "x") 1 0%N)).
  - unfold levels_ok. simpl. repeat constructor; simpl; lia.
  - lia.
  - reflexivity.
  - reflexivity.
  - reflexivity.
  - intros k it Hk. assert (k = 1%nat) as -> by lia.
    intros [= <-]. simpl. lia.
Defined.

End Structure.

Section Loading.

Import ListManager Outline.

Lemma lstrip_len (s : str) : Py.len (Py.lstrip s) <= Py.len s.
Proof.
  unfold Py.len. induction s as [|c s IH]; simpl; [lia|].
  destruct (Py.isspace c); simpl; lia.
Qed.

Lemma indentation_nonneg (line : str) : 0 <= indentation line.
Proof. unfold indentation. pose proof (lstrip_len line). lia. Qed.

Lemma load_line_parse (line : str) (s : ListManager * OS) :
  load_line line s
  = match parse_line line with
    | None => Ok tt s
    | Some (l, c) => bind (add_item c (Some l)) (fun _ => ret tt) s
    end.
Proof.
  unfold load_line, parse_line, indentation.
  destruct (Py.strip line); reflexivity.
Qed.

Lemma parse_line_level (line : str) (l : Z) (c : str) :
  parse_line line = Some (l, c) ->
  0 <= l /\ (l <= 10 <-> indentation line < 44) /\ Py.strip line <> [].
Proof.
  unfold parse_line. pose proof (indentation_nonneg line) as H.
  destruct (Py.strip line); [discriminate|]. intros [= <- _].
  split; [now apply Z.div_pos|]. split; [|discriminate].
  split; intros Hl.
  - apply Z.nle_gt. intros N. apply (Z.div_le_mono _ _ 4) in N; [|lia].
    change (44 / 4) with 11 in N. lia.
  - assert (indentation line / 4 < 11)
      by (apply Z.div_lt_upper_bound; lia). lia.
Qed.

(** [add_item] at the end with a level above 10: the item is stored, and
    the renumbering raises. *)
Lemma add_item_deep (c : str) (l : Z) (self : ListManager) (os : OS) :
  10 < l ->
  exists self' os',
    add_item c (Some l) (self, os) = Raise IndexError (self', os').
Proof.
  intros Hl. unfold add_item, bind, ret, fresh_item, insert_new.
  cbn [draw fst snd]. rewrite insert_or_append.
  unfold renumber_items. cbn [items].
  pose proof (renumber_loop_raises
                (Py.insert (items self) (current_position self)
                   (new_ListItem c l (urandom os (drawn os))))
                (replicate 11 0) eq_refl) as [Hiff Hor].
  destruct (renumber_loop _ _) as [its' [e|]]; simpl in *.
  - destruct Hor as [Hor|Hor]; [discriminate|]. injection Hor as ->.
    eexists _, _. reflexivity.
  - exfalso. pose proof (proj1 Hiff eq_refl) as Hall.
    rewrite Forall_lookup in Hall.
    specialize (Hall _ _ (insert_lookup _ _ _)). simpl in Hall. lia.
Qed.

Lemma load_lines_step (line : str) (rest : list str) (s : ListManager * OS) :
  load_lines (line :: rest) s
  = match parse_line line with
    | None => load_lines rest s
    | Some (l, c) =>
        match add_item c (Some l) s with
        | Ok _ s' => load_lines rest s'
        | Raise e s' => Raise e s'
        end
    end.
Proof.
  cbn [load_lines]. unfold bind at 1. rewrite load_line_parse.
  destruct (parse_line line) as [[l c]|]; [|reflexivity].
  unfold bind, ret. now destruct (add_item c (Some l) s).
Qed.

Lemma load_lines_general (lines : list str) :
  forall (self : ListManager) (os : OS),
    levels_ok (items self) ->
    current_position self = Py.len (items self) ->
    (Forall loadable lines ->
     exists (self' : ListManager) (os' : OS),
       load_lines lines (self, os) = Ok tt (self', os')
       /\ levels_ok (items self')
       /\ current_position self' = Py.len (items self')
       /\ level_content <$> items self'
          = (level_content <$> items self) ++ omap parse_line lines
       /\ (numbers_ok (items self) -> numbers_ok (items self'))
       /\ root self' = root self /\ files os' = files os)
    /\ (~ Forall loadable lines ->
        exists (self' : ListManager) (os' : OS),
          load_lines lines (self, os) = Raise IndexError (self', os')).
Proof.
  induction lines as [|line rest IH]; intros self os Hok Hpos.
  - split.
    + intros _. exists self, os. cbn [omap list_omap]. rewrite app_nil_r. auto 10.
    + intros N. destruct N. constructor.
  - rewrite load_lines_step.
    destruct (parse_line line) as [[l c]|] eqn:E.
    + destruct (parse_line_level _ _ _ E) as (Hl0 & Hl10 & Hne).
      destruct (decide (l <= 10)) as [Hl|Hl].
      * destruct (add_item_append c l self os Hok ltac:(lia) Hpos) as (x & Hadd).
        rewrite Hadd.
        set (self1 := mkListManager _ _ _).
        assert (Hok1 : levels_ok (items self1)).
        { apply numbered_levels_ok, Forall_app. split; [exact Hok|].
          repeat constructor; simpl; lia. }
        assert (Hpos1 : current_position self1 = Py.len (items self1)).
        { subst self1. cbn [current_position items].
          rewrite len_numbered, !len_length, length_app, Hpos, len_length.
          simpl. lia. }
        destruct (IH self1 (snd (draw os)) Hok1 Hpos1) as [IHok IHbad].
        split.
        -- intros Hall. apply Forall_cons in Hall as [_ Hall].
           destruct (IHok Hall)
             as (self' & os' & Hrun & Hok' & Hpos' & Hlc & Hnum & Hrt & Hfs).
           exists self', os'. split; [exact Hrun|]. split; [exact Hok'|].
           split; [exact Hpos'|]. split; [|split; [|split; [exact Hrt|exact Hfs]]].
           ++ rewrite Hlc. subst self1. cbn [items omap list_omap].
              rewrite E, numbered_level_content, fmap_app, <- app_assoc.
              reflexivity.
           ++ intros _. apply Hnum. subst self1. cbn [items].
              apply numbered_numbers_ok, Forall_app. split; [exact Hok|].
              repeat constructor; simpl; lia.
        -- intros N. apply IHbad. intros Hall. apply N. constructor; [|exact Hall].
           right. now apply Hl10.
      * destruct (add_item_deep c l self os ltac:(lia)) as (self' & os' & Hadd).
        rewrite Hadd. split.
        -- intros Hall. apply Forall_cons in Hall as [[Hb|Hi] _];
             [contradiction|]. apply Hl10 in Hi. contradiction.
        -- intros _. now exists self', os'.
    + assert (Hblank : Py.strip line = []).
      { unfold parse_line in E. now destruct (Py.strip line). }
      destruct (IH self os Hok Hpos) as [IHok IHbad]. split.
      * intros Hall. apply Forall_cons in Hall as [_ Hall].
        destruct (IHok Hall) as (self' & os' & Hrun & Hrest).
        exists self', os'. split; [exact Hrun|].
        cbn [omap list_omap]. now rewrite E.
      * intros N. apply IHbad. intros Hall. apply N.
        constructor; [now left|exact Hall].
Qed.

Lemma load_from_file_lines (filename : str) (self : ListManager) (os : OS) :
  load_from_file filename (self, os)
  = load_lines (file_lines os filename) (mkListManager [] 0 (root self), os).
Proof.
  unfold load_from_file, bind, update, file_lines.
  now destruct (files os filename).
Qed.

(** X14. [load_from_file] on a file (a missing file reads as no lines)
    whose non-blank lines are indented by fewer than 44 characters
    returns; it replaces the items by one item per non-blank line, in
    order, with level [indentation // 4] and the words after the first
    joined by single spaces as content, numbered afresh, and leaves
    [current_position] at their count. The files are not changed. *)
Theorem load_from_file_loadable (filename : str) (self : ListManager) (os : OS) :
  Forall loadable (file_lines os filename) ->
  exists (self' : ListManager) (os' : OS),
    load_from_file filename (self, os) = Ok tt (self', os')
    /\ level_content <$> items self' = omap parse_line (file_lines os filename)
    /\ current_position self' = Py.len (items self')
    /\ levels_ok (items self') /\ numbers_ok (items self')
    /\ root self' = root self /\ files os' = files os.
Proof.
  intros Hall. rewrite load_from_file_lines.
  destruct (load_lines_general (file_lines os filename)
              (mkListManager [] 0 (root self)) os) as [Hgood _];
    [constructor|reflexivity|].
  destruct (Hgood Hall) as (self' & os' & Hrun & Hok & Hpos & Hlc & Hnum & Hrt & Hfs).
  exists self', os'. split; [exact Hrun|]. split; [exact Hlc|].
  split; [exact Hpos|]. split; [exact Hok|]. split; [now apply Hnum|].
  split; [exact Hrt|exact Hfs].
Qed.

Lemma load_from_file_loadable_witness :
  let os := write_file Sample.os (lit "list.txt")
              (lit "  1 a  b" ++ ["010"%char; "010"%char] ++ lit "      x") in
  exists (self' : ListManager) (os' : OS),
    load_from_file (lit "list.txt") (Sample.manager Sample.foo_bar_items 2, os)
    = Ok tt (self', os')
    /\ level_content <$> items self' = [(0, lit "a b"); (1, [])].
Proof.
  intros os.
  destruct (load_from_file_loadable (lit "list.txt")
              (Sample.manager Sample.foo_bar_items 2) os)
    as (self' & os' & Hrun & Hlc & _).
  - repeat constructor; right; vm_compute; reflexivity.
  - exists self', os'. split; [exact Hrun|exact Hlc].
Defined.

(** X15. [load_from_file] returns exactly when every non-blank line of
    the file is indented by fewer than 44 characters; otherwise it raises
    [IndexError] (the level of such a line is above 10). A missing file is
    no error. *)
Theorem load_from_file_raises_iff (filename : str) (self : ListManager) (os : OS) :
  (returns (load_from_file filename (self, os)) = Some tt
   <-> Forall loadable (file_lines os filename))
  /\ (returns (load_from_file filename (self, os)) = None ->
      exists self' os',
        load_from_file filename (self, os) = Raise IndexError (self', os'))
  /\ (files os filename = None ->
      load_from_file filename (self, os)
      = Ok tt (mkListManager [] 0 (root self), os)).
Proof.
  rewrite load_from_file_lines.
  destruct (load_lines_general (file_lines os filename)
              (mkListManager [] 0 (root self)) os) as [Hgood Hbad];
    [constructor|reflexivity|].
  split; [|split].
  - destruct (decide (Forall loadable (file_lines os filename))) as [Hall|Hall].
    + destruct (Hgood Hall) as (self' & os' & -> & _). now split.
    + destruct (Hbad Hall) as (self' & os' & ->).
      split; [discriminate|contradiction].
  - destruct (decide (Forall loadable (file_lines os filename))) as [Hall|Hall].
    + destruct (Hgood Hall) as (self' & os' & -> & _). discriminate.
    + destruct (Hbad Hall) as (self' & os' & ->). intros _. now exists self', os'.
  - intros Hnone. unfold file_lines. now rewrite Hnone.
Qed.

Lemma load_from_file_raises_iff_witness :
  let os := write_file Sample.os (lit "list.txt") Sample.deep_file in
  exists self' os',
    load_from_file (lit "list.txt") (Sample.manager [] 0, os)
    = Raise IndexError (self', os').
Proof.
  intros os.
  apply (proj1 (proj2 (load_from_file_raises_iff (lit "list.txt")
                         (Sample.manager [] 0) os))).
  reflexivity.
Defined.

Lemma split_go_nonempty (s : str) :
  forall tok, Forall (fun t => t <> []) (Py.split_go tok s).
Proof.
  induction s as [|c s IH]; intros tok; simpl.
  - destruct tok; repeat constructor. discriminate.
  - destruct (Py.isspace c); [|apply IH].
    destruct tok; [apply IH|]. constructor; [discriminate|apply IH].
Qed.

Lemma split_join (toks : list str) :
  Forall (fun t => t <> [] /\ solid t) toks ->
  Py.split (Py.join (lit " ") toks) = toks.
Proof.
  unfold Py.split. induction 1 as [|t ts [Hne Hs] Hts IH]; [reflexivity|].
  destruct ts as [|t' ts].
  - simpl. rewrite <- (app_nil_r t) at 1. rewrite split_go_solid by assumption.
    simpl. now destruct t.
  - change (Py.join (lit " ") (t :: t' :: ts))
      with (t ++ " "%char :: Py.join (lit " ") (t' :: ts)).
    rewrite split_go_solid by assumption. simpl app.
    rewrite split_go_space by (reflexivity || assumption). now rewrite IH.
Qed.

Lemma parse_line_normalised (line : str) (l : Z) (c : str) :
  parse_line line = Some (l, c) -> normalised c.
Proof.
  unfold parse_line. destruct (Py.strip line) as [|x s] eqn:E; [discriminate|].
  intros [= _ <-]. unfold normalised. rewrite split_join; [reflexivity|].
  unfold Py.slice_from. apply Forall_drop.
  pose proof (split_go_nonempty (x :: s) []) as Hn.
  pose proof (split_go_tokens (x :: s) [] ltac:(constructor)) as Hs.
  unfold Py.split. rewrite Forall_forall in *. intros t Ht. split; auto.
Qed.

(** What [add_item] with a level leaves in [items], whether the
    renumbering raises or not. *)
Lemma add_item_explicit_state (c : str) (l : Z) (self : ListManager) (os : OS) :
  Forall2 same_but_number
    (Py.insert (items self) (current_position self)
       (new_ListItem c l (fst (draw os))))
    (items (fst (state_of (add_item c (Some l) (self, os)))))
  /\ current_position (fst (state_of (add_item c (Some l) (self, os))))
     = current_position self + 1.
Proof.
  unfold add_item, bind, ret, fresh_item, insert_new. cbn [draw fst snd].
  rewrite insert_or_append. unfold renumber_items. cbn [items].
  pose proof (renumber_loop_same
                (Py.insert (items self) (current_position self)
                   (new_ListItem c l (urandom os (drawn os))))
                (replicate 11 0)) as Hs.
  destruct (renumber_loop _ _) as [its' [e|]]; simpl in *; now split.
Qed.

Lemma load_lines_normalised (lines : list str) :
  forall s : ListManager * OS,
    Forall (fun it => normalised (content it)) (items (fst s)) ->
    Forall (fun it => normalised (content it))
           (items (fst (state_of (load_lines lines s)))).
Proof.
  induction lines as [|line rest IH]; intros [self os] Hn; [exact Hn|].
  rewrite load_lines_step.
  destruct (parse_line line) as [[l c]|] eqn:E; [|now apply IH].
  pose proof (proj1 (add_item_explicit_state c l self os)) as Hs.
  assert (Hn' : Forall (fun it => normalised (content it))
                  (items (fst (state_of (add_item c (Some l) (self, os)))))).
  { apply same_but_number_content in Hs.
    apply Forall_fmap with (f := content) (P := normalised).
    rewrite <- Hs, insert_fmap. unfold Py.insert.
    apply Forall_app. split; [now apply Forall_take, Forall_fmap|].
    constructor; [exact (parse_line_normalised _ _ _ E)|].
    now apply Forall_drop, Forall_fmap. }
  destruct (add_item c (Some l) (self, os)) as [x s'|e s']; [|exact Hn'].
  now apply IH.
Qed.

(** X16. Whatever the file holds, and whether [load_from_file] returns or
    raises, every item it leaves has a whitespace-normalised content:
    words separated by single spaces, no other whitespace, so never a
    line break. *)
Theorem load_from_file_normalises (filename : str) (self : ListManager) (os : OS) :
  Forall (fun it => normalised (content it)
                    /\ Forall (fun c => Py.isspace c = true -> c = " "%char)
                              (content it))
         (items (fst (state_of (load_from_file filename (self, os))))).
Proof.
  rewrite load_from_file_lines.
  eapply Forall_impl; [apply load_lines_normalised; constructor|].
  intros it Hn. split; [exact Hn|now apply normalised_spaces].
Qed.




Lemma save_text_outcome (its : list ListItem) :
  (snd (save_text its) = None <-> Forall (fun it => is_Some (number it)) its)
  /\ (snd (save_text its) = None \/ snd (save_text its) = Some AttributeError).
Proof.
  induction its as [|it rest [IHiff IHor]]; simpl.
  - split; [split; [constructor|reflexivity]|now left].
  - destruct (number it) as [n|] eqn:E.
    + destruct (save_text rest) as [text e]. simpl in *.
      split; [|exact IHor]. rewrite Forall_cons, <- IHiff, E.
      split; [intros ->; split; [eexists|]; reflexivity|tauto].
    + simpl. split; [|now right]. split; [discriminate|].
      intros H. apply Forall_cons in H as [[x Hx] _]. congruence.
Qed.



End Loading.

(** As [run_py], with [save_to_file] and [renumber_items] kept too. *)
Ltac run_ed :=
  unfold Editor.then_True, bind, Editor.update, Editor.update_lm,
    Editor.set_item_content, Editor.call, ListManager.update, Editor.items_,
    Editor.self_, ret, raise, indexed;
  cbn -[Py.index Py.getitem Py.len lookup ListManager.outdent_item
        ListManager.indent_item ListManager.delete_item ListManager.add_item
        ListManager.save_to_file ListManager.renumber_items
        Py.slice_to Py.slice_from Z.ltb Z.eqb Z.leb Z.add Z.sub
        Z.min Z.max alter Outline.numbered].

Section Summaries.

Import ListManager Outline.

Lemma numbered_alter_content (c : str) (its : list ListItem) :
  forall (k : nat) (back : list Z),
    numbered back (alter (fun it => set_content it c) k its)
    = alter (fun it => set_content it c) k (numbered back its).
Proof.
  induction its as [|it rest IH]; intros k back; [reflexivity|].
  destruct k as [|k]; simpl.
  - reflexivity.
  - f_equal. apply IH.
Qed.

Lemma alter_content_ok (c : str) (k : nat) (its : list ListItem) :
  levels_ok its -> numbers_ok its ->
  levels_ok (alter (fun it => set_content it c) k its)
  /\ numbers_ok (alter (fun it => set_content it c) k its).
Proof.
  intros Hok Hnum.
  assert (Hok' : levels_ok (alter (fun it => set_content it c) k its)).
  { apply Forall_alter; [exact Hok|]. now intros it _ Hit. }
  split; [exact Hok'|].
  rewrite <- (numbers_ok_numbered _ Hok Hnum) at 1.
  rewrite <- numbered_alter_content. now apply numbered_numbers_ok.
Qed.

Lemma len_pos_nonempty {A} (l : list A) : 0 < Py.len l -> l <> [].
Proof. intros H ->. unfold Py.len in H. simpl in H. lia. Qed.

Lemma add_item_default_sum (c : str) (self : ListManager) (os : OS) :
  levels_ok (items self) ->
  items self = [] \/ 0 <= current_position self <= Py.len (items self) ->
  exists (it : ListItem) (self' : ListManager) (os' : OS),
    add_item c None (self, os) = Ok it (self', os')
    /\ levels_ok (items self') /\ numbers_ok (items self')
    /\ Py.len (items self') = Py.len (items self) + 1
    /\ files os' = files os
    /\ (items self = [] -> content <$> items self' = [c]).
Proof.
  intros Hok [Hnil|Hpos].
  - destruct self as [its pos rt]. cbn [items] in *. subst its.
    exists (set_number (new_ListItem c 0 (fst (draw os))) (lit "1")).
    exists (mkListManager
              [set_number (new_ListItem c 0 (fst (draw os))) (lit "1")]
              (pos + 1) rt), (snd (draw os)).
    split.
    { unfold add_item, bind, _get_recommended_level, fresh_item, insert_new,
        ret, Py.insert, Py.slice_bound.
      cbn -[Z.add Z.ltb Z.min Z.max take drop renumber_loop].
      change (Py.len []) with 0.
      destruct (Z.ltb_spec pos 0) as [H|H]; [|reflexivity].
      now rewrite Z.max_l by lia. }
    split; [repeat constructor; simpl; lia|].
    split; [reflexivity|]. split; [reflexivity|]. split; reflexivity.
  - destruct (add_item_default_ok c self os (conj Hok Hpos)) as (it & Heq & _).
    eexists _, _, _. split; [exact Heq|]. cbn [items].
    assert (Hok' : levels_ok
                     (take (Z.to_nat (current_position self)) (items self)
                      ++ new_ListItem c (recommended_level self) (fst (draw os))
                         :: drop (Z.to_nat (current_position self)) (items self))).
    { apply Forall_app. split; [now apply Forall_take|].
      constructor; [apply (recommended_level_range _ Hok)|now apply Forall_drop]. }
    split; [now apply numbered_levels_ok|].
    split; [now apply numbered_numbers_ok|].
    split; [|split; [reflexivity|]].
    + rewrite !len_length, numbered_length, length_app, length_take. simpl.
      rewrite length_drop. rewrite len_length in Hpos. lia.
    + intros E. rewrite E. rewrite take_nil, drop_nil. reflexivity.
Qed.

Lemma add_item_explicit_sum (c : str) (l : Z) (self : ListManager) (os : OS) :
  levels_ok (items self) -> 0 <= l <= 10 ->
  exists (it : ListItem) (self' : ListManager) (os' : OS),
    add_item c (Some l) (self, os) = Ok it (self', os')
    /\ levels_ok (items self') /\ numbers_ok (items self')
    /\ Py.len (items self') = Py.len (items self) + 1
    /\ files os' = files os.
Proof.
  intros Hok Hl.
  destruct (add_item_explicit_ok c l self os Hok Hl) as (it & Heq & _).
  eexists _, _, _. split; [exact Heq|]. cbn [items].
  pose proof (insert_levels_ok (items self) (current_position self)
                (new_ListItem c l (fst (draw os))) Hok Hl) as Hok'.
  split; [now apply numbered_levels_ok|].
  split; [now apply numbered_numbers_ok|].
  split; [|reflexivity].
  now rewrite len_numbered, len_insert_py.
Qed.

Lemma delete_item_sum (index : Z) (self : ListManager) (os : OS) :
  levels_ok (items self) -> 0 <= index < Py.len (items self) ->
  exists self' : ListManager,
    delete_item index (self, os) = Ok tt (self', os)
    /\ levels_ok (items self') /\ numbers_ok (items self')
    /\ Py.len (items self') = Py.len (items self) - 1
    /\ content <$> items self'
       = delete (Z.to_nat index) (content <$> items self).
Proof.
  intros Hok Hi. rewrite delete_item_ok by assumption.
  eexists. split; [reflexivity|]. cbn [items].
  assert (Hok' : levels_ok (delete (Z.to_nat index) (items self)))
    by now apply Forall_delete.
  split; [now apply numbered_levels_ok|].
  split; [now apply numbered_numbers_ok|]. split.
  - rewrite !len_length, numbered_length, length_delete.
    + rewrite len_length in Hi. lia.
    + apply lookup_lt_is_Some. rewrite len_length in Hi. lia.
  - rewrite numbered_content. apply list_fmap_delete.
Qed.

Lemma indent_item_sum (index : Z) (self : ListManager) (os : OS) :
  levels_ok (items self) -> numbers_ok (items self) ->
  exists self' : ListManager,
    indent_item index (self, os) = Ok tt (self', os)
    /\ levels_ok (items self') /\ numbers_ok (items self')
    /\ Py.len (items self') = Py.len (items self)
    /\ content <$> items self' = content <$> items self.
Proof.
  intros Hok Hnum.
  destruct (decide (0 <= index < Py.len (items self))) as [H|H].
  - rewrite indent_item_ok by assumption.
    eexists. split; [reflexivity|]. cbn [items set_items].
    assert (Hok' : levels_ok
                     (alter (fun it => set_level it (Z.min (level it + 1) 10))
                            (Z.to_nat index) (items self))).
    { apply Forall_alter; [exact Hok|]. intros it _ Hit. simpl. lia. }
    split; [now apply numbered_levels_ok|].
    split; [now apply numbered_numbers_ok|].
    split; [now rewrite !len_length, numbered_length, length_alter|].
    rewrite numbered_content.
    rewrite (list_fmap_alter content _ (fun c => c))
      by (apply Forall_forall; now intros).
    now apply list_alter_id.
  - exists self. split; [|auto].
    unfold indent_item, bind, self_.
    destruct (Z.leb_spec 0 index), (Z.ltb_spec index (Py.len (items self)));
      try lia; reflexivity.
Qed.

Lemma outdent_item_sum (index : Z) (self : ListManager) (os : OS) :
  levels_ok (items self) -> numbers_ok (items self) ->
  exists self' : ListManager,
    outdent_item index (self, os) = Ok tt (self', os)
    /\ levels_ok (items self') /\ numbers_ok (items self')
    /\ Py.len (items self') = Py.len (items self)
    /\ content <$> items self' = content <$> items self.
Proof.
  intros Hok Hnum.
  destruct (decide (0 <= index < Py.len (items self))) as [H|H].
  - rewrite outdent_item_ok by assumption.
    eexists. split; [reflexivity|]. cbn [items set_items].
    assert (Hok' : levels_ok
                     (alter (fun it => set_level it (Z.max (level it - 1) 0))
                            (Z.to_nat index) (items self))).
    { apply Forall_alter; [exact Hok|]. intros it _ Hit. simpl. lia. }
    split; [now apply numbered_levels_ok|].
    split; [now apply numbered_numbers_ok|].
    split; [now rewrite !len_length, numbered_length, length_alter|].
    rewrite numbered_content.
    rewrite (list_fmap_alter content _ (fun c => c))
      by (apply Forall_forall; now intros).
    now apply list_alter_id.
  - exists self. split; [|auto].
    unfold outdent_item, bind, self_.
    destruct (Z.leb_spec 0 index), (Z.ltb_spec index (Py.len (items self)));
      try lia; reflexivity.
Qed.

Lemma len_alter {A} (f : A -> A) (k : nat) (l : list A) :
  Py.len (alter f k l) = Py.len l.
Proof. unfold Py.len. now rewrite length_alter. Qed.

End Summaries.

Ltac ok_tac :=
  unfold editor_ok;
  cbn [list_manager items current_line cursor_x top_line set_list_manager
       set_current_line set_cursor_x set_mode set_enter_count set_items
       set_current_position];
  rewrite ?len_alter;
  repeat match goal with
         | H : Py.len (items ?x) = _ |- _ => rewrite H
         end;
  repeat split;
  try assumption; try lia;
  try (apply alter_content_ok; assumption).

Ltac show_ok :=
  eexists _, _; split; [reflexivity|];
  unfold editor_ok;
  cbn [list_manager items current_line cursor_x top_line set_list_manager
       set_current_line set_cursor_x set_mode set_enter_count set_items
       set_current_position];
  rewrite ?len_alter;
  repeat match goal with
         | H : Py.len (items ?x) = _ |- _ => rewrite H
         end;
  repeat split;
  try assumption; try lia;
  try (apply alter_content_ok; assumption);
  try (apply len_pos_nonempty; rewrite ?len_alter;
       repeat match goal with
              | H : Py.len (items ?x) = _ |- _ => rewrite H
              end; lia);
  try (intros; reflexivity); try (intros; congruence).

Ltac side_ok :=
  cbn [items set_items set_current_position list_manager set_list_manager
       set_enter_count set_mode set_cursor_x set_current_line
       current_position];
  rewrite ?len_alter;
  first [ assumption | lia | apply alter_content_ok; assumption
        | now left | right; lia ].

Ltac call_lm :=
  match goal with
  | |- context [ListManager.add_item ?c (Some ?l) (?lm, ?os)] =>
      let Hlen := fresh "Hlen" in
      destruct (add_item_explicit_sum c l lm os)
        as (? & ? & ? & -> & ? & ? & Hlen & ?); [side_ok..|];
      cbn [items set_items set_current_position] in Hlen
  | |- context [ListManager.add_item ?c None (?lm, ?os)] =>
      let Hlen := fresh "Hlen" in
      destruct (add_item_default_sum c lm os)
        as (? & ? & ? & -> & ? & ? & Hlen & ? & ?); [side_ok..|];
      cbn [items set_items set_current_position] in Hlen
  | |- context [ListManager.delete_item ?i (?lm, ?os)] =>
      let Hlen := fresh "Hlen" in
      destruct (delete_item_sum i lm os)
        as (? & -> & ? & ? & Hlen & ?); [side_ok..|];
      cbn [items set_items set_current_position] in Hlen;
      rewrite ?len_alter in Hlen
  | |- context [ListManager.indent_item ?i (?lm, ?os)] =>
      let Hlen := fresh "Hlen" in
      destruct (indent_item_sum i lm os)
        as (? & -> & ? & ? & Hlen & ?); [side_ok..|];
      cbn [items set_items set_current_position] in Hlen;
      rewrite ?len_alter in Hlen
  | |- context [ListManager.outdent_item ?i (?lm, ?os)] =>
      let Hlen := fresh "Hlen" in
      destruct (outdent_item_sum i lm os)
        as (? & -> & ? & ? & Hlen & ?); [side_ok..|];
      cbn [items set_items set_current_position] in Hlen;
      rewrite ?len_alter in Hlen
  end; run_ed.

Section Handlers.

Import ListManager Outline.

Lemma insert_mode_ok (ch : Z) (ed : Editor) (os : OS) :
  editor_ok ed ->
  exists (ed' : Editor) (os' : OS),
    Editor.handle_insert_mode ch (ed, os) = Ok true (ed', os')
    /\ editor_ok ed'
    /\ items (list_manager ed') <> []
    /\ files os' = files os
    /\ filename ed' = filename ed /\ top_line ed' = top_line ed
    /\ (ch <> 27 -> mode ed' = mode ed).
Proof.
  intros (Hlv & Hnum & Hline & Hcx & Htop).
  destruct ed as [[its pos rt] md line top fn cx ec].
  cbn [list_manager items current_line cursor_x top_line] in *.
  destruct its as [|a rest].
  { unfold Editor.handle_insert_mode; run_py.
    destruct (add_item_default_sum [] (mkListManager [] pos rt) os Hlv)
      as (it & self' & os' & -> & Hlv' & Hnum' & Hlen & Hfs & _); [now left|].
    change (Py.len (items _)) with 0 in Hlen at 2.
    run_py. show_ok. }
  assert (Hlt : 0 <= line < Py.len (a :: rest)).
  { rewrite len_length in *. simpl in *. lia. }
  destruct (lookup_lt_is_Some_2 (a :: rest) (Z.to_nat line)) as [cur Hcur];
    [rewrite len_length in Hlt; lia|].
  assert (Hcl : 0 <= level cur <= 10).
  { unfold levels_ok in Hlv. rewrite Forall_lookup in Hlv. eauto. }
  unfold Editor.handle_insert_mode; run_py.
  rewrite (index_in_range _ _ Hlt); run_py. rewrite Hcur; run_py.
  destruct (Z.eqb_spec ch 27) as [->|N27]; [run_py; show_ok|].
  destruct (ch =? 10).
  { run_py. destruct (ec + 1 =? 2); run_py.
    - call_lm. show_ok.
    - show_ok. }
  destruct (ch =? 9); [run_py; call_lm; show_ok|].
  destruct (ch =? curses.KEY_BTAB); [run_py; call_lm; show_ok|].
  destruct ((ch =? curses.KEY_BACKSPACE) || (ch =? 127) || (ch =? 8)).
  { run_py. destruct ((0 <? level cur) && (cx =? 0)); run_py.
    { call_lm. show_ok. }
    destruct (Z.eqb_spec cx 0) as [->|Hx], (Z.ltb_spec 0 line) as [Hl|Hl];
      cbn [andb]; run_py.
    - rewrite (index_in_range (a :: rest) (line - 1)) by lia. run_py.
      destruct (lookup_lt_is_Some_2 (a :: rest) (Z.to_nat (line - 1)))
        as [prev Hprev]; [rewrite len_length in Hlt; lia|].
      rewrite Hprev. run_py. call_lm.
      pose proof (len_nonneg (content prev)). show_ok.
    - show_ok.
    - destruct (Z.ltb_spec 0 cx); [|lia]. run_py. show_ok.
    - destruct (Z.ltb_spec 0 cx); [|lia]. run_py. show_ok. }
  destruct (ch =? curses.KEY_DC).
  { run_py. destruct (cx <? Py.len (content cur)); run_py; show_ok. }
  destruct (ch =? curses.KEY_LEFT); [run_py; show_ok|].
  destruct (ch =? curses.KEY_RIGHT).
  { run_py. pose proof (len_nonneg (content cur)). show_ok. }
  destruct ((ch =? curses.KEY_UP) && (0 <? line)) eqn:Eup.
  { apply andb_true_iff in Eup as [_ Hl%Z.ltb_lt]. run_py.
    rewrite (getitem_in_range (a :: rest) (line - 1)) by lia.
    destruct (lookup_lt_is_Some_2 (a :: rest) (Z.to_nat (line - 1)))
      as [prev Hprev]; [rewrite len_length in Hlt; lia|].
    rewrite Hprev. run_py. pose proof (len_nonneg (content prev)). show_ok. }
  destruct ((ch =? curses.KEY_DOWN) && (line <? Py.len (a :: rest) - 1)) eqn:Edn.
  { apply andb_true_iff in Edn as [_ Hl%Z.ltb_lt]. run_py.
    rewrite (getitem_in_range (a :: rest) (line + 1)) by lia.
    destruct (lookup_lt_is_Some_2 (a :: rest) (Z.to_nat (line + 1)))
      as [next Hnext]; [rewrite len_length in Hl; lia|].
    rewrite Hnext. run_py. pose proof (len_nonneg (content next)). show_ok. }
  destruct ((32 <=? ch) && (ch <=? 126)); run_py; show_ok.
Qed.

Lemma numbered_all_some (its : list ListItem) :
  forall back, Forall (fun it => is_Some (number it)) (numbered back its).
Proof.
  induction its as [|it rest IH]; intros back; simpl; constructor.
  - simpl. eauto.
  - apply IH.
Qed.

Lemma save_to_file_numbered (fn : str) (self : ListManager) (os : OS) :
  levels_ok (items self) -> numbers_ok (items self) ->
  exists text : str,
    save_to_file fn (self, os) = Ok tt (self, write_file os fn text).
Proof.
  intros Hok Hnum. unfold save_to_file.
  destruct (save_text_outcome (items self)) as [Hiff _].
  destruct (save_text (items self)) as [text e]. simpl in Hiff.
  rewrite (proj2 Hiff); [now exists text|].
  rewrite <- (numbers_ok_numbered _ Hok Hnum). apply numbered_all_some.
Qed.

Lemma normal_mode_ok (ch getch : Z) (ed : Editor) (os : OS) :
  editor_ok ed ->
  exists (go : bool) (ed' : Editor) (os' : OS),
    Editor.handle_normal_mode ch getch (ed, os) = Ok go (ed', os')
    /\ editor_ok ed'
    /\ (go = false <-> ch = ord "q" /\ items (list_manager ed) <> [])
    /\ (ch <> ord "s" -> files os' = files os).
Proof.
  intros (Hlv & Hnum & Hline & Hcx & Htop).
  destruct ed as [[its pos rt] md line top fn cx ec].
  cbn [list_manager items current_line cursor_x top_line] in *.
  unfold Editor.handle_normal_mode. eval_ord.
  destruct (Z.eqb_spec ch 105) as [->|Ni].
  { destruct its as [|a rest]; run_ed.
    - call_lm. change (Py.len []) with 0 in *.
      match goal with
      | H : Py.len (items ?x) = _ |- _ =>
          rewrite (getitem_in_range (items x) line) by lia;
          destruct (lookup_lt_is_Some_2 (items x) (Z.to_nat line)) as [it' ->];
            [rewrite len_length in H; lia|]
      end.
      run_ed. pose proof (len_nonneg (content it')).
      eexists _, _, _. split; [reflexivity|]. split; [ok_tac|].
      split; [|auto]. split; [discriminate|lia].
    - assert (Hlt : 0 <= line < Py.len (a :: rest)).
      { rewrite len_length in *. simpl in *. lia. }
      rewrite (getitem_in_range (a :: rest) line) by lia.
      destruct (lookup_lt_is_Some_2 (a :: rest) (Z.to_nat line)) as [it' ->];
        [rewrite len_length in Hlt; lia|].
      run_ed. pose proof (len_nonneg (content it')).
      eexists _, _, _. split; [reflexivity|]. split; [ok_tac|].
      split; [|auto]. split; [discriminate|lia]. }
  run_ed. destruct its as [|a rest]; run_ed.
  { eexists _, _, _. split; [reflexivity|]. split; [ok_tac|].
    split; [|auto]. split; [discriminate|now intros [_ H]]. }
  assert (Hlt : 0 <= line < Py.len (a :: rest)).
  { rewrite len_length in *. simpl in *. lia. }
  assert (Hne : a :: rest <> []) by discriminate.
  destruct (Z.eqb_spec ch 111) as [->|No].
  { run_ed. call_lm. eexists _, _, _. split; [reflexivity|].
    split; [ok_tac|]. split; [|auto]. split; [discriminate|lia]. }
  destruct (Z.eqb_spec ch 79) as [->|NO].
  { run_ed. call_lm. eexists _, _, _. split; [reflexivity|].
    split; [ok_tac|]. split; [|auto]. split; [discriminate|lia]. }
  destruct ((ch =? 106) || (ch =? curses.KEY_DOWN)) eqn:Ej.
  { run_ed. eexists _, _, _. split; [reflexivity|].
    split; [ok_tac|]. split; [|auto].
    split; [discriminate|intros [-> _]; discriminate Ej]. }
  destruct ((ch =? 107) || (ch =? curses.KEY_UP)) eqn:Ek.
  { run_ed. eexists _, _, _. split; [reflexivity|].
    split; [ok_tac|]. split; [|auto].
    split; [discriminate|intros [-> _]; discriminate Ek]. }
  destruct ((ch =? 100) && (getch =? 100)) eqn:Ed.
  { run_ed. destruct (Z.ltb_spec 1 (Py.len (a :: rest))); run_ed.
    - call_lm. eexists _, _, _. split; [reflexivity|].
      split; [ok_tac|]. split; [|auto].
      split; [discriminate|intros [-> _]; discriminate Ed].
    - eexists _, _, _. split; [reflexivity|].
      split; [ok_tac|]. split; [|auto].
      split; [discriminate|intros [-> _]; discriminate Ed]. }
  destruct (Z.eqb_spec ch 62) as [->|Ngt].
  { run_ed. call_lm. eexists _, _, _. split; [reflexivity|].
    split; [ok_tac|]. split; [|auto]. split; [discriminate|lia]. }
  destruct (Z.eqb_spec ch 60) as [->|Nlt].
  { run_ed. call_lm. eexists _, _, _. split; [reflexivity|].
    split; [ok_tac|]. split; [|auto]. split; [discriminate|lia]. }
  destruct (Z.eqb_spec ch 115) as [->|Ns].
  { run_ed.
    match goal with
    | |- context [save_to_file ?f (?lm, ?os)] =>
        destruct (save_to_file_numbered f lm os Hlv Hnum) as [text ->]
    end.
    run_ed. eexists _, _, _. split; [reflexivity|].
    split; [ok_tac|]. split; [|intros N; now contradiction N].
    split; [discriminate|lia]. }
  destruct (Z.eqb_spec ch 113) as [->|Nq]; run_ed.
  - eexists _, _, _. split; [reflexivity|]. split; [ok_tac|].
    split; [split; [intros _; split; [reflexivity|discriminate]|reflexivity]|].
    reflexivity.
  - eexists _, _, _. split; [reflexivity|]. split; [ok_tac|].
    split; [|auto]. split; [discriminate|now intros [? _]].
Qed.

Lemma renumber_items_id (self : ListManager) (os : OS) :
  levels_ok (items self) -> numbers_ok (items self) ->
  renumber_items (self, os) = Ok tt (self, os).
Proof.
  intros Hok Hnum. rewrite renumber_items_ok by assumption.
  rewrite (numbers_ok_numbered _ Hok Hnum). now destruct self.
Qed.

Lemma run_step_ok (ch getch : Z) (ed : Editor) (os : OS) :
  editor_ok ed ->
  exists (r : option unit) (ed' : Editor) (os' : OS),
    Editor.run_step ch getch (ed, os) = Ok r (ed', os')
    /\ editor_ok ed'
    /\ (r = None
        <-> mode ed = NORMAL /\ ch = ord "q" /\ items (list_manager ed) <> [])
    /\ (mode ed <> NORMAL \/ ch <> ord "s" -> files os' = files os).
Proof.
  intros Hed. unfold Editor.run_step.
  unfold bind at 1. unfold Editor.self_ at 1. cbn beta iota.
  destruct (mode ed) eqn:Emode.
  - (* NORMAL *)
    destruct (normal_mode_ok ch getch ed os Hed)
      as (go & ed1 & os1 & Hrun & Hed1 & Hgo & Hfs).
    unfold bind at 1. unfold bind at 1. rewrite Hrun.
    destruct go.
    + cbv beta iota. unfold bind at 1.
      destruct Hed1 as (Hlv & Hnum & Hrest).
      destruct (Z.eqb_spec ch (ord "s")) as [E|N].
      * destruct (save_to_file_numbered (filename ed) (list_manager ed1) os1
                    Hlv Hnum) as [text Hs].
        unfold Editor.call at 1. rewrite Hs. unfold ret at 1. cbv beta iota.
        unfold bind, Editor.call. cbn [list_manager set_list_manager].
        rewrite renumber_items_id by assumption.
        eexists _, _, _. split; [reflexivity|].
        split; [repeat split; assumption || apply Hrest|].
        split; [|intros [N|N]; contradiction].
        split; [discriminate|]. intros (_ & Hq & Hne).
        destruct Hgo as [_ Hgo]. now specialize (Hgo (conj Hq Hne)).
      * unfold ret at 1. unfold ret at 1. cbv beta iota.
        unfold bind, Editor.call.
        rewrite renumber_items_id by assumption.
        eexists _, _, _. split; [reflexivity|].
        split; [destruct ed1; repeat split; assumption || apply Hrest|].
        split; [|intros _; now apply Hfs].
        split; [discriminate|]. intros (_ & Hq & Hne).
        destruct Hgo as [_ Hgo]. now specialize (Hgo (conj Hq Hne)).
    + unfold ret. eexists _, _, _. split; [reflexivity|].
      split; [exact Hed1|]. destruct Hgo as [Hgo _].
      destruct (Hgo eq_refl) as [Hq Hne].
      split; [split; auto|].
      intros [N|N]; [contradiction|]. now apply Hfs.
  - (* INSERT *)
    destruct (insert_mode_ok ch ed os Hed)
      as (ed1 & os1 & Hrun & Hed1 & _ & Hfs & _).
    unfold bind at 1. rewrite Hrun.
    unfold bind, Editor.call, ret. destruct Hed1 as (Hlv & Hnum & Hrest).
    rewrite renumber_items_id by assumption.
    eexists _, _, _. split; [reflexivity|].
    split; [destruct ed1; repeat split; assumption || apply Hrest|].
    split; [split; [discriminate|now intros [? _]]|]. now intros _.
  - unfold bind, Editor.call, ret. destruct Hed as (Hlv & Hnum & Hrest).
    rewrite renumber_items_id by assumption.
    eexists _, _, _. split; [reflexivity|].
    split; [destruct ed; repeat split; assumption || apply Hrest|].
    split; [split; [discriminate|now intros [? _]]|]. now intros _.
  - unfold bind, Editor.call, ret. destruct Hed as (Hlv & Hnum & Hrest).
    rewrite renumber_items_id by assumption.
    eexists _, _, _. split; [reflexivity|].
    split; [destruct ed; repeat split; assumption || apply Hrest|].
    split; [split; [discriminate|now intros [? _]]|]. now intros _.
Qed.

Lemma turns_ok (keys : list Z) :
  forall (ed : Editor) (os : OS),
    editor_ok ed ->
    exists (r : option unit) (ed' : Editor) (os' : OS),
      Run.turns keys (ed, os) = Ok r (ed', os') /\ editor_ok ed'.
Proof.
  induction keys as [keys IH] using (induction_ltof1 _ (@length Z)).
  unfold ltof in IH. intros ed os Hed.
  destruct keys as [|ch rest]; simpl.
  { eexists _, _, _. split; [reflexivity|exact Hed]. }
  unfold bind at 1. unfold Editor.self_ at 1. cbv beta iota.
  destruct (Run.reads_second_key ed ch).
  - destruct rest as [|second rest].
    { eexists _, _, _. split; [reflexivity|]. exact Hed. }
    destruct (run_step_ok ch second ed os Hed)
      as (r & ed1 & os1 & Hrun & Hed1 & _).
    unfold bind at 1. rewrite Hrun. destruct r as [[]|].
    + apply IH; [simpl; lia|exact Hed1].
    + eexists _, _, _. split; [reflexivity|exact Hed1].
  - destruct (run_step_ok ch 0 ed os Hed)
      as (r & ed1 & os1 & Hrun & Hed1 & _).
    unfold bind at 1. rewrite Hrun. destruct r as [[]|].
    + apply IH; [simpl; lia|exact Hed1].
    + eexists _, _, _. split; [reflexivity|exact Hed1].
Qed.

(** The editor as [__init__] leaves it. *)
Lemma init_eq (os : OS) :
  Editor.init os
  = Ok tt (mkEditor
             (mkListManager
                [set_number (new_ListItem [] 0 (fst (draw (snd (draw os)))))
                            (lit "1")]
                1 (new_ListItem (lit "ROOT") (-1) (fst (draw os))))
             INSERT 0 0 (lit "list.txt") 0 0,
           snd (draw (snd (draw os)))).
Proof. reflexivity. Qed.

Lemma start_ok (ed : Editor) (os : OS) :
  editor_ok ed -> items (list_manager ed) <> [] ->
  0 <= current_position (list_manager ed) <= Py.len (items (list_manager ed)) ->
  current_line ed = 0 ->
  (Forall loadable (file_lines os (filename ed)) ->
   exists (ed' : Editor) (os' : OS),
     Run.start (ed, os) = Ok tt (ed', os') /\ editor_ok ed')
  /\ (~ Forall loadable (file_lines os (filename ed)) ->
      exists (ed' : Editor) (os' : OS),
        Run.start (ed, os) = Raise IndexError (ed', os')).
Proof.
  intros (Hlv & Hnum & Hline & Hcx & Htop) Hne Hpos Hl0.
  unfold Run.start, bind, Editor.self_.
  destruct (files os (filename ed)) as [text|] eqn:Efile.
  - unfold Editor.call. rewrite load_from_file_lines.
    destruct (load_lines_general (file_lines os (filename ed))
                (mkListManager [] 0 (root (list_manager ed))) os)
      as [Hgood Hbad]; [constructor|reflexivity|].
    split; intros Hall.
    + destruct (Hgood Hall) as (self' & os' & -> & Hlv' & _ & _ & Hnum' & _).
      eexists _, _. split; [reflexivity|].
      unfold editor_ok. cbn [list_manager set_list_manager current_line cursor_x].
      pose proof (len_nonneg (items self')).
      repeat split; try assumption; try lia. now apply Hnum'.
    + destruct (Hbad Hall) as (self' & os' & ->). eauto.
  - split; intros Hall.
    + destruct (add_item_default_sum [] (list_manager ed) os Hlv)
        as (it & self' & os' & Hadd & Hlv' & Hnum' & Hlen & _); [now right|].
      unfold Editor.call, Editor.update. rewrite Hadd.
      eexists _, _. split; [reflexivity|].
      unfold editor_ok.
      cbn [list_manager set_list_manager set_mode current_line cursor_x].
      rewrite Hlen. pose proof (len_nonneg (items (list_manager ed))).
      repeat split; try assumption; lia.
    + exfalso. apply Hall. unfold file_lines. rewrite Efile. constructor.
Qed.

Lemma session_ok (keys : list Z) (os : OS) :
  (Forall loadable (file_lines os (lit "list.txt")) ->
   exists (r : option unit) (ed' : Editor) (os' : OS),
     Run.session keys os = Ok r (ed', os') /\ editor_ok ed')
  /\ (~ Forall loadable (file_lines os (lit "list.txt")) ->
      exists (ed' : Editor) (os' : OS),
        Run.session keys os = Raise IndexError (ed', os')).
Proof.
  unfold Run.session. rewrite init_eq. cbv beta iota.
  set (ed0 := mkEditor _ INSERT 0 0 (lit "list.txt") 0 0).
  set (os0 := snd (draw (snd (draw os)))).
  assert (Hfl : file_lines os0 (lit "list.txt") = file_lines os (lit "list.txt"))
    by reflexivity.
  assert (Hed0 : editor_ok ed0).
  { unfold editor_ok, ed0. cbn [list_manager items current_line cursor_x top_line].
    split; [repeat constructor; simpl; lia|]. split; [reflexivity|].
    unfold Py.len. simpl. lia. }
  destruct (start_ok ed0 os0 Hed0) as [Hgood Hbad];
    [discriminate|unfold Py.len; simpl; lia|reflexivity|].
  unfold bind at 1.
  change (filename ed0) with (lit "list.txt") in *. rewrite Hfl in *.
  clearbody ed0 os0. split; intros Hall.
  - destruct (Hgood Hall) as (ed1 & os1 & -> & Hed1).
    now apply turns_ok.
  - unfold bind at 1. destruct (Hbad Hall) as (ed1 & os1 & ->). eauto.
Qed.

(** X19. From a well-formed editor (levels in [0,10], numbers up to date,
    the focus on an item, a cursor offset and a first line on screen
    that are not negative) [handle_insert_mode] returns True for every
    key code: it never
    raises and never ends the loop. The editor is well formed again and
    has an item; no file, [filename] or [top_line] changes, and only ESC
    changes the mode. *)
Theorem handle_insert_mode_safe (ch : Z) (ed : Editor) (os : OS) :
  editor_ok ed ->
  exists (ed' : Editor) (os' : OS),
    Editor.handle_insert_mode ch (ed, os) = Ok true (ed', os')
    /\ editor_ok ed'
    /\ items (list_manager ed') <> []
    /\ files os' = files os
    /\ filename ed' = filename ed /\ top_line ed' = top_line ed
    /\ (ch <> 27 -> mode ed' = mode ed).
Proof. exact (insert_mode_ok ch ed os). Qed.

Lemma handle_insert_mode_safe_witness :
  exists (ed' : Editor) (os' : OS),
    Editor.handle_insert_mode 10 (Sample.foo_bar, Sample.os) = Ok true (ed', os')
    /\ editor_ok ed'.
Proof.
  destruct (handle_insert_mode_safe 10 Sample.foo_bar Sample.os)
    as (ed' & os' & Hrun & Hok & _).
  - unfold editor_ok. simpl. split; [repeat constructor; simpl; lia|].
    split; [reflexivity|]. unfold Py.len. simpl. lia.
  - exists ed', os'. split; assumption.
Defined.

(** X20. From a well-formed editor [handle_normal_mode] never raises,
    whatever the key and the key read after a [d]. The editor is well
    formed again. It returns False exactly for [q] on a list with items
    (on an empty list [q] is ignored), and only [s] writes a file. *)
Theorem handle_normal_mode_safe (ch getch : Z) (ed : Editor) (os : OS) :
  editor_ok ed ->
  exists (go : bool) (ed' : Editor) (os' : OS),
    Editor.handle_normal_mode ch getch (ed, os) = Ok go (ed', os')
    /\ editor_ok ed'
    /\ (go = false <-> ch = ord "q" /\ items (list_manager ed) <> [])
    /\ (ch <> ord "s" -> files os' = files os).
Proof. exact (normal_mode_ok ch getch ed os). Qed.

Lemma handle_normal_mode_safe_witness :
  exists (ed' : Editor) (os' : OS),
    Editor.handle_normal_mode (ord "q") 0 (Sample.foo_bar, Sample.os)
    = Ok false (ed', os').
Proof.
  destruct (handle_normal_mode_safe (ord "q") 0 Sample.foo_bar Sample.os)
    as (go & ed' & os' & Hrun & _ & Hgo & _).
  - unfold editor_ok. simpl. split; [repeat constructor; simpl; lia|].
    split; [reflexivity|]. unfold Py.len. simpl. lia.
  - exists ed', os'. rewrite Hrun. f_equal. apply Hgo. split; [reflexivity|].
    discriminate.
Defined.

(** X21. One turn of the loop of [run] from a well-formed editor never
    raises, in any mode and for any key, and leaves the editor well
    formed. The loop is left exactly by [q] in NORMAL mode on a list with
    items, and a file is written only by [s] in NORMAL mode. *)
Theorem run_step_safe (ch getch : Z) (ed : Editor) (os : OS) :
  editor_ok ed ->
  exists (r : option unit) (ed' : Editor) (os' : OS),
    Editor.run_step ch getch (ed, os) = Ok r (ed', os')
    /\ editor_ok ed'
    /\ (r = None
        <-> mode ed = NORMAL /\ ch = ord "q" /\ items (list_manager ed) <> [])
    /\ (mode ed <> NORMAL \/ ch <> ord "s" -> files os' = files os).
Proof. exact (run_step_ok ch getch ed os). Qed.

Lemma run_step_safe_witness :
  exists (ed' : Editor) (os' : OS),
    Editor.run_step (ord "q") 0 (Sample.foo_bar, Sample.os)
    = Ok (Some tt) (ed', os')
    /\ files os' = files Sample.os.
Proof.
  destruct (run_step_safe (ord "q") 0 Sample.foo_bar Sample.os)
    as (r & ed' & os' & Hrun & _ & Hr & Hfs).
  - unfold editor_ok. simpl. split; [repeat constructor; simpl; lia|].
    split; [reflexivity|]. unfold Py.len. simpl. lia.
  - exists ed', os'. split; [|apply Hfs; left; discriminate].
    rewrite Hrun. destruct r as [[]|]; [reflexivity|].
    destruct Hr as [Hr _]. destruct (Hr eq_refl) as [Hm _]. discriminate Hm.
Defined.

(** X22. Drawing apart, a session raises exactly when [list.txt] has a
    non-blank line indented by 44 characters or more. [Editor(stdscr)],
    the start of [run] and the turns of its loop (in each turn the
    handler of the mode, the second save after [s] and the renumbering;
    [display] is not part of a turn) are run on any sequence of keys. If
    the file has such a line, [load_from_file] raises IndexError before
    the first key is read. In every other case these steps raise for no
    key sequence, and the editor stays well formed. *)
Theorem session_raises_iff (keys : list Z) (os : OS) :
  (Forall loadable (file_lines os (lit "list.txt")) ->
   exists (r : option unit) (ed' : Editor) (os' : OS),
     Run.session keys os = Ok r (ed', os') /\ editor_ok ed')
  /\ (~ Forall loadable (file_lines os (lit "list.txt")) ->
      exists (ed' : Editor) (os' : OS),
        Run.session keys os = Raise IndexError (ed', os')).
Proof. exact (session_ok keys os). Qed.

Lemma session_raises_iff_witness :
  exists (r : option unit) (ed' : Editor) (os' : OS),
    Run.session [ord "a"; 10; 10; 27; ord "d"; ord "d"; ord "q"] Sample.os
    = Ok r (ed', os')
    /\ editor_ok ed'.
Proof.
  apply (proj1 (session_raises_iff
                  [ord "a"; 10; 10; 27; ord "d"; ord "d"; ord "q"] Sample.os)).
  constructor.
Defined.

End Handlers.

Section Startup.

Import ListManager Outline.

(** X23. The state in which [run] enters its loop, after
    [Editor(stdscr)] and the start of [run]. Without [list.txt] the list
    holds two empty items at level 0, numbered 1 and 2: one added by
    [__init__] and one by [run]. With a loadable [list.txt] it holds the
    items of the file. In both cases the editor is in INSERT mode on line
    0 at offset 0. *)
Theorem session_start (os : OS) :
  (files os (lit "list.txt") = None ->
   exists (ed' : Editor) (os' : OS),
     Run.session [] os = Ok (Some tt) (ed', os')
     /\ level_content <$> items (list_manager ed') = [(0, []); (0, [])]
     /\ number <$> items (list_manager ed') = [Some (lit "1"); Some (lit "2")]
     /\ mode ed' = INSERT /\ current_line ed' = 0 /\ cursor_x ed' = 0)
  /\ (is_Some (files os (lit "list.txt")) ->
      Forall loadable (file_lines os (lit "list.txt")) ->
      exists (ed' : Editor) (os' : OS),
        Run.session [] os = Ok (Some tt) (ed', os')
        /\ level_content <$> items (list_manager ed')
           = omap parse_line (file_lines os (lit "list.txt"))
        /\ numbers_ok (items (list_manager ed'))
        /\ mode ed' = INSERT /\ current_line ed' = 0 /\ cursor_x ed' = 0).
Proof.
  unfold Run.session. rewrite init_eq. cbv beta iota.
  unfold Run.start, Editor.self_, bind, Editor.call, Editor.update.
  cbn [filename files draw snd fst list_manager].
  split.
  - intros ->.
    match goal with
    | |- context [add_item ?c None ?s] =>
        let r := eval vm_compute in (add_item c None s) in
        change (add_item c None s) with r
    end.
    cbv beta iota. simpl Run.turns. unfold ret.
    eexists _, _. split; [reflexivity|]. repeat split.
  - intros [text Htext] Hall. rewrite Htext.
    rewrite load_from_file_lines.
    match goal with
    | |- context [load_lines ?ls (?lm, ?os0)] =>
        destruct (load_lines_general ls lm os0) as [Hgood _];
          [constructor|reflexivity|];
        change (file_lines os0 (lit "list.txt"))
          with (file_lines os (lit "list.txt")) in *;
        destruct (Hgood Hall) as (self' & os' & -> & Hlv & _ & Hlc & Hnum & _)
    end.
    cbv beta iota. simpl Run.turns. unfold ret.
    eexists _, _. split; [reflexivity|].
    cbn [list_manager set_list_manager mode current_line cursor_x].
    split; [exact Hlc|]. split; [now apply Hnum|]. repeat split.
Qed.

Lemma session_start_witness :
  exists (ed' : Editor) (os' : OS),
    Run.session [] Sample.os = Ok (Some tt) (ed', os')
    /\ level_content <$> items (list_manager ed') = [(0, []); (0, [])].
Proof.
  destruct (proj1 (session_start Sample.os) eq_refl)
    as (ed' & os' & Hrun & Hlc & _).
  exists ed', os'. split; assumption.
Defined.

(** X24. The scrolling of [display] changes [top_line] only. In a
    terminal of height 3 or more the current line is afterwards among
    the [height - 2] items from [top_line] on; when it was already,
    nothing moves, so scrolling twice is scrolling once; and a
    [top_line] that is not negative stays so when the current line is
    not negative. *)
Theorem display_scrolls_to_current_line (height : Z) (ed : Editor) :
  3 <= height ->
  let ed' := Run.scroll height ed in
  ed' = set_top_line (top_line ed') ed
  /\ top_line ed' <= current_line ed < top_line ed' + (height - 2)
  /\ (top_line ed <= current_line ed < top_line ed + (height - 2) ->
      ed' = ed)
  /\ Run.scroll height ed' = ed'
  /\ (0 <= top_line ed -> 0 <= current_line ed -> 0 <= top_line ed').
Proof.
  intros Hh ed'. subst ed'. unfold Run.scroll.
  destruct ed as [lm md line top fn cx ec].
  cbn [current_line top_line].
  destruct (Z.ltb_spec line top) as [H1|H1];
    [|destruct (Z.leb_spec (top + (height - 2)) line) as [H2|H2]];
    unfold set_top_line; cbn [current_line top_line list_manager mode
                              filename cursor_x enter_count].
  - rewrite Z.ltb_irrefl.
    destruct (Z.leb_spec (line + (height - 2)) line); [lia|].
    repeat split; try reflexivity; lia.
  - destruct (Z.ltb_spec line (line - (height - 2) + 1)); [lia|].
    destruct (Z.leb_spec (line - (height - 2) + 1 + (height - 2)) line);
      [lia|].
    repeat split; try reflexivity; lia.
  - destruct (Z.ltb_spec line top); [lia|].
    destruct (Z.leb_spec (top + (height - 2)) line); [lia|].
    repeat split; try reflexivity; lia.
Qed.

Lemma display_scrolls_to_current_line_witness :
  top_line (Run.scroll 4 Sample.foo_bar) <= 1
  /\ 1 < top_line (Run.scroll 4 Sample.foo_bar) + 2.
Proof.
  destruct (display_scrolls_to_current_line 4 Sample.foo_bar)
    as (_ & Hvis & _).
  - lia.
  - exact Hvis.
Defined.

End Startup.

Section Keys.

Import ListManager Outline.

Lemma slice_to_take {A} (l : list A) (i : Z) :
  0 <= i -> Py.slice_to l i = take (Z.to_nat i) l.
Proof.
  intros Hi. unfold Py.slice_to, Py.slice_bound.
  destruct (Z.ltb_spec i 0); [lia|].
  destruct (Z.le_gt_cases i (Py.len l)).
  - now rewrite Z.min_l by lia.
  - rewrite Z.min_r by lia. unfold Py.len in *.
    rewrite !take_ge by lia. reflexivity.
Qed.

Lemma slice_from_drop {A} (l : list A) (i : Z) :
  0 <= i -> Py.slice_from l i = drop (Z.to_nat i) l.
Proof.
  intros Hi. unfold Py.slice_from, Py.slice_bound.
  destruct (Z.ltb_spec i 0); [lia|].
  destruct (Z.le_gt_cases i (Py.len l)).
  - now rewrite Z.min_l by lia.
  - rewrite Z.min_r by lia. unfold Py.len in *.
    rewrite !drop_ge by lia. reflexivity.
Qed.

(** A printable character is inserted at the cursor. *)
Lemma insert_printable (ch : Z) (lm : ListManager) md line top fn cx ec
      (os : OS) (cur : ListItem) :
  32 <= ch <= 126 ->
  0 <= line -> items lm !! Z.to_nat line = Some cur ->
  Editor.handle_insert_mode ch (mkEditor lm md line top fn cx ec, os)
  = Ok true
       (mkEditor
          (set_items lm
             (<[Z.to_nat line :=
                  set_content cur (Py.slice_to (content cur) cx
                                   ++ [chr ch]
                                   ++ Py.slice_from (content cur) cx)]>
                (items lm)))
          md line top fn (cx + 1) 0, os).
Proof.
  intros Hch Hline Hcur.
  pose proof (focus_in_range _ _ _ Hline Hcur) as Hlt.
  destruct lm as [its pos rt]. cbn [items] in *.
  destruct its as [|a rest]; [discriminate|].
  unfold Editor.handle_insert_mode; run_py.
  rewrite (index_in_range _ _ Hlt); run_py. rewrite Hcur; run_py.
  unfold curses.KEY_BTAB, curses.KEY_BACKSPACE, curses.KEY_DC, curses.KEY_LEFT,
    curses.KEY_RIGHT, curses.KEY_UP, curses.KEY_DOWN.
  repeat match goal with
         | |- context [ch =? ?k] => destruct (Z.eqb_spec ch k); [lia|]
         end.
  run_py.
  destruct (Z.leb_spec 32 ch), (Z.leb_spec ch 126); try lia.
  run_py. rewrite (alter_as_insert _ _ _ _ Hcur). reflexivity.
Qed.

(** The first Enter breaks the line at the cursor. *)
Lemma insert_enter_single (lm : ListManager) md line top fn cx ec
      (os : OS) (cur : ListItem) :
  ec + 1 <> 2 ->
  0 <= line -> items lm !! Z.to_nat line = Some cur ->
  Editor.handle_insert_mode 10 (mkEditor lm md line top fn cx ec, os)
  = Ok true
       (mkEditor
          (set_items lm
             (<[Z.to_nat line :=
                  set_content cur (Py.slice_to (content cur) cx
                                   ++ ["010"%char]
                                   ++ Py.slice_from (content cur) cx)]>
                (items lm)))
          md line top fn (cx + 1) (ec + 1), os).
Proof.
  intros Hec Hline Hcur.
  pose proof (focus_in_range _ _ _ Hline Hcur) as Hlt.
  destruct lm as [its pos rt]. cbn [items] in *.
  destruct its as [|a rest]; [discriminate|].
  focus_on Hlt Hcur.
  destruct (Z.eqb_spec (ec + 1) 2); [lia|]. run_py.
  rewrite (alter_as_insert _ _ _ _ Hcur). reflexivity.
Qed.

(** The second Enter in a row adds an item below, at the level of the
    current one. *)
Lemma insert_enter_double (lm : ListManager) md line top fn cx
      (os : OS) (cur : ListItem) :
  levels_ok (items lm) ->
  0 <= line -> items lm !! Z.to_nat line = Some cur ->
  Editor.handle_insert_mode 10 (mkEditor lm md line top fn cx 1, os)
  = Ok true
       (mkEditor
          (mkListManager
             (numbered []
                (Py.insert (items lm) (line + 1)
                   (new_ListItem [] (level cur) (fst (draw os)))))
             (line + 2) (root lm))
          md (line + 1) top fn cx 0, snd (draw os)).
Proof.
  intros Hok Hline Hcur.
  pose proof (focus_in_range _ _ _ Hline Hcur) as Hlt.
  assert (Hcl : 0 <= level cur <= 10).
  { unfold levels_ok in Hok. rewrite Forall_lookup in Hok. eauto. }
  destruct lm as [its pos rt]. cbn [items root] in *.
  destruct its as [|a rest]; [discriminate|].
  focus_on Hlt Hcur.
  match goal with
  | |- context [add_item ?c (Some ?l) (?lm, ?os)] =>
      destruct (add_item_explicit_ok c l lm os Hok Hcl) as (it & -> & _)
  end.
  run_py. cbn. replace (line + 1 + 1) with (line + 2) by lia. reflexivity.
Qed.

Lemma set_content_twice (it : ListItem) (a b : str) :
  set_content (set_content it a) b = set_content it b.
Proof. reflexivity. Qed.

Lemma set_content_same (it : ListItem) : set_content it (content it) = it.
Proof. now destruct it. Qed.

Lemma set_items_same (lm : ListManager) : set_items lm (items lm) = lm.
Proof. now destruct lm. Qed.

Lemma insert_content_ok (its : list ListItem) (k : nat) (cur : ListItem)
      (c : str) :
  its !! k = Some cur -> levels_ok its -> numbers_ok its ->
  levels_ok (<[k := set_content cur c]> its)
  /\ numbers_ok (<[k := set_content cur c]> its).
Proof.
  intros Hcur Hok Hnum.
  rewrite <- (alter_as_insert (fun it => set_content it c) _ _ _ Hcur).
  now apply alter_content_ok.
Qed.

(** A turn of the loop in INSERT mode, when the handler leaves the
    numbers up to date: the renumbering changes nothing. *)
Lemma run_step_insert (ch getch : Z) (ed ed' : Editor) (os os' : OS) :
  mode ed = INSERT ->
  Editor.handle_insert_mode ch (ed, os) = Ok true (ed', os') ->
  levels_ok (items (list_manager ed')) ->
  numbers_ok (items (list_manager ed')) ->
  Editor.run_step ch getch (ed, os) = Ok (Some tt) (ed', os').
Proof.
  intros Hmode Hrun Hok Hnum. unfold Editor.run_step.
  unfold bind at 1. unfold Editor.self_ at 1. cbv beta iota.
  rewrite Hmode. unfold bind at 1. rewrite Hrun.
  unfold bind, Editor.call, ret. rewrite renumber_items_id by assumption.
  now destruct ed'.
Qed.

Lemma typing_turns (s : list Z) :
  forall (lm : ListManager) (line top : Z) (fn : str) (cx ec : Z)
         (cur : ListItem) (os : OS),
    levels_ok (items lm) -> numbers_ok (items lm) ->
    0 <= line -> items lm !! Z.to_nat line = Some cur ->
    0 <= cx <= Py.len (content cur) ->
    Forall (fun ch => 32 <= ch <= 126) s ->
    Run.turns s (mkEditor lm INSERT line top fn cx ec, os)
    = Ok (Some tt)
         (mkEditor
            (set_items lm
               (<[Z.to_nat line :=
                    set_content cur
                      (take (Z.to_nat cx) (content cur)
                       ++ (chr <$> s)
                       ++ drop (Z.to_nat cx) (content cur))]> (items lm)))
            INSERT line top fn (cx + Py.len s)
            (match s with [] => ec | _ :: _ => 0 end), os).
Proof.
  induction s as [|ch rest IH]; intros lm line top fn cx ec cur os
    Hok Hnum Hline Hcur Hcx Hs.
  - simpl Run.turns. unfold ret.
    cbn [fmap list_fmap app]. rewrite take_drop, set_content_same.
    rewrite (list_insert_id _ _ _ Hcur), set_items_same.
    do 3 f_equal. unfold Py.len. simpl. lia.
  - apply Forall_cons in Hs as [Hch Hrest].
    simpl Run.turns.
    unfold bind at 1. unfold Editor.self_ at 1. cbv beta iota.
    cbn [list_manager mode Run.reads_second_key].
    set (c1 := Py.slice_to (content cur) cx ++ [chr ch]
               ++ Py.slice_from (content cur) cx).
    destruct (insert_content_ok (items lm) (Z.to_nat line) cur c1 Hcur Hok Hnum)
      as [Hok1 Hnum1].
    pose proof (insert_printable ch lm INSERT line top fn cx ec os cur
                  Hch Hline Hcur) as Hkey.
    fold c1 in Hkey.
    apply (run_step_insert ch 0) in Hkey; [|reflexivity|assumption..].
    unfold bind at 1. rewrite Hkey.
    rewrite (IH (set_items lm (<[Z.to_nat line := set_content cur c1]> (items lm)))
                line top fn (cx + 1) 0 (set_content cur c1) os);
      try assumption.
    2:{ cbn [items set_items]. apply list_lookup_insert_eq.
        now apply lookup_lt_Some in Hcur. }
    2:{ cbn [content set_content]. subst c1.
        rewrite slice_to_take, slice_from_drop by lia.
        unfold Py.len in *. rewrite !length_app, length_take, length_drop.
        simpl. lia. }
    cbn [items set_items content set_content].
    rewrite list_insert_insert_eq, set_content_twice. subst c1.
    rewrite slice_to_take, slice_from_drop by lia.
    assert (Hlen : length (take (Z.to_nat cx) (content cur)) = Z.to_nat cx).
    { rewrite length_take. unfold Py.len in Hcx. lia. }
    replace (Z.to_nat (cx + 1)) with (length (take (Z.to_nat cx) (content cur)
                                              ++ [chr ch]))
      by (rewrite length_app, Hlen; simpl; lia).
    rewrite !app_assoc.
    rewrite take_app_length, drop_app_length.
    rewrite fmap_cons. rewrite <- !app_assoc. simpl.
    replace (match rest with [] => 0 | _ :: _ => 0 end) with 0
      by now destruct rest.
    do 3 f_equal. unfold Py.len. simpl. lia.
Qed.

(** X25. Typing in INSERT mode. From a well-formed editor with the
    cursor inside the content of the current item, the turns of the loop
    of [run] (handler and renumbering; [display] is not part of a turn)
    fed with printable characters (codes 32 to 126) insert them, in
    order, at the cursor: the content becomes the part before the
    cursor, the text, the part after it. The cursor ends behind the
    text; no other item, level or number changes, no item is added, and
    the loop waits for the next key in INSERT mode. *)
Theorem typing_inserts_text (s : list Z) (ed : Editor) (os : OS)
        (cur : ListItem) :
  editor_ok ed -> mode ed = INSERT ->
  items (list_manager ed) !! Z.to_nat (current_line ed) = Some cur ->
  cursor_x ed <= Py.len (content cur) ->
  Forall (fun ch => 32 <= ch <= 126) s ->
  exists ed' : Editor,
    Run.turns s (ed, os) = Ok (Some tt) (ed', os)
    /\ items (list_manager ed')
       = <[Z.to_nat (current_line ed) :=
             set_content cur
               (take (Z.to_nat (cursor_x ed)) (content cur)
                ++ (chr <$> s)
                ++ drop (Z.to_nat (cursor_x ed)) (content cur))]>
           (items (list_manager ed))
    /\ cursor_x ed' = cursor_x ed + Py.len s
    /\ current_line ed' = current_line ed
    /\ mode ed' = INSERT.
Proof.
  intros (Hok & Hnum & Hline & Hcx & Htop) Hmode Hcur Hin Hs.
  destruct ed as [lm md line top fn cx ec].
  cbn [list_manager mode current_line cursor_x top_line] in *. subst md.
  rewrite (typing_turns s lm line top fn cx ec cur os);
    try assumption; try lia.
  eexists. split; [reflexivity|]. repeat split.
Qed.

Lemma typing_inserts_text_witness :
  exists ed' : Editor,
    Run.turns [ord "x"; ord "y"] (Sample.ab, Sample.os)
    = Ok (Some tt) (ed', Sample.os)
    /\ content <$> items (list_manager ed') = [lit "axyb"]
    /\ cursor_x ed' = 3.
Proof.
  destruct (typing_inserts_text [ord "x"; ord "y"] Sample.ab Sample.os
              (Sample.item "ab" 0 "1"))
    as (ed' & Hrun & Hits & Hcx & _).
  - unfold editor_ok. simpl. split; [repeat constructor; simpl; lia|].
    split; [reflexivity|]. unfold Py.len. simpl. lia.
  - reflexivity.
  - reflexivity.
  - unfold Py.len. simpl. lia.
  - repeat constructor; vm_compute; discriminate.
  - exists ed'. split; [exact Hrun|]. split; [now rewrite Hits|exact Hcx].
Defined.

(** X26. From a well-formed editor with the focus on an item and the
    cursor inside its content (at most its length), typing a printable
    character and then Backspace (any of its three codes) gives back the
    editor as it was, with [enter_count] 0: the items, the cursor and
    the focus are the same. *)
Theorem type_then_backspace (ch bs : Z) (ed : Editor) (os : OS)
        (cur : ListItem) :
  editor_ok ed ->
  items (list_manager ed) !! Z.to_nat (current_line ed) = Some cur ->
  cursor_x ed <= Py.len (content cur) ->
  32 <= ch <= 126 -> backspace bs ->
  bind (Editor.handle_insert_mode ch)
       (fun _ => Editor.handle_insert_mode bs) (ed, os)
  = Ok true (set_enter_count 0 ed, os).
Proof.
  intros (Hok & Hnum & Hline & Hcx & Htop) Hcur Hin Hch Hbs.
  destruct ed as [lm md line top fn cx ec].
  cbn [list_manager mode current_line cursor_x top_line] in *.
  unfold bind.
  rewrite (insert_printable ch lm md line top fn cx ec os cur Hch) by
    (assumption || lia).
  set (c1 := Py.slice_to (content cur) cx ++ [chr ch]
             ++ Py.slice_from (content cur) cx).
  rewrite (backspace_char bs _ md line top fn (cx + 1) 0 os (set_content cur c1)
             Hbs); try lia.
  2:{ cbn [items set_items]. apply list_lookup_insert_eq.
      now apply lookup_lt_Some in Hcur. }
  cbn [items set_items content set_content set_enter_count list_manager mode
       current_line top_line filename cursor_x].
  rewrite list_insert_insert_eq. subst c1.
  replace (cx + 1 - 1) with cx by lia.
  rewrite !slice_to_take, !slice_from_drop by lia.
  assert (Hlen : length (take (Z.to_nat cx) (content cur)) = Z.to_nat cx).
  { rewrite length_take. unfold Py.len in Hin. lia. }
  replace (Z.to_nat (cx + 1)) with (length (take (Z.to_nat cx) (content cur)
                                            ++ [chr ch]))
    by (rewrite length_app, Hlen; simpl; lia).
  rewrite app_assoc, drop_app_length.
  rewrite <- app_assoc, (take_app_length' _ _ (Z.to_nat cx)) by now symmetry.
  rewrite take_drop, set_content_twice, set_content_same.
  rewrite (list_insert_id _ _ _ Hcur).
  unfold set_items. cbn [root current_position items]. now destruct lm.
Qed.

Lemma type_then_backspace_witness :
  bind (Editor.handle_insert_mode (ord "x"))
       (fun _ => Editor.handle_insert_mode 127) (Sample.ab, Sample.os)
  = Ok true (Sample.ab, Sample.os).
Proof.
  apply (type_then_backspace (ord "x") 127 Sample.ab Sample.os
           (Sample.item "ab" 0 "1")).
  - unfold editor_ok. simpl. split; [repeat constructor; simpl; lia|].
    split; [reflexivity|]. unfold Py.len. simpl. lia.
  - reflexivity.
  - unfold Py.len. simpl. lia.
  - vm_compute. split; discriminate.
  - right. left. reflexivity.
Defined.

Lemma insert_below {A} (l : list A) (line : Z) (x : A) :
  0 <= line < Py.len l ->
  Py.insert l (line + 1) x
  = take (S (Z.to_nat line)) l ++ x :: drop (S (Z.to_nat line)) l.
Proof.
  intros H. rewrite insert_take_drop_bound. unfold Py.slice_bound.
  destruct (Z.ltb_spec (line + 1) 0); [lia|].
  rewrite Z.min_l by lia.
  replace (Z.to_nat (line + 1)) with (S (Z.to_nat line)) by lia.
  reflexivity.
Qed.

(** X27. Two Enter keys in a row, from [enter_count] 0 with the cursor
    inside the content. The first breaks the content at the cursor; the
    second adds an empty item below the current one, at its level, and
    moves the focus to it. The line break stays in the old item, which
    keeps both parts, and [cursor_x] is the old offset plus one, not 0. *)
Theorem enter_twice (ed : Editor) (os : OS) (cur : ListItem) :
  editor_ok ed -> enter_count ed = 0 ->
  items (list_manager ed) !! Z.to_nat (current_line ed) = Some cur ->
  cursor_x ed <= Py.len (content cur) ->
  let k := Z.to_nat (current_line ed) in
  let x := Z.to_nat (cursor_x ed) in
  exists (ed' : Editor) (os' : OS),
    bind (Editor.handle_insert_mode 10)
         (fun _ => Editor.handle_insert_mode 10) (ed, os)
    = Ok true (ed', os')
    /\ content <$> items (list_manager ed')
       = take k (content <$> items (list_manager ed))
         ++ (take x (content cur) ++ ["010"%char] ++ drop x (content cur))
         :: [] :: drop (S k) (content <$> items (list_manager ed))
    /\ level <$> items (list_manager ed')
       = take (S k) (level <$> items (list_manager ed))
         ++ level cur :: drop (S k) (level <$> items (list_manager ed))
    /\ current_line ed' = current_line ed + 1
    /\ cursor_x ed' = cursor_x ed + 1
    /\ enter_count ed' = 0 /\ mode ed' = mode ed
    /\ numbers_ok (items (list_manager ed')).
Proof.
  intros (Hok & Hnum & Hline & Hcx & Htop) Hec Hcur Hin k x.
  destruct ed as [lm md line top fn cx ec].
  cbn [list_manager mode current_line cursor_x top_line enter_count] in *. subst ec.
  pose proof (focus_in_range _ _ _ (proj1 Hline) Hcur) as Hlt.
  unfold bind.
  rewrite (insert_enter_single lm md line top fn cx 0 os cur) by
    (assumption || lia).
  set (c1 := Py.slice_to (content cur) cx ++ ["010"%char]
             ++ Py.slice_from (content cur) cx).
  destruct (insert_content_ok (items lm) (Z.to_nat line) cur c1 Hcur Hok Hnum)
    as [Hok1 Hnum1].
  assert (Hcur1 : <[Z.to_nat line := set_content cur c1]> (items lm)
                  !! Z.to_nat line = Some (set_content cur c1)).
  { apply list_lookup_insert_eq. now apply lookup_lt_Some in Hcur. }
  rewrite (insert_enter_double _ md line top fn (cx + 1) os (set_content cur c1))
    by (assumption || lia).
  eexists _, _. split; [reflexivity|].
  cbn [list_manager items set_items mode current_line cursor_x enter_count
       level set_content].
  assert (Hlt1 : 0 <= line < Py.len (<[Z.to_nat line := set_content cur c1]>
                                       (items lm)))
    by now rewrite len_insert.
  assert (Hk : (Z.to_nat line < length (items lm))%nat)
    by now apply lookup_lt_Some in Hcur.
  split; [|split; [|split; [reflexivity|split; [reflexivity|split;
    [reflexivity|split; [reflexivity|]]]]]].
  - rewrite numbered_content, insert_below by assumption.
    rewrite fmap_app, fmap_cons, fmap_take, fmap_drop, list_fmap_insert.
    cbn [content set_content new_ListItem].
    rewrite drop_insert_lt by lia. subst c1 k x.
    rewrite slice_to_take, slice_from_drop by lia.
    rewrite (take_S_r _ _ (take (Z.to_nat cx) (content cur) ++ ["010"%char]
                           ++ drop (Z.to_nat cx) (content cur))).
    + rewrite take_insert_ge by lia. now rewrite <- app_assoc.
    + rewrite list_lookup_insert_eq; [reflexivity|].
      now rewrite length_fmap.
  - rewrite numbered_level, insert_below by assumption.
    rewrite fmap_app, fmap_cons, fmap_take, fmap_drop, list_fmap_insert.
    cbn [level set_content new_ListItem].
    rewrite list_insert_id; [reflexivity|].
    now rewrite list_lookup_fmap, Hcur.
  - apply numbered_numbers_ok. apply insert_levels_ok; [exact Hok1|].
    cbn [level new_ListItem set_content].
    unfold levels_ok in Hok. rewrite Forall_lookup in Hok. eauto.
Qed.

Lemma enter_twice_witness :
  exists (ed' : Editor) (os' : OS),
    bind (Editor.handle_insert_mode 10)
         (fun _ => Editor.handle_insert_mode 10) (Sample.ab, Sample.os)
    = Ok true (ed', os')
    /\ content <$> items (list_manager ed') = [lit "a" ++ ["010"%char] ++ lit "b"; []]
    /\ cursor_x ed' = 2.
Proof.
  destruct (enter_twice Sample.ab Sample.os (Sample.item "ab" 0 "1"))
    as (ed' & os' & Hrun & Hc & _ & _ & Hx & _).
  - unfold editor_ok. simpl. split; [repeat constructor; simpl; lia|].
    split; [reflexivity|]. unfold Py.len. simpl. lia.
  - reflexivity.
  - reflexivity.
  - unfold Py.len. simpl. lia.
  - exists ed', os'. split; [exact Hrun|]. split; [exact Hc|exact Hx].
Defined.

(** X28. Opening a line in NORMAL mode. [o] adds an empty item below
    the current one, at the level of the current item, and moves the
    focus to it. [O] adds an empty item at the current index, so above
    the current item, at the level of the item before it (level 0 on the
    first line), and the focus stays on that index. Both switch to INSERT
    mode with the cursor at offset 0. *)
Theorem open_line (getch : Z) (ed : Editor) (os : OS) (cur : ListItem) :
  editor_ok ed ->
  items (list_manager ed) !! Z.to_nat (current_line ed) = Some cur ->
  let k := Z.to_nat (current_line ed) in
  let cs := content <$> items (list_manager ed) in
  let ls := level <$> items (list_manager ed) in
  (exists (ed' : Editor) (os' : OS),
     Editor.handle_normal_mode (ord "o") getch (ed, os) = Ok true (ed', os')
     /\ content <$> items (list_manager ed') = take (S k) cs ++ [] :: drop (S k) cs
     /\ level <$> items (list_manager ed')
        = take (S k) ls ++ level cur :: drop (S k) ls
     /\ current_line ed' = current_line ed + 1
     /\ cursor_x ed' = 0 /\ mode ed' = INSERT)
  /\ (exists (ed' : Editor) (os' : OS),
        Editor.handle_normal_mode (ord "O") getch (ed, os) = Ok true (ed', os')
        /\ content <$> items (list_manager ed') = take k cs ++ [] :: drop k cs
        /\ level <$> items (list_manager ed')
           = take k ls ++ match k with
                          | O => 0
                          | S p => default 0 (ls !! p)
                          end :: drop k ls
        /\ current_line ed' = current_line ed
        /\ cursor_x ed' = 0 /\ mode ed' = INSERT).
Proof.
  intros (Hok & Hnum & Hline & Hcx & Htop) Hcur k cs ls. subst k cs ls.
  destruct ed as [[its pos rt] md line top fn cx ec].
  cbn [list_manager items mode current_line cursor_x] in *.
  pose proof (focus_in_range _ _ _ (proj1 Hline) Hcur) as Hlt.
  destruct its as [|a rest]; [discriminate|].
  split.
  - unfold Editor.handle_normal_mode. eval_ord. eval_tests. run_ed.
    match goal with
    | |- context [add_item ?c None (?lm, ?os)] =>
        destruct (add_item_default_ok c lm os) as (it & -> & _);
          [split; [exact Hok|cbn [current_position set_current_position items]; lia]|]
    end.
    run_ed. eexists _, _. split; [reflexivity|].
    cbn [list_manager set_list_manager items current_line cursor_x mode
         set_mode set_cursor_x set_current_line set_current_position
         current_position].
    replace (Z.to_nat (line + 1)) with (S (Z.to_nat line)) by lia.
    split; [|split; [|repeat split]].
    + rewrite numbered_content, fmap_app, fmap_cons, fmap_take, fmap_drop.
      reflexivity.
    + rewrite numbered_level, fmap_app, fmap_cons, fmap_take, fmap_drop.
      cbn [level new_ListItem].
      unfold recommended_level, set_current_position.
      cbn [current_position items].
      destruct (Z.eqb_spec (line + 1) 0); [lia|].
      replace (line + 1 - 1) with line by lia. now rewrite Hcur.
  - unfold Editor.handle_normal_mode. eval_ord. eval_tests. run_ed.
    match goal with
    | |- context [add_item ?c None (?lm, ?os)] =>
        destruct (add_item_default_ok c lm os) as (it & -> & _);
          [split; [exact Hok|cbn [current_position set_current_position items]; lia]|]
    end.
    run_ed. eexists _, _. split; [reflexivity|].
    cbn [list_manager set_list_manager items current_line cursor_x mode
         set_mode set_cursor_x set_current_line set_current_position
         current_position].
    split; [|split; [|repeat split]].
    + rewrite numbered_content, fmap_app, fmap_cons, fmap_take, fmap_drop.
      reflexivity.
    + rewrite numbered_level, fmap_app, fmap_cons, fmap_take, fmap_drop.
      cbn [level new_ListItem].
      unfold recommended_level, set_current_position.
      cbn [current_position items].
      destruct (Z.eqb_spec line 0) as [->|N]; [reflexivity|].
      destruct (Z.to_nat line) as [|p] eqn:Ek; [lia|].
      replace (Z.to_nat (line - 1)) with p by lia.
      change (level a :: (level <$> rest)) with (level <$> a :: rest).
      rewrite list_lookup_fmap.
      now destruct ((a :: rest) !! p).
Qed.

Lemma open_line_witness :
  exists (ed' : Editor) (os' : OS),
    Editor.handle_normal_mode (ord "O") 0
      (set_mode NORMAL
         (Sample.editor [Sample.item "a" 0 "1"; Sample.item "b" 1 "1.1"] 1 0 0),
       Sample.os)
    = Ok true (ed', os')
    /\ level <$> items (list_manager ed') = [0; 0; 1].
Proof.
  destruct (open_line 0
              (set_mode NORMAL
                 (Sample.editor [Sample.item "a" 0 "1"; Sample.item "b" 1 "1.1"]
                    1 0 0))
              Sample.os (Sample.item "b" 1 "1.1"))
    as [_ (ed' & os' & Hrun & _ & Hl & _)].
  - unfold editor_ok. simpl. split; [repeat constructor; simpl; lia|].
    split; [reflexivity|]. unfold Py.len. simpl. lia.
  - reflexivity.
  - exists ed', os'. split; [exact Hrun|exact Hl].
Defined.

Lemma insert_escape (lm : ListManager) md line top fn cx ec
      (os : OS) (cur : ListItem) :
  0 <= line -> items lm !! Z.to_nat line = Some cur ->
  Editor.handle_insert_mode 27 (mkEditor lm md line top fn cx ec, os)
  = Ok true (mkEditor lm NORMAL line top fn cx 0, os).
Proof.
  intros Hline Hcur.
  pose proof (focus_in_range _ _ _ Hline Hcur) as Hlt.
  destruct lm as [its pos rt]. cbn [items] in *.
  destruct its as [|a rest]; [discriminate|].
  focus_on Hlt Hcur. reflexivity.
Qed.

Lemma normal_i (getch : Z) (lm : ListManager) md line top fn cx ec
      (os : OS) (cur : ListItem) :
  0 <= line -> items lm !! Z.to_nat line = Some cur ->
  Editor.handle_normal_mode (ord "i") getch (mkEditor lm md line top fn cx ec, os)
  = Ok true (mkEditor lm INSERT line top fn (Py.len (content cur)) ec, os).
Proof.
  intros Hline Hcur.
  pose proof (focus_in_range _ _ _ Hline Hcur) as Hlt.
  destruct lm as [its pos rt]. cbn [items] in *.
  destruct its as [|a rest]; [discriminate|].
  unfold Editor.handle_normal_mode. eval_ord. eval_tests. run_ed.
  rewrite (getitem_in_range _ _ Hlt), Hcur. reflexivity.
Qed.

(** X29. Leaving INSERT mode with ESC and entering it again with [i]
    puts the cursor at the end of the content of the current item and
    sets [enter_count] to 0; nothing else changes, whatever the offset
    was before. *)
Theorem escape_then_insert (g1 g2 : Z) (ed : Editor) (os : OS)
        (cur : ListItem) :
  editor_ok ed -> mode ed = INSERT ->
  items (list_manager ed) !! Z.to_nat (current_line ed) = Some cur ->
  bind (Editor.run_step 27 g1) (fun _ => Editor.run_step (ord "i") g2) (ed, os)
  = Ok (Some tt)
       (set_cursor_x (Py.len (content cur)) (set_enter_count 0 ed), os).
Proof.
  intros (Hok & Hnum & Hline & Hcx & Htop) Hmode Hcur.
  destruct ed as [lm md line top fn cx ec].
  cbn [list_manager mode current_line cursor_x top_line] in *. subst md.
  pose proof (insert_escape lm INSERT line top fn cx ec os cur
                (proj1 Hline) Hcur) as Hesc.
  apply (run_step_insert 27 g1) in Hesc; [|reflexivity|assumption..].
  unfold bind at 1. rewrite Hesc.
  unfold Editor.run_step. unfold bind at 1. unfold Editor.self_ at 1.
  cbv beta iota. cbn [mode]. unfold bind at 1. unfold bind at 1.
  rewrite (normal_i g2 lm NORMAL line top fn cx 0 os cur (proj1 Hline) Hcur).
  eval_ord. eval_tests. unfold bind, ret, Editor.call. cbn [list_manager].
  rewrite renumber_items_id by assumption. reflexivity.
Qed.

Lemma escape_then_insert_witness :
  bind (Editor.run_step 27 0) (fun _ => Editor.run_step (ord "i") 0)
       (Sample.ab, Sample.os)
  = Ok (Some tt) (set_cursor_x 2 Sample.ab, Sample.os).
Proof.
  apply (escape_then_insert 0 0 Sample.ab Sample.os (Sample.item "ab" 0 "1")).
  - unfold editor_ok. simpl. split; [repeat constructor; simpl; lia|].
    split; [reflexivity|]. unfold Py.len. simpl. lia.
  - reflexivity.
  - reflexivity.
Defined.

End Keys.

Section Cursor.

Import ListManager Outline.












End Cursor.
